(** * Workflow orchestration engine ([src/workflow/server.py])

    A shallow embedding of the workflow engine: the condition matcher,
    the parameter resolver, the tool dispatcher, the step interpreter
    [execute_workflow], the execution history store and the tool entry
    points [trigger_workflow] and [get_workflow_execution].

    Conventions of the embedding.
    - A Python [str] is a [string]; its characters are read as code points
      below 256.
    - A Python value of type [Any] is a [value] (a tree: [None], booleans,
      integers, strings, lists and string-keyed dictionaries).  A dictionary
      keeps its insertion order, so it is an association list.
    - A Python call that may raise returns an [outcome]; the exception carries
      what [str(e)] prints, because the engine stores that text.
    - [datetime.now()] reads the next value of a clock kept in the engine
      state; [print] appends to a log kept there too. *)

From Stdlib Require Import List String Ascii ZArith NArith Bool Arith Lia.
From Stdlib Require Import Decimal DecimalString DecimalN DecimalZ DecimalPos DecimalFacts.
Import ListNotations.

Local Open Scope list_scope.
Local Open Scope string_scope.

(* ================================================================== *)
(** * Python strings *)
(* ================================================================== *)

Module PyStr.

(** The double quote and the control characters that string literals of
    this file cannot hold directly. *)
Definition dquote : ascii := ascii_of_nat 34.
Definition backslash : ascii := ascii_of_nat 92.
Definition char_bs : ascii := ascii_of_nat 8.
Definition char_tab : ascii := ascii_of_nat 9.
Definition char_nl : ascii := ascii_of_nat 10.
Definition char_ff : ascii := ascii_of_nat 12.
Definition char_cr : ascii := ascii_of_nat 13.

Definition code (c : ascii) : nat := nat_of_ascii c.

Definition between (lo hi n : nat) : bool := ((lo <=? n) && (n <=? hi))%nat.

(** [s.startswith(p)] *)
Definition startswith (s p : string) : bool := String.prefix p s.

(** [sub in s] for two strings *)
Fixpoint contains (sub s : string) : bool :=
  if String.prefix sub s then true
  else match s with
       | EmptyString => false
       | String _ s' => contains sub s'
       end.

Fixpoint drop (n : nat) (s : string) : string :=
  match n, s with
  | O, _ => s
  | S n', String _ s' => drop n' s'
  | S _, EmptyString => EmptyString
  end.

Fixpoint take (n : nat) (s : string) : string :=
  match n, s with
  | S n', String c s' => String c (take n' s')
  | _, _ => EmptyString
  end.

(** A slice bound as Python normalises it: a negative index counts from
    the end, and the result is clamped to [0, len]. *)
Definition slice_index (len : nat) (i : Z) : nat :=
  let j := if (i <? 0)%Z then (i + Z.of_nat len)%Z else i in
  Nat.min len (Z.to_nat j).

(** [s[start:stop]] *)
Definition slice (s : string) (start stop : Z) : string :=
  let len := String.length s in
  let a := slice_index len start in
  let b := slice_index len stop in
  take (b - a) (drop a s).

(** [s.split(sep)] for a separator of one character *)
Fixpoint split (sep : ascii) (s : string) : list string :=
  match s with
  | EmptyString => [EmptyString]
  | String c s' =>
      if Ascii.eqb c sep then EmptyString :: split sep s'
      else match split sep s' with
           | [] => [String c EmptyString]
           | w :: ws => String c w :: ws
           end
  end.

(** [s.replace(c, by)] for a pattern of one character *)
Fixpoint replace (c : ascii) (by_ : string) (s : string) : string :=
  match s with
  | EmptyString => EmptyString
  | String x s' =>
      if Ascii.eqb x c then by_ ++ replace c by_ s'
      else String x (replace c by_ s')
  end.

Fixpoint rev_onto (s acc : string) : string :=
  match s with
  | EmptyString => acc
  | String c s' => rev_onto s' (String c acc)
  end.

Definition rev (s : string) : string := rev_onto s EmptyString.

Fixpoint lstrip (p : ascii -> bool) (s : string) : string :=
  match s with
  | EmptyString => EmptyString
  | String c s' => if p c then lstrip p s' else s
  end.

Definition rstrip (p : ascii -> bool) (s : string) : string :=
  rev (lstrip p (rev s)).

(** [s.strip(chars)], the characters to remove given as a predicate *)
Definition strip_with (p : ascii -> bool) (s : string) : string :=
  rstrip p (lstrip p s).

Fixpoint mem_char (c : ascii) (s : string) : bool :=
  match s with
  | EmptyString => false
  | String x s' => Ascii.eqb c x || mem_char c s'
  end.

(** [str.isspace] on one code point below 256 *)
Definition isspace (c : ascii) : bool :=
  let n := code c in
  between 9 13 n || between 28 32 n || (n =? 133)%nat || (n =? 160)%nat.

(** [s.strip()] *)
Definition strip (s : string) : string := strip_with isspace s.

(** [s.strip(chars)] *)
Definition strip_chars (chars s : string) : string :=
  strip_with (fun c => mem_char c chars) s.

(** [str.lower] on one code point below 256: the ASCII capitals and the
    Latin-1 capitals 0xC0 to 0xDE, the multiplication sign apart. *)
Definition lower_char (c : ascii) : ascii :=
  let n := code c in
  if between 65 90 n then ascii_of_nat (n + 32)
  else if between 192 222 n && negb (n =? 215)%nat then ascii_of_nat (n + 32)
  else c.

Fixpoint lower (s : string) : string :=
  match s with
  | EmptyString => EmptyString
  | String c s' => String (lower_char c) (lower s')
  end.

(** [sep.join(l)] *)
Fixpoint join (sep : string) (l : list string) : string :=
  match l with
  | [] => EmptyString
  | [x] => x
  | x :: rest => x ++ sep ++ join sep rest
  end.

Definition hex_digit (n : nat) : ascii :=
  if (n <? 10)%nat then ascii_of_nat (48 + n) else ascii_of_nat (87 + n).

(** Two lower-case hexadecimal digits of a code point below 256 *)
Definition hex2 (c : ascii) : string :=
  let n := code c in
  String (hex_digit (n / 16)) (String (hex_digit (n mod 16)) EmptyString).

(** [str(n)] for a natural number and for an integer *)
Definition of_N (n : N) : string := NilZero.string_of_uint (N.to_uint n).

Definition of_Z (z : Z) : string :=
  match z with
  | Zneg p => String "-" (of_N (Npos p))
  | _ => of_N (Z.to_N z)
  end.

(** A number written with at least [width] digits, zero padded on the
    left, as the [%02d] and [%04d] fields of [strftime] are. *)
Fixpoint zeros (n : nat) : string :=
  match n with
  | O => EmptyString
  | S n' => String "0" (zeros n')
  end.

Definition zfill (width : nat) (s : string) : string :=
  zeros (width - String.length s) ++ s.

Definition pad (width : nat) (n : N) : string := zfill width (of_N n).

End PyStr.

(* ================================================================== *)
(** * Python values, exceptions and dictionaries *)
(* ================================================================== *)

(** The values that flow through the engine: what [yaml.safe_load] and the
    tool-call layer deliver for trigger data and step parameters, and what
    the tools return.  Numbers are integers: the engine does no arithmetic
    on the values it carries. *)
Unset Elimination Schemes.
Inductive value : Type :=
| VNone
| VBool (b : bool)
| VInt (z : Z)
| VStr (s : string)
| VList (l : list value)
| VDict (d : list (string * value)).
Set Elimination Schemes.

Definition dict : Type := list (string * value).

(** The exceptions the engine can meet.  [Unmodelled] is not a Python
    exception: it marks an input outside what this development reads (a
    regular expression outside the fragment of [Re.compile], a number with
    a fraction or a code point above 255 in a JSON text). *)
Inductive exn : Type :=
| KeyError (key : string)
| AttributeError (msg : string)
| ValueError (msg : string)
| TypeError (msg : string)
| JSONDecodeError (msg : string)
| Unmodelled (what : string).

Inductive outcome (A : Type) : Type :=
| Ok (a : A)
| Raise (e : exn).

Arguments Ok {A} a.
Arguments Raise {A} e.

Definition bind {A B : Type} (m : outcome A) (f : A -> outcome B) : outcome B :=
  match m with
  | Ok a => f a
  | Raise e => Raise e
  end.

Notation "x <- m ;; k" := (bind m (fun x => k))
  (at level 61, m at next level, right associativity).
Notation "' p <- m ;; k" := (bind m (fun x => let p := x in k))
  (at level 61, p pattern, m at next level, right associativity).

Module PyDict.

(** [d.get(key)] as an option *)
Fixpoint lookup {V : Type} (d : list (string * V)) (key : string) : option V :=
  match d with
  | [] => None
  | (k, v) :: rest => if String.eqb k key then Some v else lookup rest key
  end.

(** [d.get(key, default)] *)
Definition get (d : dict) (key : string) (default : value) : value :=
  match lookup d key with
  | Some v => v
  | None => default
  end.

(** [d[key] = v]: an existing key keeps its place, a new one goes last. *)
Fixpoint set {V : Type} (d : list (string * V)) (key : string) (v : V)
  : list (string * V) :=
  match d with
  | [] => [(key, v)]
  | (k, x) :: rest =>
      if String.eqb k key then (k, v) :: rest else (k, x) :: set rest key v
  end.

(** [key in d] *)
Definition mem {V : Type} (d : list (string * V)) (key : string) : bool :=
  match lookup d key with
  | Some _ => true
  | None => false
  end.

End PyDict.

Module PyVal.

(** [type(v).__name__] *)
Definition type_name (v : value) : string :=
  match v with
  | VNone => "NoneType"
  | VBool _ => "bool"
  | VInt _ => "int"
  | VStr _ => "str"
  | VList _ => "list"
  | VDict _ => "dict"
  end.

(** The [AttributeError] of a method call on a value without the method *)
Definition no_attribute (v : value) (attr : string) : exn :=
  AttributeError ("'" ++ type_name v ++ "' object has no attribute '" ++ attr ++ "'").

(** Structural equality.  On the values of two dictionaries whose keys
    are in the same order; the engine compares values only against
    strings, where this is Python's [==]. *)
Fixpoint eqb (a b : value) : bool :=
  match a, b with
  | VNone, VNone => true
  | VBool x, VBool y => Bool.eqb x y
  | VInt x, VInt y => Z.eqb x y
  | VStr x, VStr y => String.eqb x y
  | VList x, VList y =>
      (fix go (l1 l2 : list value) : bool :=
         match l1, l2 with
         | [], [] => true
         | u :: r1, v :: r2 => eqb u v && go r1 r2
         | _, _ => false
         end) x y
  | VDict x, VDict y =>
      (fix go (l1 l2 : list (string * value)) : bool :=
         match l1, l2 with
         | [], [] => true
         | (k1, u) :: r1, (k2, v) :: r2 => String.eqb k1 k2 && eqb u v && go r1 r2
         | _, _ => false
         end) x y
  | _, _ => false
  end.

(** [repr] of one character inside a string literal quoted by [q] *)
Definition repr_char (q : ascii) (c : ascii) : string :=
  let n := PyStr.code c in
  if Ascii.eqb c q || Ascii.eqb c PyStr.backslash
  then String PyStr.backslash (String c EmptyString)
  else if Ascii.eqb c PyStr.char_tab then String PyStr.backslash "t"
  else if Ascii.eqb c PyStr.char_nl then String PyStr.backslash "n"
  else if Ascii.eqb c PyStr.char_cr then String PyStr.backslash "r"
  else if (n <? 32)%nat || PyStr.between 127 160 n || (n =? 173)%nat
  then String PyStr.backslash (String "x" (PyStr.hex2 c))
  else String c EmptyString.

Fixpoint repr_chars (q : ascii) (s : string) : string :=
  match s with
  | EmptyString => EmptyString
  | String c s' => repr_char q c ++ repr_chars q s'
  end.

(** [repr(s)] for a string: single quotes, unless the text holds a single
    quote and no double quote. *)
Definition repr_str (s : string) : string :=
  let q := if PyStr.mem_char "'" s && negb (PyStr.mem_char PyStr.dquote s)
           then PyStr.dquote else "'"%char in
  String q (repr_chars q s ++ String q EmptyString).

(** [repr(v)] *)
Fixpoint repr (v : value) : string :=
  match v with
  | VNone => "None"
  | VBool true => "True"
  | VBool false => "False"
  | VInt z => PyStr.of_Z z
  | VStr s => repr_str s
  | VList l =>
      "[" ++ (fix items (l : list value) : string :=
                match l with
                | [] => EmptyString
                | [x] => repr x
                | x :: rest => repr x ++ ", " ++ items rest
                end) l ++ "]"
  | VDict d =>
      "{" ++ (fix items (d : list (string * value)) : string :=
                match d with
                | [] => EmptyString
                | [(k, x)] => repr_str k ++ ": " ++ repr x
                | (k, x) :: rest => repr_str k ++ ": " ++ repr x ++ ", " ++ items rest
                end) d ++ "}"
  end.

(** [str(v)] *)
Definition str (v : value) : string :=
  match v with
  | VStr s => s
  | _ => repr v
  end.

(** [str(e)] for an exception *)
Definition str_exn (e : exn) : string :=
  match e with
  | KeyError k => repr_str k
  | AttributeError m => m
  | ValueError m => m
  | TypeError m => m
  | JSONDecodeError m => m
  | Unmodelled w => w
  end.

(** [x in l] for a list of strings: equality with one of its elements *)
Definition in_strings (x : value) (l : list string) : bool :=
  existsb (fun s => eqb x (VStr s)) l.

End PyVal.

(* ================================================================== *)
(** * Regular expressions: the part of [re] the condition matcher uses *)
(* ================================================================== *)

(** [match_conditions] calls [re.match] with two fixed patterns and
    [re.search] with a pattern taken from the condition text.  [Re] reads a
    fragment of the pattern syntax (literal characters, [.], the classes
    [\w \s \d] and their complements, escaped punctuation, sets of literal
    characters such as [[^']], capturing groups and the greedy quantifiers
    [* + ?]) and matches by backtracking in Python's order of preference.
    A pattern outside the fragment is reported as [Unmodelled]. *)
Module Re.

Inductive charset : Type :=
| CChar (c : ascii)
| CDot
| CWord (positive : bool)
| CSpace (positive : bool)
| CDigit (positive : bool)
| CSet (negated : bool) (members : string).

Inductive regex : Type :=
| Eps
| Chr (cs : charset)
| Cat (r1 r2 : regex)
| Star (r : regex)
| Plus (r : regex)
| Opt (r : regex)
| Group (index : nat) (r : regex).

Definition isdigit (c : ascii) : bool := PyStr.between 48 57 (PyStr.code c).

(** [\w] on a code point below 256: letters, digits, the underscore and
    the alphanumeric characters of Latin-1. *)
Definition isword (c : ascii) : bool :=
  let n := PyStr.code c in
  PyStr.between 48 57 n || PyStr.between 65 90 n || PyStr.between 97 122 n
  || (n =? 95)%nat || (n =? 170)%nat || PyStr.between 178 179 n
  || (n =? 181)%nat || PyStr.between 185 186 n || PyStr.between 188 190 n
  || PyStr.between 192 214 n || PyStr.between 216 246 n
  || PyStr.between 248 255 n.

Definition in_charset (cs : charset) (c : ascii) : bool :=
  match cs with
  | CChar x => Ascii.eqb c x
  | CDot => negb (Ascii.eqb c PyStr.char_nl)
  | CWord pos => Bool.eqb (isword c) pos
  | CSpace pos => Bool.eqb (PyStr.isspace c) pos
  | CDigit pos => Bool.eqb (isdigit c) pos
  | CSet neg members => Bool.eqb (PyStr.mem_char c members) (negb neg)
  end.

(** Captured groups, by index *)
Definition captures : Type := list (nat * string).

Definition set_capture (caps : captures) (i : nat) (text : string) : captures :=
  (i, text) :: filter (fun p => negb (Nat.eqb (fst p) i)) caps.

Fixpoint get_capture (caps : captures) (i : nat) : option string :=
  match caps with
  | [] => None
  | (j, t) :: rest => if Nat.eqb i j then Some t else get_capture rest i
  end.

(** A matcher takes the text, the groups captured so far and a
    continuation for the rest of the text; it answers with the first
    success in the order of preference. *)
Definition continuation : Type := string -> captures -> option captures.
Definition matcher : Type := string -> captures -> continuation -> option captures.

(** Greedy repetition of [step]: one more iteration is tried first, then
    the continuation.  An iteration counts only if it consumed text, so
    [fuel], the length of the text, bounds the iterations. *)
Fixpoint star_loop (step : matcher) (k : continuation) (fuel : nat)
         (s : string) (caps : captures) {struct fuel} : option captures :=
  match fuel with
  | O => k s caps
  | S fuel' =>
      match step s caps
              (fun s' caps' =>
                 if (String.length s' <? String.length s)%nat
                 then star_loop step k fuel' s' caps' else None) with
      | Some c => Some c
      | None => k s caps
      end
  end.

(** [run r s caps k]: match [r] at the start of [s], then hand the rest of
    the text to [k]. *)
Fixpoint run (r : regex) (s : string) (caps : captures) (k : continuation)
         {struct r} : option captures :=
  match r with
  | Eps => k s caps
  | Chr cs =>
      match s with
      | String c s' => if in_charset cs c then k s' caps else None
      | EmptyString => None
      end
  | Cat r1 r2 => run r1 s caps (fun s' caps' => run r2 s' caps' k)
  | Star r1 => star_loop (run r1) k (String.length s) s caps
  | Plus r1 =>
      run r1 s caps
        (fun s1 caps1 => star_loop (run r1) k (String.length s1) s1 caps1)
  | Opt r1 =>
      match run r1 s caps k with
      | Some c => Some c
      | None => k s caps
      end
  | Group i r1 =>
      run r1 s caps
        (fun s' caps' =>
           k s' (set_capture caps' i
                   (PyStr.take (String.length s - String.length s') s)))
  end.

(** A match anchored at the start of the text, as [re.match] *)
Definition match_at (r : regex) (s : string) : option captures :=
  run r s [] (fun _ caps => Some caps).

(** The leftmost match, as [re.search] *)
Fixpoint search_from (r : regex) (s : string) : option captures :=
  match match_at r s with
  | Some c => Some c
  | None =>
      match s with
      | EmptyString => None
      | String _ s' => search_from r s'
      end
  end.

(** ** Reading a pattern *)

Definition is_quantifier (c : ascii) : bool := PyStr.mem_char c "*+?{".

(** The members of a set: literal characters up to the closing bracket.
    A range, an escape or a bracket inside the set is outside the
    fragment. *)
Fixpoint read_set (s : string) (acc : string) : option (string * string) :=
  match s with
  | EmptyString => None
  | String c s' =>
      if Ascii.eqb c "]" then
        match acc with
        | EmptyString => None
        | _ => Some (PyStr.rev acc, s')
        end
      else if PyStr.mem_char c "-[" || Ascii.eqb c PyStr.backslash then None
      else read_set s' (String c acc)
  end.

(** An escape sequence after the backslash *)
Definition read_escape (c : ascii) : option charset :=
  if Ascii.eqb c "w" then Some (CWord true)
  else if Ascii.eqb c "W" then Some (CWord false)
  else if Ascii.eqb c "s" then Some (CSpace true)
  else if Ascii.eqb c "S" then Some (CSpace false)
  else if Ascii.eqb c "d" then Some (CDigit true)
  else if Ascii.eqb c "D" then Some (CDigit false)
  else if isword c || negb (PyStr.between 33 126 (PyStr.code c)) then None
  else Some (CChar c).

Definition quantify (atom : regex) (s : string) : option (regex * string) :=
  let plain (r : regex) (rest : string) :=
    match rest with
    | String q _ => if is_quantifier q then None else Some (r, rest)
    | EmptyString => Some (r, rest)
    end in
  match s with
  | String "*" rest => plain (Star atom) rest
  | String "+" rest => plain (Plus atom) rest
  | String "?" rest => plain (Opt atom) rest
  | String "{" _ => None
  | _ => Some (atom, s)
  end.

(** [read fuel s g]: a sequence of quantified atoms, up to the end of the
    pattern or to a closing parenthesis; [g] counts the groups opened so
    far.  Returns the expression, the unread text and the new count. *)
Fixpoint read (fuel : nat) (s : string) (g : nat)
  : option (regex * string * nat) :=
  match fuel with
  | O => None
  | S fuel' =>
      match s with
      | EmptyString => Some (Eps, s, g)
      | String c s' =>
          if Ascii.eqb c ")" then Some (Eps, s, g)
          else
            let atom : option (regex * string * nat) :=
              if Ascii.eqb c "(" then
                match s' with
                | String "?" _ => None
                | _ =>
                    match read fuel' s' (S g) with
                    | Some (r, String ")" rest, g') => Some (Group (S g) r, rest, g')
                    | _ => None
                    end
                end
              else if Ascii.eqb c "[" then
                match s' with
                | String "^" s'' =>
                    match read_set s'' EmptyString with
                    | Some (m, rest) => Some (Chr (CSet true m), rest, g)
                    | None => None
                    end
                | _ =>
                    match read_set s' EmptyString with
                    | Some (m, rest) => Some (Chr (CSet false m), rest, g)
                    | None => None
                    end
                end
              else if Ascii.eqb c PyStr.backslash then
                match s' with
                | String e rest =>
                    match read_escape e with
                    | Some cs => Some (Chr cs, rest, g)
                    | None => None
                    end
                | EmptyString => None
                end
              else if Ascii.eqb c "." then Some (Chr CDot, s', g)
              else if PyStr.mem_char c "*+?{|^$" then None
              else Some (Chr (CChar c), s', g) in
            match atom with
            | None => None
            | Some (a, rest, g') =>
                match quantify a rest with
                | None => None
                | Some (qa, rest') =>
                    match read fuel' rest' g' with
                    | Some (Eps, rest'', g'') => Some (qa, rest'', g'')
                    | Some (r, rest'', g'') => Some (Cat qa r, rest'', g'')
                    | None => None
                    end
                end
            end
      end
  end.

(** [re.compile(pattern)]: the expression and its number of groups *)
Definition compile (pattern : string) : outcome (regex * nat) :=
  match read (S (String.length pattern)) pattern 0 with
  | Some (r, EmptyString, g) => Ok (r, g)
  | _ => Raise (Unmodelled pattern)
  end.

(** [m.groups()]: the text of the groups 1 to [n] *)
Fixpoint groups_from (caps : captures) (i n : nat) : list (option string) :=
  match n with
  | O => []
  | S n' => get_capture caps i :: groups_from caps (S i) n'
  end.

(** [re.match(pattern, s)], as the groups of the match if there is one *)
Definition match_groups (pattern s : string)
  : outcome (option (list (option string))) :=
  '(r, n) <- compile pattern ;;
  Ok (match match_at r s with
      | Some caps => Some (groups_from caps 1 n)
      | None => None
      end).

(** [re.search(pattern, s)], as the truth value of its result *)
Definition search (pattern s : string) : outcome bool :=
  '(r, _) <- compile pattern ;;
  Ok (match search_from r s with
      | Some _ => true
      | None => false
      end).

End Re.

(* ================================================================== *)
(** * JSON text: [json.dumps] and [json.loads] *)
(* ================================================================== *)

Module Json.

Definition escape_char (c : ascii) : string :=
  if Ascii.eqb c PyStr.dquote then String PyStr.backslash (String PyStr.dquote EmptyString)
  else if Ascii.eqb c PyStr.backslash then String PyStr.backslash (String PyStr.backslash EmptyString)
  else if Ascii.eqb c PyStr.char_nl then String PyStr.backslash "n"
  else if Ascii.eqb c PyStr.char_cr then String PyStr.backslash "r"
  else if Ascii.eqb c PyStr.char_tab then String PyStr.backslash "t"
  else if Ascii.eqb c PyStr.char_bs then String PyStr.backslash "b"
  else if Ascii.eqb c PyStr.char_ff then String PyStr.backslash "f"
  else if PyStr.between 32 126 (PyStr.code c) then String c EmptyString
  else String PyStr.backslash ("u00" ++ PyStr.hex2 c).

Fixpoint escape (s : string) : string :=
  match s with
  | EmptyString => EmptyString
  | String c s' => escape_char c ++ escape s'
  end.

(** A string literal, with [ensure_ascii] as it is by default *)
Definition dumps_str (s : string) : string :=
  String PyStr.dquote (escape s ++ String PyStr.dquote EmptyString).

(** What follows the first item of a list, and the first member of an
    object, in the text of a value; [f] prints a value and [sep] is what
    goes before each further item. *)
Fixpoint items_tail (f : value -> string) (sep close : string) (l : list value)
  : string :=
  match l with
  | [] => close
  | y :: r => sep ++ f y ++ items_tail f sep close r
  end.

Fixpoint members_tail (f : value -> string) (sep close : string)
         (d : list (string * value)) : string :=
  match d with
  | [] => close
  | (k, y) :: r => sep ++ dumps_str k ++ ": " ++ f y ++ members_tail f sep close r
  end.

(** [json.dumps(v)]: items separated by a comma and a space, keys by a
    colon and a space. *)
Fixpoint dumps (v : value) : string :=
  match v with
  | VNone => "null"
  | VBool true => "true"
  | VBool false => "false"
  | VInt z => PyStr.of_Z z
  | VStr s => dumps_str s
  | VList [] => "[]"
  | VList (x :: rest) => "[" ++ dumps x ++ items_tail dumps ", " "]" rest
  | VDict [] => "{}"
  | VDict ((k, x) :: rest) =>
      "{" ++ dumps_str k ++ ": " ++ dumps x ++ members_tail dumps ", " "}" rest
  end.

Fixpoint spaces (n : nat) : string :=
  match n with
  | O => EmptyString
  | S n' => String " " (spaces n')
  end.

Definition newline (level : nat) : string :=
  String PyStr.char_nl (spaces (2 * level)).

(** [json.dumps(v, indent=2)], at nesting depth [level] *)
Fixpoint dumps_indent (level : nat) (v : value) : string :=
  match v with
  | VList [] => "[]"
  | VList (x :: rest) =>
      "[" ++ newline (S level) ++ dumps_indent (S level) x
      ++ items_tail (dumps_indent (S level)) ("," ++ newline (S level))
                    (newline level ++ "]") rest
  | VDict [] => "{}"
  | VDict ((k, x) :: rest) =>
      "{" ++ newline (S level) ++ dumps_str k ++ ": " ++ dumps_indent (S level) x
      ++ members_tail (dumps_indent (S level)) ("," ++ newline (S level))
                      (newline level ++ "}") rest
  | _ => dumps v
  end.

(** ** Reading *)

Definition is_ws (c : ascii) : bool :=
  Ascii.eqb c " " || Ascii.eqb c PyStr.char_tab
  || Ascii.eqb c PyStr.char_nl || Ascii.eqb c PyStr.char_cr.

Fixpoint skip_ws (s : string) : string :=
  match s with
  | String c s' => if is_ws c then skip_ws s' else s
  | EmptyString => EmptyString
  end.

Definition hex_value (c : ascii) : option nat :=
  let n := PyStr.code c in
  if PyStr.between 48 57 n then Some (n - 48)
  else if PyStr.between 97 102 n then Some (n - 87)
  else if PyStr.between 65 70 n then Some (n - 55)
  else None.

Definition hex4 (a b c d : ascii) : option nat :=
  match hex_value a, hex_value b, hex_value c, hex_value d with
  | Some x, Some y, Some z, Some w => Some (((x * 16 + y) * 16 + z) * 16 + w)
  | _, _, _, _ => None
  end.

(** The character a short escape stands for *)
Definition unescape (e : ascii) : option ascii :=
  if Ascii.eqb e PyStr.dquote then Some PyStr.dquote
  else if Ascii.eqb e PyStr.backslash then Some PyStr.backslash
  else if Ascii.eqb e "/" then Some "/"%char
  else if Ascii.eqb e "b" then Some PyStr.char_bs
  else if Ascii.eqb e "f" then Some PyStr.char_ff
  else if Ascii.eqb e "n" then Some PyStr.char_nl
  else if Ascii.eqb e "r" then Some PyStr.char_cr
  else if Ascii.eqb e "t" then Some PyStr.char_tab
  else None.

(** The body of a string literal, after its opening quote; [acc] holds
    the characters read so far, last one first. *)
Fixpoint scan_string (s : string) (acc : string) : outcome (string * string) :=
  match s with
  | EmptyString => Raise (JSONDecodeError "Unterminated string starting at")
  | String c s' =>
      if Ascii.eqb c PyStr.dquote then Ok (PyStr.rev acc, s')
      else if Ascii.eqb c PyStr.backslash then
        match s' with
        | EmptyString => Raise (JSONDecodeError "Unterminated string starting at")
        | String "u" (String h1 (String h2 (String h3 (String h4 r)))) =>
            match hex4 h1 h2 h3 h4 with
            | Some n =>
                if (n <? 256)%nat then scan_string r (String (ascii_of_nat n) acc)
                else Raise (Unmodelled "code point above 255")
            | None => Raise (JSONDecodeError "Invalid \uXXXX escape")
            end
        | String "u" _ => Raise (JSONDecodeError "Invalid \uXXXX escape")
        | String e r =>
            match unescape e with
            | Some x => scan_string r (String x acc)
            | None => Raise (JSONDecodeError "Invalid \escape")
            end
        end
      else if (PyStr.code c <? 32)%nat
      then Raise (JSONDecodeError "Invalid control character at")
      else scan_string s' (String c acc)
  end.

Definition isdigit (c : ascii) : bool := PyStr.between 48 57 (PyStr.code c).

(** The longest prefix of digits, and the rest *)
Fixpoint span_digits (s : string) : string * string :=
  match s with
  | String c s' =>
      if isdigit c then let '(ds, rest) := span_digits s' in (String c ds, rest)
      else (EmptyString, s)
  | EmptyString => (EmptyString, EmptyString)
  end.

Definition starts_with_digit (s : string) : bool :=
  match s with
  | String c _ => isdigit c
  | EmptyString => false
  end.

(** What follows the integer part of a number when it is a float *)
Definition float_tail (s : string) : bool :=
  match s with
  | String "." r => starts_with_digit r
  | String e r =>
      (Ascii.eqb e "e" || Ascii.eqb e "E")
      && match r with
         | String sg r' =>
             if Ascii.eqb sg "+" || Ascii.eqb sg "-" then starts_with_digit r'
             else isdigit sg
         | EmptyString => false
         end
  | EmptyString => false
  end.

Definition N_of_digits (ds : string) : N :=
  match NilZero.uint_of_string ds with
  | Some u => N.of_uint u
  | None => 0%N
  end.

(** Whether the text starts with the character [c] *)
Definition head_is (c : ascii) (s : string) : bool :=
  match s with
  | String x _ => Ascii.eqb x c
  | EmptyString => false
  end.

(** A number: an optional sign, then [0] or a digit run that does not
    start with [0]. *)
Definition scan_number (s : string) : outcome (value * string) :=
  let negative := head_is "-" s in
  let body := if negative then PyStr.drop 1 s else s in
  let finish (n : N) (rest : string) : outcome (value * string) :=
    if float_tail rest then Raise (Unmodelled "float")
    else Ok (VInt (if negative then Z.opp (Z.of_N n) else Z.of_N n), rest) in
  if head_is "0" body then finish 0%N (PyStr.drop 1 body)
  else if starts_with_digit body then
    let '(ds, rest) := span_digits body in finish (N_of_digits ds) rest
  else Raise (JSONDecodeError "Expecting value").

(** [parse_value], [parse_elems] and [parse_members] read a value, the
    items of a list after its first bracket and the members of an object
    after its first brace.  A key met twice keeps its first place and
    its last value, as in a Python [dict]. *)
Fixpoint parse_value (fuel : nat) (s : string) {struct fuel}
  : outcome (value * string) :=
  match fuel with
  | O => Raise (Unmodelled "nesting too deep")
  | S fuel' =>
      if head_is PyStr.dquote s then
        '(text, rest) <- scan_string (PyStr.drop 1 s) EmptyString ;;
        Ok (VStr text, rest)
      else if head_is "{" s then
        let r := skip_ws (PyStr.drop 1 s) in
        if head_is "}" r then Ok (VDict [], PyStr.drop 1 r)
        else parse_members fuel' r []
      else if head_is "[" s then
        let r := skip_ws (PyStr.drop 1 s) in
        if head_is "]" r then Ok (VList [], PyStr.drop 1 r)
        else parse_elems fuel' r []
      else if String.prefix "null" s then Ok (VNone, PyStr.drop 4 s)
      else if String.prefix "true" s then Ok (VBool true, PyStr.drop 4 s)
      else if String.prefix "false" s then Ok (VBool false, PyStr.drop 5 s)
      else if String.prefix "NaN" s || String.prefix "Infinity" s
              || String.prefix "-Infinity" s
      then Raise (Unmodelled "float")
      else scan_number s
  end
with parse_elems (fuel : nat) (s : string) (acc : list value) {struct fuel}
  : outcome (value * string) :=
  match fuel with
  | O => Raise (Unmodelled "nesting too deep")
  | S fuel' =>
      '(v, rest) <- parse_value fuel' s ;;
      let rest := skip_ws rest in
      if head_is "," rest then
        parse_elems fuel' (skip_ws (PyStr.drop 1 rest)) (acc ++ [v])%list
      else if head_is "]" rest then Ok (VList (acc ++ [v])%list, PyStr.drop 1 rest)
      else Raise (JSONDecodeError "Expecting ',' delimiter")
  end
with parse_members (fuel : nat) (s : string) (acc : dict) {struct fuel}
  : outcome (value * string) :=
  match fuel with
  | O => Raise (Unmodelled "nesting too deep")
  | S fuel' =>
      if head_is PyStr.dquote s then
        '(key, rest) <- scan_string (PyStr.drop 1 s) EmptyString ;;
        let rest := skip_ws rest in
        if head_is ":" rest then
          '(v, rest1) <- parse_value fuel' (skip_ws (PyStr.drop 1 rest)) ;;
          let acc := PyDict.set acc key v in
          let rest1 := skip_ws rest1 in
          if head_is "," rest1 then
            parse_members fuel' (skip_ws (PyStr.drop 1 rest1)) acc
          else if head_is "}" rest1 then Ok (VDict acc, PyStr.drop 1 rest1)
          else Raise (JSONDecodeError "Expecting ',' delimiter")
        else Raise (JSONDecodeError "Expecting ':' delimiter")
      else Raise (JSONDecodeError
                    "Expecting property name enclosed in double quotes")
  end.

(** [json.loads(s)]: one value, white space around it, nothing more.
    The messages are those of [JSONDecodeError] without the position. *)
Definition loads (s : string) : outcome value :=
  '(v, rest) <- parse_value (S (String.length s)) (skip_ws s) ;;
  match skip_ws rest with
  | EmptyString => Ok v
  | _ => Raise (JSONDecodeError "Extra data")
  end.

(** The dictionary that the members [d], stored one after the other
    with [f] applied to their values, make of [acc] *)
Fixpoint set_all (f : value -> value) (d : list (string * value)) (acc : dict)
  : dict :=
  match d with
  | [] => acc
  | (k, x) :: rest => set_all f rest (PyDict.set acc k (f x))
  end.

(** What [loads] makes of the text of a value: in every dictionary a key
    written twice is kept once.  (A Python [dict] never has one.) *)
Fixpoint normalize (v : value) : value :=
  match v with
  | VList l => VList (map normalize l)
  | VDict d => VDict (set_all normalize d [])
  | _ => v
  end.

End Json.

(* ================================================================== *)
(** * The data model of the engine *)
(* ================================================================== *)

(** [datetime.now()], as the fields that [strftime] and [isoformat] print *)
Record datetime : Type := {
  year : N;
  month : N;
  day : N;
  hour : N;
  minute : N;
  second : N;
  microsecond : N
}.

(** [dt.strftime('%Y%m%d_%H%M%S')]; the C library prints the year without
    padding. *)
Definition strftime_compact (dt : datetime) : string :=
  PyStr.of_N dt.(year) ++ PyStr.pad 2 dt.(month) ++ PyStr.pad 2 dt.(day) ++ "_"
  ++ PyStr.pad 2 dt.(hour) ++ PyStr.pad 2 dt.(minute) ++ PyStr.pad 2 dt.(second).

(** [dt.isoformat()] *)
Definition isoformat (dt : datetime) : string :=
  PyStr.pad 4 dt.(year) ++ "-" ++ PyStr.pad 2 dt.(month) ++ "-" ++ PyStr.pad 2 dt.(day)
  ++ "T" ++ PyStr.pad 2 dt.(hour) ++ ":" ++ PyStr.pad 2 dt.(minute) ++ ":"
  ++ PyStr.pad 2 dt.(second)
  ++ (if (dt.(microsecond) =? 0)%N then EmptyString
      else "." ++ PyStr.pad 6 dt.(microsecond)).

(** SQLite's [CURRENT_TIMESTAMP] *)
Definition sql_timestamp (dt : datetime) : string :=
  PyStr.pad 4 dt.(year) ++ "-" ++ PyStr.pad 2 dt.(month) ++ "-" ++ PyStr.pad 2 dt.(day)
  ++ " " ++ PyStr.pad 2 dt.(hour) ++ ":" ++ PyStr.pad 2 dt.(minute) ++ ":"
  ++ PyStr.pad 2 dt.(second).

(** The dataclass [WorkflowResult] *)
Record WorkflowResult : Type := {
  success : bool;
  step_name : string;
  tool_name : string;
  result : value;
  error : option string;
  timestamp : string
}.

(** The dataclass [WorkflowExecution] *)
Record WorkflowExecution : Type := {
  workflow_name : string;
  trigger_event : string;
  trigger_data : dict;
  execution_id : string;
  status : string;
  steps_completed : list WorkflowResult;
  started_at : string;
  completed_at : option string
}.

(** One entry of the [steps] list of a workflow definition file, with the
    fields [execute_workflow] reads and the defaults it gives them
    ([params] an empty mapping, [conditions] an empty list). *)
Record Step : Type := {
  name : string;
  tool : string;
  params : dict;
  conditions : list string
}.

(** A workflow definition as loaded from its file *)
Record WorkflowDef : Type := {
  description : string;
  triggers : list string;
  steps : list Step
}.

(** One row of the table [workflow_executions] *)
Record Row : Type := {
  row_execution_id : string;
  row_workflow_name : string;
  row_trigger_event : string;
  row_trigger_data : string;
  row_status : string;
  row_started_at : string;
  row_completed_at : option string;
  row_steps_completed : string;
  row_created_at : string
}.

(** The state the engine works on: the two tables of [WorkflowEngine], the
    table [workflow_executions] of the database file, the clock (its
    successive readings and how many were taken) and what was printed. *)
Record WorkflowEngine : Type := {
  workflows : list (string * WorkflowDef);
  executions : list (string * WorkflowExecution);
  database : list Row;
  clock : nat -> datetime;
  ticks : nat;
  stdout : list string
}.

(** The execution context of a run: the dictionary with the two keys
    [trigger_data] and [execution_results]. *)
Record Context : Type := {
  ctx_trigger_data : dict;
  ctx_execution_results : dict
}.

Definition context_dict (c : Context) : dict :=
  [("trigger_data", VDict c.(ctx_trigger_data));
   ("execution_results", VDict c.(ctx_execution_results))].

(** [datetime.now()] *)
Definition now (eng : WorkflowEngine) : datetime * WorkflowEngine :=
  (eng.(clock) eng.(ticks),
   {| workflows := eng.(workflows); executions := eng.(executions);
      database := eng.(database); clock := eng.(clock);
      ticks := S eng.(ticks); stdout := eng.(stdout) |}).

(** [print(line)] *)
Definition print (eng : WorkflowEngine) (line : string) : WorkflowEngine :=
  {| workflows := eng.(workflows); executions := eng.(executions);
     database := eng.(database); clock := eng.(clock);
     ticks := eng.(ticks); stdout := (eng.(stdout) ++ [line])%list |}.

Definition with_executions (eng : WorkflowEngine)
           (table : list (string * WorkflowExecution)) : WorkflowEngine :=
  {| workflows := eng.(workflows); executions := table;
     database := eng.(database); clock := eng.(clock);
     ticks := eng.(ticks); stdout := eng.(stdout) |}.

Definition with_database (eng : WorkflowEngine) (rows : list Row) : WorkflowEngine :=
  {| workflows := eng.(workflows); executions := eng.(executions);
     database := rows; clock := eng.(clock);
     ticks := eng.(ticks); stdout := eng.(stdout) |}.

(* ================================================================== *)
(** * Condition matcher *)
(* ================================================================== *)

Definition LIKE_PATTERN : string := "(\w+)\s+LIKE\s+'([^']+)'".
Definition IN_PATTERN : string := "(\w+)\s+IN\s+\(([^)]+)\)".

(** What [re.match(...).groups()] raises when there is no match *)
Definition groups_of_none : exn :=
  AttributeError "'NoneType' object has no attribute 'groups'".

(** [a, b = re.match(pattern, condition).groups()] *)
Definition match_two_groups (pattern condition : string) : outcome (string * string) :=
  m <- Re.match_groups pattern condition ;;
  match m with
  | None => Raise groups_of_none
  | Some [Some a; Some b] => Ok (a, b)
  | Some _ => Raise (ValueError "not enough values to unpack")
  end.

(** The quote characters that [strip] removes from a literal of [IN] *)
Definition quote_chars : string := String "'" (String PyStr.dquote EmptyString).

(** The literals of an [IN] list *)
Definition allowed_values (values : string) : list string :=
  map (fun v => PyStr.strip_chars quote_chars (PyStr.strip v)) (PyStr.split "," values).

(** The body of the loop of [match_conditions] for one condition: [Ok
    false] where the source returns [False], [Ok true] where it goes on
    to the next condition. *)
Definition check_condition (condition : string) (data : dict) : outcome bool :=
  if PyStr.contains "LIKE" condition then
    '(field, pattern) <- match_two_groups LIKE_PATTERN condition ;;
    let field_value := PyStr.lower (PyVal.str (PyDict.get data field (VStr ""))) in
    let pattern := PyStr.lower (PyStr.replace "%" ".*" pattern) in
    Re.search pattern field_value
  else if PyStr.contains "IN" condition then
    '(field, values) <- match_two_groups IN_PATTERN condition ;;
    let field_value := PyDict.get data field VNone in
    Ok (PyVal.in_strings field_value (allowed_values values))
  else Ok true.

Fixpoint match_conditions (conditions : list string) (data : dict) : outcome bool :=
  match conditions with
  | [] => Ok true
  | condition :: rest =>
      holds <- check_condition condition data ;;
      if holds then match_conditions rest data else Ok false
  end.

(* ================================================================== *)
(** * Parameter resolver *)
(* ================================================================== *)

(** [v.get(key, default)] on a value of any type *)
Definition value_get (v : value) (key : string) (default : value) : outcome value :=
  match v with
  | VDict d => Ok (PyDict.get d key default)
  | _ => Raise (PyVal.no_attribute v "get")
  end.

(** The inner loop of [resolve_parameters] over the parts of a dotted path *)
Fixpoint walk_path (parts : list string) (resolved_value : value) : outcome value :=
  match parts with
  | [] => Ok resolved_value
  | part :: rest =>
      next <- value_get resolved_value part (VStr "") ;;
      walk_path rest next
  end.

(** The value [resolve_parameters] stores for one parameter *)
Definition resolve_value (v : value) (context : dict) : outcome value :=
  match v with
  | VStr s =>
      if PyStr.startswith s "${" then
        let var_name := PyStr.slice s 2 (-1) in
        if PyStr.contains "." var_name
        then walk_path (PyStr.split "." var_name) (VDict context)
        else Ok (PyDict.get context var_name v)
      else Ok v
  | _ => Ok v
  end.

Fixpoint resolve_loop (params : dict) (context : dict) (resolved : dict)
  : outcome dict :=
  match params with
  | [] => Ok resolved
  | (key, v) :: rest =>
      r <- resolve_value v context ;;
      resolve_loop rest context (PyDict.set resolved key r)
  end.

Definition resolve_parameters (params : dict) (context : dict) : outcome dict :=
  resolve_loop params context [].

(* ================================================================== *)
(** * Tools *)
(* ================================================================== *)

Section Tools.

(** [re.findall] on a string, for the fixed patterns of the entity
    extractors: the pattern, whether [re.IGNORECASE] is set, the text.
    What it finds is a payload the engine only carries. *)
Variable findall : string -> bool -> string -> list string.

(** [re.findall(pattern, content)] for a content of any type *)
Definition re_findall (pattern : string) (ignorecase : bool) (content : value)
  : outcome (list value) :=
  match content with
  | VStr s => Ok (map VStr (findall pattern ignorecase s))
  | _ => Raise (TypeError ("expected string or bytes-like object, got '"
                           ++ PyVal.type_name content ++ "'"))
  end.

(** The loop [for pattern in patterns: acc.extend(re.findall(pattern, content))] *)
Fixpoint extend_findall (patterns : list string) (content : value) (acc : list value)
  : outcome (list value) :=
  match patterns with
  | [] => Ok acc
  | pattern :: rest =>
      found <- re_findall pattern false content ;;
      extend_findall rest content (acc ++ found)%list
  end.

Definition extract_dates (content : value) : outcome (list value) :=
  extend_findall ["\d{1,2}/\d{1,2}/\d{4}"; "\d{4}-\d{1,2}-\d{1,2}"; "\d{1,2}-\d{1,2}-\d{4}"]
                 content [].

Definition extract_amounts (content : value) : outcome (list value) :=
  re_findall "\$[\d,]+\.?\d*" false content.

Definition extract_vehicles (content : value) : outcome (list value) :=
  extend_findall ["License:\s*([A-Z0-9]+)"; "VIN:\s*([A-Z0-9]+)"; "\d{4}\s+\w+"]
                 content [].

Definition extract_deadlines (content : value) : outcome (list value) :=
  dates <- re_findall "(?:by|before|deadline|due)\s+(\d{1,2}/\d{1,2}/\d{4})" true content ;;
  dmv_deadline <- re_findall "(\d{1,2}/\d{1,2}/\d{4})" false content ;;
  Ok (dates ++ dmv_deadline)%list.

(** [k in container] for a string [k] and a container of any type *)
Definition py_in (k : string) (container : value) : outcome bool :=
  match container with
  | VList l => Ok (existsb (fun x => PyVal.eqb x (VStr k)) l)
  | VStr s => Ok (PyStr.contains k s)
  | VDict d => Ok (PyDict.mem d k)
  | _ => Raise (TypeError ("argument of type '" ++ PyVal.type_name container
                           ++ "' is not iterable"))
  end.

(** [{k: v for k, v in entities.items() if k in entity_types}] *)
Fixpoint filter_entities (entities : dict) (entity_types : value) : outcome dict :=
  match entities with
  | [] => Ok []
  | (k, v) :: rest =>
      keep <- py_in k entity_types ;;
      kept <- filter_entities rest entity_types ;;
      Ok (if keep then (k, v) :: kept else kept)
  end.

(** What [for keyword in keywords] iterates over *)
Definition py_iter (v : value) : outcome (list value) :=
  match v with
  | VList l => Ok l
  | VStr s => Ok (map (fun c => VStr (String c EmptyString)) (list_ascii_of_string s))
  | VDict d => Ok (map (fun p => VStr (fst p)) d)
  | _ => Raise (TypeError ("'" ++ PyVal.type_name v ++ "' object is not iterable"))
  end.

(** [v.lower()] on a value of any type *)
Definition py_lower (v : value) : outcome string :=
  match v with
  | VStr s => Ok (PyStr.lower s)
  | _ => Raise (PyVal.no_attribute v "lower")
  end.

(** The loop of [ai_classify_urgency] over the keywords *)
Fixpoint count_keywords (keywords : list value) (content : value) (urgency_score : Z)
  : outcome Z :=
  match keywords with
  | [] => Ok urgency_score
  | keyword :: rest =>
      k <- py_lower keyword ;;
      c <- py_lower content ;;
      count_keywords rest content
        (if PyStr.contains k c then urgency_score + 1 else urgency_score)%Z
  end.

Definition urgency_level_of (urgency_score : Z) : string :=
  if (urgency_score >=? 2)%Z then "urgent"
  else if (urgency_score >=? 1)%Z then "high"
  else "normal".

Definition SUMMARY : string :=
  "DMV notice regarding vehicle registration suspension for 2004 Volvo. Insurance proof required by 03/27/2025 to avoid suspension. $14 fee for reinstatement.".

Definition execute_ai_tool (tool_name : string) (params : dict) (context : dict)
  : outcome value :=
  if String.eqb tool_name "ai_summarize" then
    Ok (VDict [("summary", VStr SUMMARY)])
  else if String.eqb tool_name "ai_extract_entities" then
    let content := PyDict.get params "content" (VStr "") in
    let entity_types :=
      PyDict.get params "types" (VList [VStr "dates"; VStr "amounts"; VStr "companies"]) in
    dates <- extract_dates content ;;
    amounts <- extract_amounts content ;;
    vehicles <- extract_vehicles content ;;
    deadlines <- extract_deadlines content ;;
    let entities := [("dates", VList dates); ("amounts", VList amounts);
                     ("vehicles", VList vehicles); ("deadlines", VList deadlines)] in
    kept <- filter_entities entities entity_types ;;
    Ok (VDict [("entities", VDict kept)])
  else if String.eqb tool_name "ai_classify_urgency" then
    let content := PyDict.get params "content" (VStr "") in
    let keywords := PyDict.get params "keywords" (VList []) in
    items <- py_iter keywords ;;
    urgency_score <- count_keywords items content 0%Z ;;
    Ok (VDict [("urgency_level", VStr (urgency_level_of urgency_score));
               ("urgency_score", VInt urgency_score)])
  else Raise (ValueError ("Unknown AI tool: " ++ tool_name)).

Definition execute_crm_tool (tool_name : string) (params : dict) (context : dict)
  : outcome value :=
  if String.eqb tool_name "crm_update_communication" then
    Ok (VDict [("success", VBool true); ("message", VStr "Communication updated");
               ("communication_id", PyDict.get params "communication_id" VNone)])
  else if String.eqb tool_name "crm_create_task" then
    Ok (VDict [("task_id", VInt 123); ("success", VBool true);
               ("title", PyDict.get params "title" (VStr "New Task"))])
  else Raise (ValueError ("Unknown CRM tool: " ++ tool_name)).

Definition execute_vision_tool (tool_name : string) (params : dict) (context : dict)
  : outcome value :=
  if String.eqb tool_name "vision_extract_invoice" then
    Ok (VDict [("extracted_data", VDict []); ("success", VBool true)])
  else Raise (ValueError ("Unknown vision tool: " ++ tool_name)).

Definition execute_quickbooks_tool (tool_name : string) (params : dict) (context : dict)
  : outcome value :=
  if String.eqb tool_name "quickbooks_create_vendor" then
    Ok (VDict [("vendor_id", VInt 456); ("success", VBool true)])
  else Raise (ValueError ("Unknown QuickBooks tool: " ++ tool_name)).

Definition execute_tool (tool_name : string) (params : dict) (context : dict)
  : outcome value :=
  resolved_params <- resolve_parameters params context ;;
  if PyStr.startswith tool_name "ai_" then
    execute_ai_tool tool_name resolved_params context
  else if PyStr.startswith tool_name "crm_" then
    execute_crm_tool tool_name resolved_params context
  else if PyStr.startswith tool_name "vision_" then
    execute_vision_tool tool_name resolved_params context
  else if PyStr.startswith tool_name "quickbooks_" then
    execute_quickbooks_tool tool_name resolved_params context
  else if String.eqb tool_name "workflow_log" then
    Ok (VDict [("logged", VBool true); ("message", VStr "Workflow completion logged")])
  else Raise (ValueError ("Unknown tool: " ++ tool_name)).

(* ================================================================ *)
(** * History store *)
(* ================================================================ *)

Definition opt_str (o : option string) : value :=
  match o with
  | Some s => VStr s
  | None => VNone
  end.

(** [dataclasses.asdict] on a [WorkflowResult] *)
Definition asdict (r : WorkflowResult) : value :=
  VDict [("success", VBool r.(success)); ("step_name", VStr r.(step_name));
         ("tool_name", VStr r.(tool_name)); ("result", r.(result));
         ("error", opt_str r.(error)); ("timestamp", VStr r.(timestamp))].

(** [INSERT OR REPLACE]: the row with the same primary key goes away. *)
Definition insert_or_replace (rows : list Row) (row : Row) : list Row :=
  (filter (fun r => negb (String.eqb r.(row_execution_id) row.(row_execution_id))) rows
   ++ [row])%list.

(** [SELECT * ... WHERE execution_id = ?] followed by [fetchone] *)
Definition select_execution (rows : list Row) (id : string) : option Row :=
  find (fun r => String.eqb r.(row_execution_id) id) rows.

Definition save_execution (eng : WorkflowEngine) (execution : WorkflowExecution)
  : WorkflowEngine :=
  let '(created, eng) := now eng in
  let row :=
    {| row_execution_id := execution.(execution_id);
       row_workflow_name := execution.(workflow_name);
       row_trigger_event := execution.(trigger_event);
       row_trigger_data := Json.dumps (VDict execution.(trigger_data));
       row_status := execution.(status);
       row_started_at := execution.(started_at);
       row_completed_at := execution.(completed_at);
       row_steps_completed := Json.dumps (VList (map asdict execution.(steps_completed)));
       row_created_at := sql_timestamp created |} in
  with_database eng (insert_or_replace eng.(database) row).

(* ================================================================ *)
(** * Workflow executor *)
(* ================================================================ *)

(** [WorkflowResult(...)], whose [__post_init__] reads the clock *)
Definition new_result (eng : WorkflowEngine) (ok : bool) (step tool_id : string)
           (payload : value) (err : option string)
  : WorkflowResult * WorkflowEngine :=
  let '(t, eng) := now eng in
  ({| success := ok; step_name := step; tool_name := tool_id; result := payload;
      error := err; timestamp := isoformat t |}, eng).

(** [context["execution_results"][step_name] = result] *)
Definition record_result (context : Context) (step : string) (payload : value)
  : Context :=
  {| ctx_trigger_data := context.(ctx_trigger_data);
     ctx_execution_results := PyDict.set context.(ctx_execution_results) step payload |}.

(** [conditions and not self.match_conditions(conditions, context)],
    as whether the step passes its gate *)
Definition passes_gate (step : Step) (context : Context) : outcome bool :=
  match step.(conditions) with
  | [] => Ok true
  | cs => match_conditions cs (context_dict context)
  end.

(** The state of the step loop: the engine (for its clock), the context
    and the step results appended so far. *)
Record Run : Type := {
  run_engine : WorkflowEngine;
  run_context : Context;
  run_steps_completed : list WorkflowResult
}.

(** The step loop of [execute_workflow].  An exception that escapes the
    loop is returned with the state reached, since the step results
    already appended stay in the execution. *)
Fixpoint run_steps (todo : list Step) (st : Run) : Run * option exn :=
  match todo with
  | [] => (st, None)
  | step :: rest =>
      match passes_gate step st.(run_context) with
      | Raise e => (st, Some e)
      | Ok false => run_steps rest st
      | Ok true =>
          match execute_tool step.(tool) step.(params) (context_dict st.(run_context)) with
          | Ok payload =>
              let '(step_result, eng) :=
                new_result st.(run_engine) true step.(name) step.(tool) payload None in
              run_steps rest
                {| run_engine := eng;
                   run_context := record_result st.(run_context) step.(name) payload;
                   run_steps_completed := (st.(run_steps_completed) ++ [step_result])%list |}
          | Raise e =>
              let '(step_result, eng) :=
                new_result st.(run_engine) false step.(name) step.(tool) VNone
                           (Some (PyVal.str_exn e)) in
              run_steps rest
                {| run_engine := eng;
                   run_context := st.(run_context);
                   run_steps_completed := (st.(run_steps_completed) ++ [step_result])%list |}
          end
      end
  end.

(** The execution once its status, its completion time and its step
    results are set *)
Definition finished (execution : WorkflowExecution) (final : string)
           (done : list WorkflowResult) (t : datetime) : WorkflowExecution :=
  {| workflow_name := execution.(workflow_name);
     trigger_event := execution.(trigger_event);
     trigger_data := execution.(trigger_data);
     execution_id := execution.(execution_id);
     status := final;
     steps_completed := done;
     started_at := execution.(started_at);
     completed_at := Some (isoformat t) |}.

Definition execute_workflow (eng : WorkflowEngine)
           (wf_name event : string) (data : dict)
  : WorkflowEngine * WorkflowExecution :=
  let '(t_id, eng) := now eng in
  let id := wf_name ++ "_" ++ strftime_compact t_id in
  let '(t_start, eng) := now eng in
  let execution :=
    {| workflow_name := wf_name; trigger_event := event; trigger_data := data;
       execution_id := id; status := "running"; steps_completed := [];
       started_at := isoformat t_start; completed_at := None |} in
  let eng := with_executions eng (PyDict.set eng.(executions) id execution) in
  let '(eng, execution) :=
    match PyDict.lookup eng.(workflows) wf_name with
    | None =>
        let '(t_end, eng) := now eng in
        (print eng ("Workflow execution failed: " ++ PyVal.str_exn (KeyError wf_name)),
         finished execution "failed" [] t_end)
    | Some workflow_def =>
        let context := {| ctx_trigger_data := data; ctx_execution_results := [] |} in
        let '(st, escaped) :=
          run_steps workflow_def.(steps)
                    {| run_engine := eng; run_context := context;
                       run_steps_completed := [] |} in
        let '(t_end, eng) := now st.(run_engine) in
        match escaped with
        | None => (eng, finished execution "completed" st.(run_steps_completed) t_end)
        | Some e =>
            (print eng ("Workflow execution failed: " ++ PyVal.str_exn e),
             finished execution "failed" st.(run_steps_completed) t_end)
        end
    end in
  (* [self.executions] holds the object that the run has mutated *)
  let eng := with_executions eng (PyDict.set eng.(executions) id execution) in
  (save_execution eng execution, execution).

(* ================================================================ *)
(** * Tool entry points *)
(* ================================================================ *)

(** The dictionary that [trigger_workflow] serialises *)
Definition trigger_workflow_result (eng : WorkflowEngine)
           (wf_name event : string) (data : dict) : WorkflowEngine * value :=
  let '(eng, execution) := execute_workflow eng wf_name event data in
  (eng,
   VDict [("success", VBool true);
          ("execution_id", VStr execution.(execution_id));
          ("status", VStr execution.(status));
          ("steps_completed", VInt (Z.of_nat (List.length execution.(steps_completed))));
          ("workflow_name", VStr wf_name)]).

Definition trigger_workflow (eng : WorkflowEngine)
           (wf_name event : string) (data : dict) : WorkflowEngine * string :=
  let '(eng, r) := trigger_workflow_result eng wf_name event data in
  (eng, Json.dumps_indent 0 r).

(** The dictionary that [get_workflow_execution] serialises: from the
    table in memory if the id is there, else from the database. *)
Definition get_workflow_execution_result (eng : WorkflowEngine) (id : string) : value :=
  match PyDict.lookup eng.(executions) id with
  | Some execution =>
      VDict [("execution_id", VStr execution.(execution_id));
             ("workflow_name", VStr execution.(workflow_name));
             ("status", VStr execution.(status));
             ("started_at", VStr execution.(started_at));
             ("completed_at", opt_str execution.(completed_at));
             ("steps", VList (map asdict execution.(steps_completed)))]
  | None =>
      match select_execution eng.(database) id with
      | Some row =>
          match Json.loads row.(row_steps_completed) with
          | Ok loaded =>
              VDict [("execution_id", VStr row.(row_execution_id));
                     ("workflow_name", VStr row.(row_workflow_name));
                     ("trigger_event", VStr row.(row_trigger_event));
                     ("trigger_data", VStr row.(row_trigger_data));
                     ("status", VStr row.(row_status));
                     ("started_at", VStr row.(row_started_at));
                     ("completed_at", opt_str row.(row_completed_at));
                     ("steps_completed", loaded);
                     ("created_at", VStr row.(row_created_at))]
          | Raise e => VDict [("error", VStr (PyVal.str_exn e))]
          end
      | None => VDict [("error", VStr "Execution not found")]
      end
  end.

Definition get_workflow_execution (eng : WorkflowEngine) (id : string) : string :=
  Json.dumps_indent 0 (get_workflow_execution_result eng id).

End Tools.

(** The list that [list_workflows] serialises: one record for each entry
    of the definition store, in the order of the store. *)
Definition list_workflows_result (eng : WorkflowEngine) : value :=
  VList (map (fun '(name, definition) =>
                VDict [("name", VStr name);
                       ("description", VStr definition.(description));
                       ("triggers", VList (map VStr definition.(triggers)));
                       ("steps_count",
                        VInt (Z.of_nat (List.length definition.(steps))))])
             eng.(workflows)).

Definition list_workflows (eng : WorkflowEngine) : string :=
  Json.dumps_indent 0 (list_workflows_result eng).

(* ================================================================== *)
(** * Vocabulary of the statements *)
(* ================================================================== *)

(** What the properties below are stated with: the notions the
    specification uses in its own words, the expected form of a clock
    reading, what a caller reads in a record, and the engines, workflows
    and executions of the examples. *)

(** ** Strings and values *)

(** The text without its last character *)
Fixpoint butlast (s : string) : string :=
  match s with
  | EmptyString => EmptyString
  | String c EmptyString => EmptyString
  | String c s' => String c (butlast s')
  end.

(** Structural induction on values, through the lists and the
    dictionaries they hold *)
Definition value_induction (P : value -> Prop)
           (HNone : P VNone) (HBool : forall b, P (VBool b))
           (HInt : forall z, P (VInt z)) (HStr : forall s, P (VStr s))
           (HList : forall l, Forall P l -> P (VList l))
           (HDict : forall d, Forall (fun p => P (snd p)) d -> P (VDict d))
  : forall v, P v :=
  fix IH (v : value) : P v :=
    match v with
    | VNone => HNone
    | VBool b => HBool b
    | VInt z => HInt z
    | VStr s => HStr s
    | VList l =>
        HList l ((fix go (l : list value) : Forall P l :=
                    match l with
                    | [] => Forall_nil P
                    | x :: r => Forall_cons x (IH x) (go r)
                    end) l)
    | VDict d =>
        HDict d ((fix go (d : list (string * value)) : Forall (fun p => P (snd p)) d :=
                    match d with
                    | [] => Forall_nil _
                    | (k, x) :: r => Forall_cons (k, x) (IH x) (go r)
                    end) d)
    end.

(** ** Regular expressions *)

Module ReSpec.

Import Re.

(** The words a regular expression matches *)
Inductive lang : regex -> string -> Prop :=
| lang_eps : lang Eps EmptyString
| lang_chr (cs : charset) (c : ascii) :
    in_charset cs c = true -> lang (Chr cs) (String c EmptyString)
| lang_cat (r1 r2 : regex) (w1 w2 : string) :
    lang r1 w1 -> lang r2 w2 -> lang (Cat r1 r2) (w1 ++ w2)
| lang_star_nil (r : regex) : lang (Star r) EmptyString
| lang_star_cons (r : regex) (w1 w2 : string) :
    lang r w1 -> lang (Star r) w2 -> lang (Star r) (w1 ++ w2)
| lang_plus (r : regex) (w1 w2 : string) :
    lang r w1 -> lang (Star r) w2 -> lang (Plus r) (w1 ++ w2)
| lang_opt_none (r : regex) : lang (Opt r) EmptyString
| lang_opt_some (r : regex) (w : string) : lang r w -> lang (Opt r) w
| lang_group (i : nat) (r : regex) (w : string) : lang r w -> lang (Group i r) w.

(** A matcher is sound for [r] when each of its successes goes through
    the continuation after a word of [r]. *)
Definition sound (r : regex) (m : matcher) : Prop :=
  forall (s : string) (caps : captures) (k : continuation) (c : captures),
    m s caps k = Some c ->
    exists (w s' : string) (caps' : captures),
      s = w ++ s' /\ lang r w /\ k s' caps' = Some c.

(** The two fixed patterns of [match_conditions], as [compile] reads them *)
Definition like_regex : regex :=
  Eval vm_compute in
    match compile LIKE_PATTERN with Ok (r, _) => r | Raise _ => Eps end.

Definition in_regex : regex :=
  Eval vm_compute in
    match compile IN_PATTERN with Ok (r, _) => r | Raise _ => Eps end.

End ReSpec.

(** ** Urgency classification *)

(** The number of keywords that occur in the content, case ignored *)
Definition keyword_hits (keywords : list string) (content : string) : nat :=
  List.length (filter (fun k => PyStr.contains (PyStr.lower k) (PyStr.lower content))
                      keywords).

(** The tier of a number of hits *)
Definition tier (hits : nat) : string :=
  match hits with
  | 0 => "normal"
  | 1 => "high"
  | _ => "urgent"
  end.

(** ** Workflow executor *)

(** What one step that passes its gate does to the state of the loop *)
Definition attempt (findall : string -> bool -> string -> list string)
           (step : Step) (st : Run) : Run :=
  match execute_tool findall step.(tool) step.(params) (context_dict st.(run_context)) with
  | Ok payload =>
      {| run_engine := snd (now st.(run_engine));
         run_context := record_result st.(run_context) step.(name) payload;
         run_steps_completed :=
           (st.(run_steps_completed)
            ++ [{| success := true; step_name := step.(name); tool_name := step.(tool);
                   result := payload; error := None;
                   timestamp := isoformat (fst (now st.(run_engine))) |}])%list |}
  | Raise e =>
      {| run_engine := snd (now st.(run_engine));
         run_context := st.(run_context);
         run_steps_completed :=
           (st.(run_steps_completed)
            ++ [{| success := false; step_name := step.(name); tool_name := step.(tool);
                   result := VNone; error := Some (PyVal.str_exn e);
                   timestamp := isoformat (fst (now st.(run_engine))) |}])%list |}
  end.

(** The state in which [execute_workflow] enters its step loop *)
Definition initial_run (eng : WorkflowEngine) (wf_name event : string) (data : dict) : Run :=
  let id := wf_name ++ "_" ++ strftime_compact (eng.(clock) eng.(ticks)) in
  {| run_engine :=
       {| workflows := eng.(workflows);
          executions :=
            PyDict.set eng.(executions) id
              {| workflow_name := wf_name; trigger_event := event; trigger_data := data;
                 execution_id := id; status := "running"; steps_completed := [];
                 started_at := isoformat (eng.(clock) (S eng.(ticks)));
                 completed_at := None |};
          database := eng.(database); clock := eng.(clock);
          ticks := S (S eng.(ticks)); stdout := eng.(stdout) |};
     run_context := {| ctx_trigger_data := data; ctx_execution_results := [] |};
     run_steps_completed := [] |}.

(** A tool identifier of no known namespace *)
Definition unknown_namespace (tool_id : string) : bool :=
  negb (PyStr.startswith tool_id "ai_") && negb (PyStr.startswith tool_id "crm_")
  && negb (PyStr.startswith tool_id "vision_")
  && negb (PyStr.startswith tool_id "quickbooks_")
  && negb (String.eqb tool_id "workflow_log").

(** ** Execution ids *)

(** A clock reading as [datetime.now()] gives them in this age *)
Definition well_formed (dt : datetime) : Prop :=
  (1000 <= dt.(year) <= 9999 /\ 1 <= dt.(month) <= 12 /\ 1 <= dt.(day) <= 31
   /\ dt.(hour) < 24 /\ dt.(minute) < 60 /\ dt.(second) < 60)%N.

(** Two clock readings that differ at most in their microseconds *)
Definition same_second (a b : datetime) : Prop :=
  a.(year) = b.(year) /\ a.(month) = b.(month) /\ a.(day) = b.(day)
  /\ a.(hour) = b.(hour) /\ a.(minute) = b.(minute) /\ a.(second) = b.(second).

Module IdSpec.

(** The number a run of digits stands for *)
Definition number (s : string) : N := Json.N_of_digits s.

(** A field printed on two digits, and a year printed on four, stand for
    the number they were printed from. *)
Definition two_digits (n : N) : bool :=
  (String.length (PyStr.pad 2 n) =? 2)%nat && (number (PyStr.pad 2 n) =? n)%N.

Definition four_digits (n : N) : bool :=
  (String.length (PyStr.of_N n) =? 4)%nat && (number (PyStr.of_N n) =? n)%N.

(** [f] holds on the [count] numbers from [lo] on. *)
Fixpoint all_from (f : N -> bool) (lo : N) (count : nat) : bool :=
  match count with
  | O => true
  | S count' => f lo && all_from f (N.succ lo) count'
  end.

End IdSpec.

(** ** JSON *)

Module JsonSpec.

Import Json.

(** What may follow a value for it to read back alone: not a digit and
    not the fraction or the exponent of a float. *)
Definition closes_number (rest : string) : Prop :=
  starts_with_digit rest = false /\ float_tail rest = false.

(** The characters a JSON text of a value can start with *)
Definition value_head (c : ascii) : bool :=
  isdigit c || PyStr.mem_char c "-ntf[{" || Ascii.eqb c PyStr.dquote.

(** A text that starts as a number does *)
Definition number_head (s : string) : bool :=
  match s with
  | String c r => isdigit c || (Ascii.eqb c "-" && starts_with_digit r)
  | EmptyString => false
  end.

(** The fuel that reading the text of a value takes *)
Fixpoint weight (v : value) : nat :=
  match v with
  | VList l => S (list_sum (map (fun x => S (weight x)) l))
  | VDict d => S (list_sum (map (fun '(_, x) => S (weight x)) d))
  | _ => 1
  end.

(** The text of [v], followed by anything that closes a number, reads
    back as [v] with enough fuel. *)
Definition reads_back (v : value) : Prop :=
  forall (fuel : nat) (rest : string),
    weight v <= fuel -> closes_number rest ->
    parse_value fuel (dumps v ++ rest) = Ok (normalize v, rest).

End JsonSpec.

(** ** History store *)





(** ** Examples *)

(** An entity extractor that finds nothing *)
Definition findall_nothing : string -> bool -> string -> list string :=
  fun _ _ _ => [].

(** A clock that starts on 4 November 2026 at noon and advances by one
    second at each reading *)
Definition example_clock (n : nat) : datetime :=
  {| year := 2026; month := 11; day := 4; hour := 12;
     minute := (N.of_nat n / 60) mod 60; second := N.of_nat n mod 60;
     microsecond := 0 |}%N.

(** A clock whose readings are a millisecond apart, all within one second *)
Definition busy_clock (n : nat) : datetime :=
  {| year := 2026; month := 11; day := 4; hour := 12; minute := 0; second := 0;
     microsecond := 1000 * N.of_nat n |}%N.

Definition example_engine (table : list (string * WorkflowDef)) : WorkflowEngine :=
  {| workflows := table; executions := []; database := [];
     clock := example_clock; ticks := 0; stdout := [] |}.

(** The three-step workflow of the end-to-end scenario *)
Definition triage_workflow : WorkflowDef :=
  {| description := "summarise, classify, log";
     triggers := ["communication.created"];
     steps :=
       [ {| name := "summary"; tool := "ai_summarize";
            params := [("content", VStr "${trigger_data.content}")];
            conditions := [] |};
         {| name := "urgency"; tool := "ai_classify_urgency";
            params := [("content", VStr "${trigger_data.content}");
                       ("keywords", VList [VStr "urgent"; VStr "overdue"])];
            conditions := [] |};
         {| name := "log"; tool := "workflow_log"; params := []; conditions := [] |} ] |}.

(** A workflow whose second step is gated on the trigger data *)
Definition gated_workflow : WorkflowDef :=
  {| description := "log, file invoices, log";
     triggers := [];
     steps :=
       [ {| name := "first"; tool := "workflow_log"; params := []; conditions := [] |};
         {| name := "invoice_only"; tool := "vision_extract_invoice"; params := [];
            conditions := ["trigger_data LIKE '%invoice%'"] |};
         {| name := "last"; tool := "workflow_log"; params := []; conditions := [] |} ] |}.

(** A workflow whose middle step names a tool of no known namespace *)
Definition faulty_workflow : WorkflowDef :=
  {| description := "summarise, mail, log";
     triggers := [];
     steps :=
       [ {| name := "summary"; tool := "ai_summarize";
            params := [("content", VStr "${trigger_data.content}")]; conditions := [] |};
         {| name := "notify"; tool := "email_send";
            params := [("to", VStr "ops@example.com")]; conditions := [] |};
         {| name := "log"; tool := "workflow_log"; params := []; conditions := [] |} ] |}.

(** A finished execution with one successful and one failed step *)
Definition sample_execution : WorkflowExecution :=
  {| workflow_name := "faulty"; trigger_event := "mail";
     trigger_data := [("content", VStr "hello")];
     execution_id := "faulty_20261104_120000"; status := "completed";
     steps_completed :=
       [ {| success := true; step_name := "summary"; tool_name := "ai_summarize";
            result := VDict [("summary", VStr "a note"); ("tags", VList [VInt 1; VNone])];
            error := None; timestamp := "2026-11-04T12:00:02" |};
         {| success := false; step_name := "notify"; tool_name := "email_send";
            result := VNone; error := Some "Unknown tool: email_send";
            timestamp := "2026-11-04T12:00:03" |} ];
     started_at := "2026-11-04T12:00:01";
     completed_at := Some "2026-11-04T12:00:04" |}.

(** ** Further vocabulary *)

(** Every character of the text satisfies [p]. *)
Fixpoint all_chars (p : ascii -> bool) (s : string) : bool :=
  match s with
  | EmptyString => true
  | String c s' => p c && all_chars p s'
  end.

(** A character that stands for itself in the pattern of a [LIKE]
    condition: not the wildcard and not one that [re] reads as an
    operator. *)
Definition plain_char (c : ascii) : bool :=
  negb (PyStr.mem_char c "%()[\.*+?{|^$").

Definition plain (pattern : string) : bool := all_chars plain_char pattern.

(** A text without a dot, as the name of one segment of a path is *)
Definition dot_free (s : string) : bool := all_chars (fun c => negb (Ascii.eqb c ".")) s.

Definition is_str (v : value) : bool :=
  match v with
  | VStr _ => true
  | _ => false
  end.

Definition is_dict (v : value) : bool :=
  match v with
  | VDict _ => true
  | _ => false
  end.


(** [l1] is [l2] with some of its elements left out. *)
Inductive subsequence {A : Type} : list A -> list A -> Prop :=
| subsequence_nil : subsequence [] []
| subsequence_skip (x : A) (l1 l2 : list A) :
    subsequence l1 l2 -> subsequence l1 (x :: l2)
| subsequence_keep (x : A) (l1 l2 : list A) :
    subsequence l1 l2 -> subsequence (x :: l1) (x :: l2).

(** The urgency levels, in their order *)
Definition level_rank (level : string) : nat :=
  if String.eqb level "urgent" then 2
  else if String.eqb level "high" then 1
  else 0.

(** A placeholder for the path made of the given segments *)
Definition placeholder (segments : list string) : string :=
  "${" ++ PyStr.join "." segments ++ "}".

(** A parameter value that [resolve_parameters] takes for a placeholder *)
Definition is_placeholder (v : value) : bool :=
  match v with
  | VStr s => PyStr.startswith s "${"
  | _ => false
  end.

(** The value found by following the keys of [path] through nested
    dictionaries, if every key is there *)
Fixpoint value_at (path : list string) (v : value) : option value :=
  match path with
  | [] => Some v
  | key :: rest =>
      match v with
      | VDict d =>
          match PyDict.lookup d key with
          | Some x => value_at rest x
          | None => None
          end
      | _ => None
      end
  end.

(** The tool identifiers that the dispatcher and the four namespaces know *)
Definition known_tools : list string :=
  ["ai_summarize"; "ai_extract_entities"; "ai_classify_urgency";
   "crm_update_communication"; "crm_create_task"; "vision_extract_invoice";
   "quickbooks_create_vendor"; "workflow_log"].

(** Those of them that stand for a call to another server and return a
    fixed answer *)
Definition stub_tools : list string :=
  ["ai_summarize"; "crm_update_communication"; "crm_create_task";
   "vision_extract_invoice"; "quickbooks_create_vendor"; "workflow_log"].

(** The entity kinds that [ai_extract_entities] extracts, in the order of
    its answer *)
Definition entity_kinds : list string := ["dates"; "amounts"; "vehicles"; "deadlines"].

(** The fields of the engine that a reading of the clock leaves alone *)
Definition same_tables (a b : WorkflowEngine) : Prop :=
  workflows a = workflows b /\ executions a = executions b
  /\ database a = database b /\ clock a = clock b /\ stdout a = stdout b.

(** What a record holds under a key *)
Definition record_field (record : value) (key : string) : option value :=
  match record with
  | VDict d => PyDict.lookup d key
  | _ => None
  end.

(** The items of a dictionary as [repr] prints them, between the braces *)
Fixpoint repr_items (d : list (string * value)) : string :=
  match d with
  | [] => EmptyString
  | [(k, x)] => PyVal.repr_str k ++ ": " ++ PyVal.repr x
  | (k, x) :: rest => PyVal.repr_str k ++ ": " ++ PyVal.repr x ++ ", " ++ repr_items rest
  end.

(** A character that [repr] prints as it is in a key: a printable ASCII
    character other than the single quote and the backslash *)
Definition key_char (c : ascii) : bool :=
  PyStr.between 32 126 (PyStr.code c)
  && negb (Ascii.eqb c "'") && negb (Ascii.eqb c PyStr.backslash).

Module JsonSpec2.

Import Json JsonSpec.

(** The indented text of [v], at any depth and followed by anything that
    closes a number, reads back as [v] with enough fuel. *)
Definition reads_back_indent (v : value) : Prop :=
  forall (level fuel : nat) (rest : string),
    weight v <= fuel -> closes_number rest ->
    parse_value fuel (dumps_indent level v ++ rest) = Ok (normalize v, rest).

End JsonSpec2.

Module ReSpec2.

Import Re.

(** The expression [compile] makes of a run of plain characters followed
    by a pattern that reads as [r] *)
Fixpoint chars_then (p : string) (r : regex) : regex :=
  match p with
  | EmptyString => r
  | String c p' =>
      match chars_then p' r with
      | Eps => Chr (CChar c)
      | r' => Cat (Chr (CChar c)) r'
      end
  end.

End ReSpec2.

(* ================================================================== *)
(** * Properties *)
(* ================================================================== *)

(** ** The embedding on documented inputs *)

(** The library functions of the embedding, on inputs whose results are
    those of the Python interpreter. *)
Example python_strings :
  PyStr.split "." "a..b" = ["a"; ""; "b"]
  /\ PyStr.slice "${foo}" 2 (-1) = "foo"
  /\ PyStr.slice "${" 2 (-1) = ""
  /\ PyStr.strip_chars quote_chars (PyStr.strip " 'open' ") = "open"
  /\ PyStr.lower "Monthly Invoice #123" = "monthly invoice #123"
  /\ PyStr.pad 2 7 = "07" /\ PyStr.of_Z (-12) = "-12"
  /\ PyVal.str (VDict [("a", VList [VInt 1; VNone]); ("b", VBool true)])
     = "{'a': [1, None], 'b': True}".
Proof. repeat split; reflexivity. Qed.

Example python_re :
  Re.match_groups LIKE_PATTERN "FIELD   LIKE '%invoice%' and more"
  = Ok (Some [Some "FIELD"; Some "%invoice%"])
  /\ Re.match_groups IN_PATTERN "STATUS IN ('open', 'pending')"
     = Ok (Some [Some "STATUS"; Some "'open', 'pending'"])
  /\ Re.match_groups IN_PATTERN " STATUS IN ('open')" = Ok None
  /\ Re.search ".*invoice.*" "monthly invoice #123" = Ok true
  /\ Re.search "a.*b" "xxbya" = Ok false
  /\ Re.search "a.*b" "xaybz" = Ok true.
Proof. repeat split; reflexivity. Qed.

Example python_json :
  let v := VDict [("a", VList [VInt 1; VInt (-20); VStr "x/y"; VNone]);
                  ("b", VDict []); ("c", VBool false)] in
  Json.dumps v = "{" ++ Json.dumps_str "a" ++ ": [1, -20, " ++ Json.dumps_str "x/y"
                 ++ ", null], " ++ Json.dumps_str "b" ++ ": {}, "
                 ++ Json.dumps_str "c" ++ ": false}"
  /\ Json.loads (Json.dumps v) = Ok v
  /\ Json.loads (Json.dumps_indent 0 v) = Ok v.
Proof. repeat split; reflexivity. Qed.

(** ** Strings *)

Module PyStrFacts.

Import PyStr.

Lemma append_assoc (a b c : string) : (a ++ b) ++ c = a ++ (b ++ c).
Proof. induction a as [|x a IH]; cbn; [reflexivity | now rewrite IH]. Qed.

Lemma append_nil_r (s : string) : s ++ "" = s.
Proof. induction s as [|c s IH]; cbn; [reflexivity | now rewrite IH]. Qed.

Lemma length_append (a b : string) :
  String.length (a ++ b) = String.length a + String.length b.
Proof. induction a as [|c a IH]; cbn; [reflexivity | now rewrite IH]. Qed.

(** Two splits of a text at the same position are the same split. *)
Lemma append_inj_prefix (a b x y : string) :
  a ++ x = b ++ y -> String.length a = String.length b -> a = b /\ x = y.
Proof.
  revert b. induction a as [|c a IH]; intros [|d b] H L; try discriminate.
  - split; [reflexivity | exact H].
  - cbn in H, L. injection H as -> H. injection L as L.
    destruct (IH b H L) as [-> ->]. split; reflexivity.
Qed.

Lemma append_inj_suffix (a b x y : string) :
  a ++ x = b ++ y -> String.length x = String.length y -> a = b /\ x = y.
Proof.
  intros H L. apply append_inj_prefix; [exact H|].
  apply (f_equal String.length) in H. rewrite !length_append in H. lia.
Qed.

Lemma rev_onto_rev_onto (s acc t : string) :
  rev_onto (rev_onto s acc) t = rev_onto acc (s ++ t).
Proof.
  revert acc t. induction s as [|c s IH]; intros acc t; cbn; [reflexivity|].
  rewrite IH. reflexivity.
Qed.

Lemma take_butlast (s : string) : take (String.length s - 1) s = butlast s.
Proof.
  induction s as [|c s IH]; [reflexivity|].
  destruct s as [|d s]; [reflexivity|].
  cbn [String.length] in *.
  replace (S (S (String.length s)) - 1) with (S (S (String.length s) - 1)) by lia.
  cbn [take]. rewrite IH. reflexivity.
Qed.

(** [s[2:-1]] drops the first two characters and the last one, whatever
    they are. *)
Lemma slice_2_m1 (s : string) : slice s 2 (-1) = butlast (drop 2 s).
Proof.
  unfold slice, slice_index.
  destruct s as [|a [|b t]]; try reflexivity.
  change ((-1 <? 0)%Z) with true. change ((2 <? 0)%Z) with false. cbv iota.
  change (String.length (String a (String b t))) with (S (S (String.length t))).
  set (n := String.length t).
  replace (Nat.min (S (S n)) (Z.to_nat 2)) with 2 by lia.
  replace (Nat.min (S (S n)) (Z.to_nat (-1 + Z.of_nat (S (S n))))) with (S n) by lia.
  change (drop 2 (String a (String b t))) with t.
  rewrite <- take_butlast. reflexivity.
Qed.

Lemma prefix_append (p s : string) : String.prefix p (p ++ s) = true.
Proof.
  induction p as [|c p IH]; cbn.
  - destruct s; reflexivity.
  - destruct (ascii_dec c c) as [_|n]; [exact IH | contradiction].
Qed.

Lemma contains_prefix (sub s : string) :
  String.prefix sub s = true -> contains sub s = true.
Proof. intros H. destruct s; cbn [contains]; rewrite H; reflexivity. Qed.

Lemma contains_cons (sub : string) (c : ascii) (s : string) :
  contains sub s = true -> contains sub (String c s) = true.
Proof.
  intros H. cbn [contains]. destruct (String.prefix sub (String c s)); auto.
Qed.

(** A text that holds [sub] somewhere contains it. *)
Lemma contains_append (a sub b : string) : contains sub (a ++ sub ++ b) = true.
Proof.
  induction a as [|c a IH].
  - cbn [append]. apply contains_prefix, prefix_append.
  - cbn [append]. apply contains_cons, IH.
Qed.

End PyStrFacts.

(** ** Parameter resolver *)

(** Values that are not strings, and strings that do not start with the
    marker, pass through. *)
Lemma resolve_value_literal (v : value) (context : dict) :
  match v with VStr s => PyStr.startswith s "${" = false | _ => True end ->
  resolve_value v context = Ok v.
Proof.
  destruct v; cbn [resolve_value]; intros H; try reflexivity.
  rewrite H. reflexivity.
Qed.

(** The value stored for a string parameter *)
Lemma resolve_value_str (s : string) (context : dict) :
  resolve_value (VStr s) context =
  if PyStr.startswith s "${" then
    let var_name := butlast (PyStr.drop 2 s) in
    if PyStr.contains "." var_name
    then walk_path (PyStr.split "." var_name) (VDict context)
    else Ok (PyDict.get context var_name (VStr s))
  else Ok (VStr s).
Proof.
  cbn [resolve_value]. rewrite PyStrFacts.slice_2_m1. reflexivity.
Qed.

(** A missing segment followed by another one always raises. *)
Lemma walk_path_missing_inner (d : dict) (part next : string) (rest : list string) :
  PyDict.lookup d part = None ->
  walk_path (part :: next :: rest) (VDict d)
  = Raise (AttributeError "'str' object has no attribute 'get'").
Proof.
  intros H. cbn [walk_path value_get bind]. unfold PyDict.get. rewrite H.
  reflexivity.
Qed.

(** A path whose last segment alone is missing resolves to the empty
    string. *)
Lemma walk_path_missing_last (d : dict) (part : string) :
  PyDict.lookup d part = None -> walk_path [part] (VDict d) = Ok (VStr "").
Proof.
  intros H. cbn [walk_path value_get bind]. unfold PyDict.get. rewrite H.
  reflexivity.
Qed.

(** Walking a path is walking its first part, then the rest from where
    that led. *)
Lemma walk_path_app (before after : list string) (v : value) :
  walk_path (before ++ after)%list v = x <- walk_path before v ;; walk_path after x.
Proof.
  revert v. induction before as [|part before IH]; intros v; [reflexivity|].
  cbn [List.app walk_path]. destruct (value_get v part (VStr "")) as [x|e]; cbn [bind].
  - apply IH.
  - reflexivity.
Qed.

(** C10.  Placeholder handling is gated by the test that the value starts
    with the marker, and by nothing else: a string parameter that starts
    with it loses its first two characters and its last one, whatever that
    last character is, and what is left is looked up (as a dotted path, or
    as a key of the context with the value itself as default); any other
    string passes through.  So the value made of the marker and [foo],
    with no closing brace, is looked up under the key [fo]. *)
Theorem resolve_parameters_gated_by_prefix_only :
  (forall (key s : string) (context : dict),
      resolve_parameters [(key, VStr s)] context =
      if PyStr.startswith s "${" then
        let var_name := butlast (PyStr.drop 2 s) in
        if PyStr.contains "." var_name
        then r <- walk_path (PyStr.split "." var_name) (VDict context) ;; Ok [(key, r)]
        else Ok [(key, PyDict.get context var_name (VStr s))]
      else Ok [(key, VStr s)])
  /\ resolve_parameters [("x", VStr "${foo")] [("fo", VStr "bar"); ("foo", VStr "baz")]
     = Ok [("x", VStr "bar")]
  /\ resolve_parameters [("x", VStr "${foo")] [("foo", VStr "baz")]
     = Ok [("x", VStr "${foo")].
Proof.
  split; [|split; reflexivity].
  intros key s context. unfold resolve_parameters. cbn [resolve_loop].
  rewrite resolve_value_str.
  destruct (PyStr.startswith s "${"); [|reflexivity].
  cbv zeta. destruct (PyStr.contains "." (butlast (PyStr.drop 2 s))); [|reflexivity].
  destruct (walk_path _ _); reflexivity.
Qed.

(** C2.  A dotted path whose missing segment is not the last one does not
    resolve to the empty string: the lookup of the segment after it is made
    on the empty string that stood in for the missing one, and raises.
    This holds wherever on the path the missing segment is, as long as
    another segment follows it; a path that misses its last segment only
    resolves to the empty string.  So the parameter that names the
    [email] of the [sender] of a trigger without [sender] raises. *)
Theorem resolve_parameters_missing_inner_segment_raises :
  (forall (before : list string) (part next : string) (rest : list string)
          (context d : dict),
      walk_path before (VDict context) = Ok (VDict d) ->
      PyDict.lookup d part = None ->
      walk_path (before ++ part :: next :: rest)%list (VDict context)
      = Raise (AttributeError "'str' object has no attribute 'get'"))
  /\ (forall (before : list string) (part : string) (context d : dict),
         walk_path before (VDict context) = Ok (VDict d) ->
         PyDict.lookup d part = None ->
         walk_path (before ++ [part])%list (VDict context) = Ok (VStr ""))
  /\ resolve_parameters
       [("email", VStr "${trigger_data.sender.email}")]
       (context_dict {| ctx_trigger_data := [("subject", VStr "hello")];
                        ctx_execution_results := [] |})
     = Raise (AttributeError "'str' object has no attribute 'get'").
Proof.
  split; [|split].
  - intros before part next rest context d Hbefore Hmissing.
    rewrite walk_path_app, Hbefore. cbn [bind].
    apply walk_path_missing_inner, Hmissing.
  - intros before part context d Hbefore Hmissing.
    rewrite walk_path_app, Hbefore. cbn [bind].
    apply walk_path_missing_last, Hmissing.
  - reflexivity.
Qed.

Lemma resolve_parameters_missing_inner_segment_raises_witness :
  walk_path (["trigger_data"] ++ "sender" :: "email" :: [])%list
            (VDict (context_dict {| ctx_trigger_data := [("subject", VStr "hello")];
                                    ctx_execution_results := [] |}))
  = Raise (AttributeError "'str' object has no attribute 'get'").
Proof.
  apply (proj1 resolve_parameters_missing_inner_segment_raises
           ["trigger_data"] "sender" "email" []
           (context_dict {| ctx_trigger_data := [("subject", VStr "hello")];
                            ctx_execution_results := [] |})
           [("subject", VStr "hello")]); reflexivity.
Defined.

(** The example of the specification: a path whose last segment is the
    missing one resolves to the empty string, and a path that is all there
    to the value it leads to. *)
Example resolve_parameters_examples :
  resolve_parameters
    [("email", VStr "${trigger_data.nonexistent}")]
    (context_dict {| ctx_trigger_data := [("subject", VStr "hello")];
                     ctx_execution_results := [] |})
  = Ok [("email", VStr "")]
  /\ resolve_parameters
       [("email", VStr "${trigger_data.sender_identifier}")]
       [("trigger_data", VDict [("sender_identifier", VStr "x@y.com")])]
     = Ok [("email", VStr "x@y.com")].
Proof. split; reflexivity. Qed.

(** ** Urgency classification *)

Lemma count_keywords_strings (keywords : list string) (content : string) (score : Z) :
  count_keywords (map VStr keywords) (VStr content) score
  = Ok (score + Z.of_nat (keyword_hits keywords content))%Z.
Proof.
  revert score. induction keywords as [|k ks IH]; intros score.
  - cbn. f_equal. lia.
  - cbn [map count_keywords py_lower bind]. rewrite IH.
    unfold keyword_hits. cbn [filter].
    destruct (PyStr.contains (PyStr.lower k) (PyStr.lower content));
      cbn [List.length]; f_equal; lia.
Qed.

Lemma urgency_level_of_tier (hits : nat) :
  urgency_level_of (Z.of_nat hits) = tier hits.
Proof.
  unfold urgency_level_of.
  destruct hits as [|[|n]]; try reflexivity.
  destruct (Z.geb_spec (Z.of_nat (S (S n))) 2); [reflexivity|lia].
Qed.

(** C6.  For every content string and every list of keyword strings,
    [ai_classify_urgency] scores the number of keywords that occur in the
    content, case ignored, and labels 0 hits [normal], 1 hit [high] and 2
    or more [urgent].  The content [URGENT: payment overdue] with the
    keywords [urgent] and [overdue] scores 2 and is [urgent], also as the
    middle step of a three-step run, which completes with three successful
    step results. *)
Theorem ai_classify_urgency_tiers :
  (forall (findall : string -> bool -> string -> list string)
          (content : string) (keywords : list string) (context : dict),
      execute_ai_tool findall "ai_classify_urgency"
        [("content", VStr content); ("keywords", VList (map VStr keywords))] context
      = Ok (VDict [("urgency_level", VStr (tier (keyword_hits keywords content)));
                   ("urgency_score", VInt (Z.of_nat (keyword_hits keywords content)))]))
  /\ (forall findall context,
         execute_ai_tool findall "ai_classify_urgency"
           [("content", VStr "URGENT: payment overdue");
            ("keywords", VList [VStr "urgent"; VStr "overdue"])] context
         = Ok (VDict [("urgency_level", VStr "urgent"); ("urgency_score", VInt 2)]))
  /\ (forall findall,
         let run := snd (execute_workflow findall (example_engine [("triage", triage_workflow)])
                           "triage" "communication.created"
                           [("content", VStr "URGENT: payment overdue")]) in
         run.(status) = "completed"
         /\ map success run.(steps_completed) = [true; true; true]
         /\ map result run.(steps_completed)
            = [VDict [("summary", VStr SUMMARY)];
               VDict [("urgency_level", VStr "urgent"); ("urgency_score", VInt 2)];
               VDict [("logged", VBool true); ("message", VStr "Workflow completion logged")]]).
Proof.
  split; [|split].
  - intros findall content keywords context.
    unfold execute_ai_tool.
    change (String.eqb "ai_classify_urgency" "ai_summarize") with false.
    change (String.eqb "ai_classify_urgency" "ai_extract_entities") with false.
    change (String.eqb "ai_classify_urgency" "ai_classify_urgency") with true.
    cbv iota.
    change (PyDict.get [("content", VStr content); ("keywords", VList (map VStr keywords))]
                       "content" (VStr "")) with (VStr content).
    change (PyDict.get [("content", VStr content); ("keywords", VList (map VStr keywords))]
                       "keywords" (VList [])) with (VList (map VStr keywords)).
    cbn [py_iter bind].
    rewrite count_keywords_strings. cbn [bind Z.add].
    rewrite urgency_level_of_tier. reflexivity.
  - intros; reflexivity.
  - intros findall. vm_compute. repeat split.
Qed.

(** ** Regular expressions *)

Module ReFacts.

Import Re ReSpec.

Lemma star_loop_sound (r : regex) (m : matcher) :
  sound r m ->
  forall (fuel : nat) (s : string) (caps : captures) (k : continuation) (c : captures),
    star_loop m k fuel s caps = Some c ->
    exists (w s' : string) (caps' : captures),
      s = w ++ s' /\ lang (Star r) w /\ k s' caps' = Some c.
Proof.
  intros Hm. induction fuel as [|fuel IH]; intros s caps k c H.
  - exists EmptyString, s, caps. repeat split; [constructor | exact H].
  - cbn [star_loop] in H.
    destruct (m s caps _) as [c'|] eqn:E.
    + injection H as ->.
      apply Hm in E. destruct E as (w1 & s1 & caps1 & -> & L1 & K).
      destruct (String.length s1 <? String.length (w1 ++ s1))%nat; [|discriminate].
      apply IH in K. destruct K as (w2 & s2 & caps2 & -> & L2 & K).
      exists (w1 ++ w2), s2, caps2. rewrite PyStrFacts.append_assoc.
      repeat split; [constructor; assumption | exact K].
    + exists EmptyString, s, caps. repeat split; [constructor | exact H].
Qed.

(** The backtracking matcher only succeeds on words of the expression. *)
Lemma run_sound (r : regex) : sound r (run r).
Proof.
  induction r as [|cs|r1 IH1 r2 IH2|r1 IH1|r1 IH1|r1 IH1|i r1 IH1];
    intros s caps k c H; cbn [run] in H.
  - exists EmptyString, s, caps. repeat split; [constructor | exact H].
  - destruct s as [|ch s']; [discriminate|].
    destruct (in_charset cs ch) eqn:E; [|discriminate].
    exists (String ch EmptyString), s', caps.
    repeat split; [constructor; exact E | exact H].
  - apply IH1 in H. destruct H as (w1 & s1 & caps1 & -> & L1 & K).
    apply IH2 in K. destruct K as (w2 & s2 & caps2 & -> & L2 & K).
    exists (w1 ++ w2), s2, caps2. rewrite PyStrFacts.append_assoc.
    repeat split; [constructor; assumption | exact K].
  - eapply star_loop_sound; eassumption.
  - apply IH1 in H. destruct H as (w1 & s1 & caps1 & -> & L1 & K).
    apply (star_loop_sound r1 _ IH1) in K.
    destruct K as (w2 & s2 & caps2 & -> & L2 & K).
    exists (w1 ++ w2), s2, caps2. rewrite PyStrFacts.append_assoc.
    repeat split; [constructor; assumption | exact K].
  - destruct (run r1 s caps k) as [c'|] eqn:E.
    + injection H as ->. apply IH1 in E.
      destruct E as (w & s' & caps' & -> & L & K).
      exists w, s', caps'. repeat split; [constructor; exact L | exact K].
    + exists EmptyString, s, caps. repeat split; [constructor | exact H].
  - apply IH1 in H. destruct H as (w & s' & caps' & -> & L & K).
    eexists w, s', _. repeat split; [constructor; exact L | exact K].
Qed.

Lemma match_at_sound (r : regex) (s : string) (caps : captures) :
  match_at r s = Some caps -> exists w s', s = w ++ s' /\ lang r w.
Proof.
  intros H. apply run_sound in H. destruct H as (w & s' & _ & E & L & _).
  exists w, s'. split; assumption.
Qed.

Lemma compile_like : compile LIKE_PATTERN = Ok (like_regex, 2).
Proof. reflexivity. Qed.

Lemma compile_in : compile IN_PATTERN = Ok (in_regex, 2).
Proof. reflexivity. Qed.

Lemma lang_char (x : ascii) (w : string) :
  lang (Chr (CChar x)) w -> w = String x EmptyString.
Proof.
  intros H. inversion H as [|cs c E| | | | | | |]; subst.
  cbn in E. apply Ascii.eqb_eq in E. now subst.
Qed.

Ltac invert_lang :=
  repeat match goal with
    | H : lang (Cat _ _) _ |- _ => inversion H; subst; clear H
    | H : lang (Group _ _) _ |- _ => inversion H; subst; clear H
    | H : lang (Chr (CChar _)) _ |- _ => apply lang_char in H; subst
    end.

(** A text that matches the [LIKE] grammar holds the keyword. *)
Lemma like_match_contains (c : string) (caps : captures) :
  match_at like_regex c = Some caps -> PyStr.contains "LIKE" c = true.
Proof.
  intros H. apply match_at_sound in H. destruct H as (w & s' & -> & L).
  unfold like_regex in L. invert_lang.
  repeat rewrite PyStrFacts.append_assoc.
  match goal with
  | |- PyStr.contains _ (?a ++ ?b ++ ?rest) = true =>
      rewrite <- (PyStrFacts.append_assoc a b rest)
  end.
  apply (PyStrFacts.contains_append _ "LIKE").
Qed.

(** A text that matches the [IN] grammar holds the keyword. *)
Lemma in_match_contains (c : string) (caps : captures) :
  match_at in_regex c = Some caps -> PyStr.contains "IN" c = true.
Proof.
  intros H. apply match_at_sound in H. destruct H as (w & s' & -> & L).
  unfold in_regex in L. invert_lang.
  repeat rewrite PyStrFacts.append_assoc.
  match goal with
  | |- PyStr.contains _ (?a ++ ?b ++ ?rest) = true =>
      rewrite <- (PyStrFacts.append_assoc a b rest)
  end.
  apply (PyStrFacts.contains_append _ "IN").
Qed.

Lemma match_groups_like (c : string) :
  match_groups LIKE_PATTERN c
  = Ok (match match_at like_regex c with
        | Some caps => Some (groups_from caps 1 2)
        | None => None
        end).
Proof. unfold match_groups. rewrite compile_like. reflexivity. Qed.

Lemma match_groups_in (c : string) :
  match_groups IN_PATTERN c
  = Ok (match match_at in_regex c with
        | Some caps => Some (groups_from caps 1 2)
        | None => None
        end).
Proof. unfold match_groups. rewrite compile_in. reflexivity. Qed.

Lemma like_groups_contains (c : string) (gs : list (option string)) :
  match_groups LIKE_PATTERN c = Ok (Some gs) -> PyStr.contains "LIKE" c = true.
Proof.
  rewrite match_groups_like.
  destruct (match_at like_regex c) as [caps|] eqn:E; [|discriminate].
  intros _. eapply like_match_contains, E.
Qed.

Lemma in_groups_contains (c : string) (gs : list (option string)) :
  match_groups IN_PATTERN c = Ok (Some gs) -> PyStr.contains "IN" c = true.
Proof.
  rewrite match_groups_in.
  destruct (match_at in_regex c) as [caps|] eqn:E; [|discriminate].
  intros _. eapply in_match_contains, E.
Qed.

End ReFacts.

(** ** Condition matcher *)

Lemma match_conditions_single (c : string) (data : dict) :
  match_conditions [c] data = check_condition c data.
Proof.
  cbn [match_conditions]. destruct (check_condition c data) as [[|]|e]; reflexivity.
Qed.

Lemma match_conditions_app (pre post : list string) (data : dict) :
  match_conditions (pre ++ post) data
  = (holds <- match_conditions pre data ;;
     if holds then match_conditions post data else Ok false).
Proof.
  induction pre as [|c pre IH]; cbn [List.app match_conditions bind]; [reflexivity|].
  destruct (check_condition c data) as [[|]|e]; cbn [bind]; auto.
Qed.


Lemma check_condition_like (c field pattern : string) (data : dict) :
  Re.match_groups LIKE_PATTERN c = Ok (Some [Some field; Some pattern]) ->
  check_condition c data
  = Re.search (PyStr.lower (PyStr.replace "%" ".*" pattern))
              (PyStr.lower (PyVal.str (PyDict.get data field (VStr "")))).
Proof.
  intros H. unfold check_condition.
  rewrite (ReFacts.like_groups_contains _ _ H).
  unfold match_two_groups. rewrite H. reflexivity.
Qed.

Lemma check_condition_in (c field values : string) (data : dict) :
  PyStr.contains "LIKE" c = false ->
  Re.match_groups IN_PATTERN c = Ok (Some [Some field; Some values]) ->
  check_condition c data
  = Ok (PyVal.in_strings (PyDict.get data field VNone) (allowed_values values)).
Proof.
  intros HL H. unfold check_condition. rewrite HL.
  rewrite (ReFacts.in_groups_contains _ _ H).
  unfold match_two_groups. rewrite H. reflexivity.
Qed.

(** A condition that matches neither grammar raises if it holds one of
    the two keywords, and is passed over if it holds none. *)
Lemma check_condition_neither (c : string) (data : dict) :
  Re.match_groups LIKE_PATTERN c = Ok None ->
  Re.match_groups IN_PATTERN c = Ok None ->
  check_condition c data
  = if PyStr.contains "LIKE" c || PyStr.contains "IN" c
    then Raise groups_of_none else Ok true.
Proof.
  intros HL HI. unfold check_condition, match_two_groups.
  rewrite HL, HI.
  destruct (PyStr.contains "LIKE" c); [reflexivity|].
  destruct (PyStr.contains "IN" c); reflexivity.
Qed.

Lemma value_eqb_str (v : value) (s : string) :
  PyVal.eqb v (VStr s) = true <-> v = VStr s.
Proof.
  destruct v; cbn; try (split; [discriminate | intros [=]]).
  rewrite String.eqb_eq. split; [intros -> | intros [= ->]]; reflexivity.
Qed.

(** [x in l]: [x] is a string equal to one of the elements of [l]. *)
Lemma in_strings_spec (v : value) (l : list string) :
  PyVal.in_strings v l = true <-> exists s, In s l /\ v = VStr s.
Proof.
  unfold PyVal.in_strings. rewrite existsb_exists.
  split; intros (s & Hin & H); exists s; split; auto; apply value_eqb_str; exact H.
Qed.

(** C3, counterexample.  The condition [amount > 100] matches neither
    grammar, and the matcher neither raises nor reports it: the condition
    list is held to be satisfied. *)
Lemma unrecognised_condition_passes_silently :
  Re.match_groups LIKE_PATTERN "amount > 100" = Ok None
  /\ Re.match_groups IN_PATTERN "amount > 100" = Ok None
  /\ match_conditions ["amount > 100"] [("amount", VInt 5)] = Ok true.
Proof. repeat split; reflexivity. Qed.

(** C3, as amended.  Take a condition that matches neither grammar, reached
    after conditions that hold.  If its text contains [LIKE] or [IN], the
    matcher raises there (the [AttributeError] of [groups] called on [None]);
    if it contains neither, the condition is not examined and the matcher
    goes on as if it held. *)
Theorem malformed_condition_raises_or_is_skipped
        (pre post : list string) (c : string) (data : dict) :
  match_conditions pre data = Ok true ->
  Re.match_groups LIKE_PATTERN c = Ok None ->
  Re.match_groups IN_PATTERN c = Ok None ->
  match_conditions (pre ++ c :: post) data
  = if PyStr.contains "LIKE" c || PyStr.contains "IN" c
    then Raise (AttributeError "'NoneType' object has no attribute 'groups'")
    else match_conditions post data.
Proof.
  intros Hpre HL HI.
  rewrite match_conditions_app, Hpre. cbn [bind match_conditions].
  rewrite (check_condition_neither c data HL HI).
  destruct (PyStr.contains "LIKE" c || PyStr.contains "IN" c); reflexivity.
Qed.

Lemma malformed_condition_raises_or_is_skipped_witness :
  match_conditions (["STATUS IN ('open')"] ++ "PRIORITY IN high" :: ["never reached"])
                   [("STATUS", VStr "open")]
  = Raise (AttributeError "'NoneType' object has no attribute 'groups'")
  /\ match_conditions (["STATUS IN ('open')"] ++ "amount > 100" :: ["STATUS IN ('closed')"])
                      [("STATUS", VStr "open")]
     = match_conditions ["STATUS IN ('closed')"] [("STATUS", VStr "open")].
Proof.
  split.
  - exact (malformed_condition_raises_or_is_skipped
             ["STATUS IN ('open')"] ["never reached"] "PRIORITY IN high"
             [("STATUS", VStr "open")] eq_refl eq_refl eq_refl).
  - exact (malformed_condition_raises_or_is_skipped
             ["STATUS IN ('open')"] ["STATUS IN ('closed')"] "amount > 100"
             [("STATUS", VStr "open")] eq_refl eq_refl eq_refl).
Defined.




(** ** Workflow executor *)

Section Executor.

Variable findall : string -> bool -> string -> list string.

Lemma run_steps_cons (step : Step) (rest : list Step) (st : Run) :
  run_steps findall (step :: rest) st
  = match passes_gate step st.(run_context) with
    | Raise e => (st, Some e)
    | Ok false => run_steps findall rest st
    | Ok true => run_steps findall rest (attempt findall step st)
    end.
Proof.
  cbn [run_steps]. unfold attempt.
  destruct (passes_gate step (run_context st)) as [[|]|e]; try reflexivity.
  destruct (execute_tool findall _ _ _); reflexivity.
Qed.

(** A step whose conditions are false leaves the loop state as it was. *)
Lemma run_steps_skip (step : Step) (rest : list Step) (st : Run) :
  step.(conditions) <> [] ->
  match_conditions step.(conditions) (context_dict st.(run_context)) = Ok false ->
  run_steps findall (step :: rest) st = run_steps findall rest st.
Proof.
  intros Hne Hfalse. rewrite run_steps_cons. unfold passes_gate.
  destruct (conditions step) as [|c cs]; [contradiction|].
  rewrite Hfalse. reflexivity.
Qed.

(** The step results only grow, and by results of the steps in hand. *)
Lemma run_steps_extends (todo : list Step) (st : Run) :
  exists more,
    run_steps_completed (fst (run_steps findall todo st))
    = (st.(run_steps_completed) ++ more)%list
    /\ Forall (fun r => exists step, In step todo
                                     /\ r.(step_name) = step.(name)
                                     /\ r.(tool_name) = step.(tool)) more.
Proof.
  revert st. induction todo as [|step rest IH]; intros st.
  - exists []. cbn. rewrite List.app_nil_r. split; [reflexivity | constructor].
  - rewrite run_steps_cons.
    destruct (passes_gate step (run_context st)) as [[|]|e].
    + destruct (IH (attempt findall step st)) as (more & E & F).
      assert (exists r, run_steps_completed (attempt findall step st)
                        = (run_steps_completed st ++ [r])%list
                        /\ r.(step_name) = step.(name)
                        /\ r.(tool_name) = step.(tool)) as (r & Er & Hn & Ht).
      { unfold attempt. destruct (execute_tool findall _ _ _); eexists; repeat split. }
      exists (r :: more). split.
      * rewrite E, Er, <- List.app_assoc. reflexivity.
      * constructor.
        -- exists step. repeat split; auto. left; reflexivity.
        -- eapply Forall_impl; [|exact F].
           intros x (s & Hin & H1 & H2). exists s. repeat split; auto. right; exact Hin.
    + destruct (IH st) as (more & E & F). exists more. split; [exact E|].
      eapply Forall_impl; [|exact F].
      intros x (s & Hin & H1 & H2). exists s. repeat split; auto. right; exact Hin.
    + exists []. cbn. rewrite List.app_nil_r. split; [reflexivity | constructor].
Qed.

(** An exception escapes the loop only from the gate of a step. *)
Lemma run_steps_escape (todo : list Step) (st : Run) (e : exn) :
  snd (run_steps findall todo st) = Some e ->
  exists step context, In step todo /\ passes_gate step context = Raise e.
Proof.
  revert st. induction todo as [|step rest IH]; intros st; [discriminate|].
  rewrite run_steps_cons.
  destruct (passes_gate step (run_context st)) as [[|]|e'] eqn:G.
  - intros H. apply IH in H. destruct H as (s & c & Hin & H).
    exists s, c. split; [right; exact Hin | exact H].
  - intros H. apply IH in H. destruct H as (s & c & Hin & H).
    exists s, c. split; [right; exact Hin | exact H].
  - cbn. intros [= ->]. exists step, (run_context st). split; [left; reflexivity | exact G].
Qed.

Lemma execute_workflow_id (eng : WorkflowEngine) (wf_name event : string) (data : dict) :
  execution_id (snd (execute_workflow findall eng wf_name event data))
  = wf_name ++ "_" ++ strftime_compact (eng.(clock) eng.(ticks)).
Proof.
  unfold execute_workflow. cbn [now fst snd with_executions workflows].
  destruct (PyDict.lookup (workflows eng) wf_name) as [def|]; cbn.
  - destruct (run_steps _ _ _) as [st [e|]]; reflexivity.
  - reflexivity.
Qed.

Lemma execute_workflow_unknown (eng : WorkflowEngine) (wf_name event : string) (data : dict) :
  PyDict.lookup eng.(workflows) wf_name = None ->
  let run := snd (execute_workflow findall eng wf_name event data) in
  run.(status) = "failed" /\ run.(steps_completed) = [].
Proof.
  intros H. unfold execute_workflow. cbn [now fst snd with_executions workflows].
  rewrite H. cbn. split; reflexivity.
Qed.

Lemma execute_workflow_known (eng : WorkflowEngine) (wf_name event : string) (data : dict)
      (def : WorkflowDef) :
  PyDict.lookup eng.(workflows) wf_name = Some def ->
  let run := snd (execute_workflow findall eng wf_name event data) in
  let loop := run_steps findall def.(steps) (initial_run eng wf_name event data) in
  run.(steps_completed) = run_steps_completed (fst loop)
  /\ run.(status) = match snd loop with None => "completed" | Some _ => "failed" end.
Proof.
  intros H. unfold execute_workflow. cbn [now fst snd with_executions workflows].
  rewrite H. cbv zeta.
  change (run_steps findall (steps def) _)
    with (run_steps findall (steps def) (initial_run eng wf_name event data)).
  destruct (run_steps findall (steps def) (initial_run eng wf_name event data)) as [st [e|]];
    cbn; split; reflexivity.
Qed.

(** The dispatcher raises on a tool of no known namespace, in every
    context: the error of the parameter resolver if it has one, the
    unknown-tool error otherwise. *)
Lemma execute_tool_unknown_namespace (tool_id : string) (arguments context : dict) :
  unknown_namespace tool_id = true ->
  execute_tool findall tool_id arguments context
  = match resolve_parameters arguments context with
    | Ok _ => Raise (ValueError ("Unknown tool: " ++ tool_id))
    | Raise e => Raise e
    end.
Proof.
  unfold unknown_namespace, execute_tool. intros H.
  repeat (apply andb_true_iff in H; destruct H as [H ?]).
  repeat match goal with
         | X : negb _ = true |- _ => apply negb_true_iff in X; rewrite X
         end.
  destruct (resolve_parameters arguments context); reflexivity.
Qed.

End Executor.

(** C8.  A step whose condition list is not empty and evaluates to false
    in the current context is passed over: the loop goes on with the next
    step from the same state, so no step result is appended for it.  And
    every step result of a run carries the name and the tool of a step of
    the workflow definition that was executed. *)
Theorem skipped_steps_leave_no_result :
  (forall (findall : string -> bool -> string -> list string)
          (step : Step) (rest : list Step) (st : Run),
      step.(conditions) <> [] ->
      match_conditions step.(conditions) (context_dict st.(run_context)) = Ok false ->
      run_steps findall (step :: rest) st = run_steps findall rest st)
  /\ (forall (findall : string -> bool -> string -> list string)
             (eng : WorkflowEngine) (wf_name event : string) (data : dict)
             (r : WorkflowResult),
         In r (steps_completed (snd (execute_workflow findall eng wf_name event data))) ->
         exists (def : WorkflowDef) (step : Step),
           PyDict.lookup eng.(workflows) wf_name = Some def
           /\ In step def.(steps)
           /\ r.(step_name) = step.(name)
           /\ r.(tool_name) = step.(tool)).
Proof.
  split.
  - intros. apply run_steps_skip; assumption.
  - intros findall eng wf_name event data r Hin.
    destruct (PyDict.lookup (workflows eng) wf_name) as [def|] eqn:L.
    + destruct (execute_workflow_known findall eng wf_name event data def L) as [E _].
      rewrite E in Hin.
      destruct (run_steps_extends findall (steps def) (initial_run eng wf_name event data))
        as (more & E' & F).
      rewrite E' in Hin. cbn [initial_run run_steps_completed List.app] in Hin.
      rewrite Forall_forall in F. destruct (F r Hin) as (step & Hs & Hn & Ht).
      exists def, step. repeat split; assumption.
    + destruct (execute_workflow_unknown findall eng wf_name event data L) as [_ E].
      rewrite E in Hin. destruct Hin.
Qed.

Lemma skipped_steps_leave_no_result_witness :
  let st := initial_run (example_engine [("gated", gated_workflow)]) "gated" "mail"
                        [("subject", VStr "hello")] in
  (run_steps findall_nothing
     ({| name := "invoice_only"; tool := "vision_extract_invoice"; params := [];
         conditions := ["trigger_data LIKE '%invoice%'"] |}
      :: [{| name := "last"; tool := "workflow_log"; params := []; conditions := [] |}]) st
   = run_steps findall_nothing
       [{| name := "last"; tool := "workflow_log"; params := []; conditions := [] |}] st)
  /\ map step_name
         (steps_completed
            (snd (execute_workflow findall_nothing
                    (example_engine [("gated", gated_workflow)]) "gated" "mail"
                    [("subject", VStr "hello")])))
     = ["first"; "last"].
Proof.
  intros st. split.
  - apply (proj1 skipped_steps_leave_no_result findall_nothing).
    + discriminate.
    + reflexivity.
  - reflexivity.
Defined.

(** C1.  Take a workflow of three steps that pass their gates, whose
    second step's tool invocation raises and whose third step's tool
    invocation returns.  The run has three step results; the second has
    [success=False] and carries the text of the exception, the third has
    [success=True], and the status of the run is [completed].  A tool of
    no known namespace is such a second step: its invocation raises in
    every context.  And whatever the tools of a workflow do, their errors
    never fail the run: a run of a known workflow whose conditions
    evaluate without raising is [completed]. *)
Theorem step_failure_does_not_fail_the_run :
  (forall (findall : string -> bool -> string -> list string)
          (eng : WorkflowEngine) (wf_name event : string) (data : dict)
          (def : WorkflowDef) (s1 s2 s3 : Step) (e : exn) (v3 : value),
      PyDict.lookup eng.(workflows) wf_name = Some def ->
      def.(steps) = [s1; s2; s3] ->
      let c0 := {| ctx_trigger_data := data; ctx_execution_results := [] |} in
      let c1 := match execute_tool findall s1.(tool) s1.(params) (context_dict c0) with
                | Ok v1 => record_result c0 s1.(name) v1
                | Raise _ => c0
                end in
      passes_gate s1 c0 = Ok true ->
      passes_gate s2 c1 = Ok true ->
      execute_tool findall s2.(tool) s2.(params) (context_dict c1) = Raise e ->
      passes_gate s3 c1 = Ok true ->
      execute_tool findall s3.(tool) s3.(params) (context_dict c1) = Ok v3 ->
      let run := snd (execute_workflow findall eng wf_name event data) in
      run.(status) = "completed"
      /\ exists r1 r2 r3 : WorkflowResult,
          run.(steps_completed) = [r1; r2; r3]
          /\ r1.(step_name) = s1.(name)
          /\ r2.(step_name) = s2.(name) /\ r2.(success) = false
          /\ r2.(error) = Some (PyVal.str_exn e) /\ r2.(result) = VNone
          /\ r3.(step_name) = s3.(name) /\ r3.(success) = true
          /\ r3.(error) = None /\ r3.(result) = v3)
  /\ (forall (findall : string -> bool -> string -> list string)
             (tool_id : string) (arguments context : dict),
         unknown_namespace tool_id = true ->
         exists e : exn, execute_tool findall tool_id arguments context = Raise e)
  /\ (forall (findall : string -> bool -> string -> list string)
             (eng : WorkflowEngine) (wf_name event : string) (data : dict)
             (def : WorkflowDef),
         PyDict.lookup eng.(workflows) wf_name = Some def ->
         (forall (step : Step) (context : Context) (e : exn),
             In step def.(steps) -> passes_gate step context <> Raise e) ->
         status (snd (execute_workflow findall eng wf_name event data)) = "completed").
Proof.
  split; [|split].
  - intros findall eng wf_name event data def s1 s2 s3 e v3 L Hsteps c0 c1 G1 G2 T2 G3 T3 run.
    destruct (execute_workflow_known findall eng wf_name event data def L) as [E S].
    fold run in E, S. rewrite Hsteps in E, S.
    set (st0 := initial_run eng wf_name event data) in *.
    assert (C0 : run_context st0 = c0) by reflexivity.
    rewrite run_steps_cons in E, S. rewrite C0, G1 in E, S.
    set (st1 := attempt findall s1 st0) in *.
    assert (C1 : run_context st1 = c1).
    { unfold st1, attempt, c1. rewrite C0.
      destruct (execute_tool findall (tool s1) (params s1) (context_dict c0)); reflexivity. }
    rewrite run_steps_cons in E, S. rewrite C1, G2 in E, S.
    set (st2 := attempt findall s2 st1) in *.
    assert (C2 : run_context st2 = c1).
    { unfold st2, attempt. rewrite C1, T2. reflexivity. }
    rewrite run_steps_cons in E, S. rewrite C2, G3 in E, S.
    cbn [run_steps fst snd] in E, S.
    split; [exact S|].
    assert (exists r1, run_steps_completed st1 = [r1] /\ step_name r1 = name s1)
      as (r1 & E1 & N1).
    { unfold st1, attempt. destruct (execute_tool findall _ _ _); eexists; split; reflexivity. }
    rewrite E. unfold attempt at 1. rewrite C2, T3. cbn [run_steps_completed].
    unfold st2, attempt. rewrite C1, T2. cbn [run_steps_completed]. rewrite E1.
    cbn [List.app]. do 3 eexists. split; [reflexivity|]. cbn. repeat split; auto.
  - intros findall tool_id arguments context H.
    rewrite (execute_tool_unknown_namespace findall tool_id arguments context H).
    destruct (resolve_parameters arguments context); eexists; reflexivity.
  - intros findall eng wf_name event data def L Hgates.
    destruct (execute_workflow_known findall eng wf_name event data def L) as [_ S].
    rewrite S.
    destruct (snd (run_steps findall (steps def) (initial_run eng wf_name event data)))
      as [e|] eqn:Esc; [|reflexivity].
    apply run_steps_escape in Esc. destruct Esc as (step & context & Hin & G).
    exfalso. exact (Hgates step context e Hin G).
Qed.

Lemma step_failure_does_not_fail_the_run_witness :
  let run := snd (execute_workflow findall_nothing
                    (example_engine [("faulty", faulty_workflow)])
                    "faulty" "mail" [("content", VStr "hello")]) in
  run.(status) = "completed"
  /\ exists r1 r2 r3 : WorkflowResult,
      run.(steps_completed) = [r1; r2; r3]
      /\ r1.(step_name) = "summary"
      /\ r2.(step_name) = "notify" /\ r2.(success) = false
      /\ r2.(error) = Some "Unknown tool: email_send" /\ r2.(result) = VNone
      /\ r3.(step_name) = "log" /\ r3.(success) = true
      /\ r3.(error) = None
      /\ r3.(result) = VDict [("logged", VBool true);
                              ("message", VStr "Workflow completion logged")].
Proof.
  exact (proj1 step_failure_does_not_fail_the_run findall_nothing
           (example_engine [("faulty", faulty_workflow)]) "faulty" "mail"
           [("content", VStr "hello")] faulty_workflow _ _ _
           (ValueError "Unknown tool: email_send") _
           eq_refl eq_refl eq_refl eq_refl eq_refl eq_refl eq_refl).
Defined.

(** ** Execution ids *)

Module IdFacts.

Import IdSpec.

Lemma all_from_spec (f : N -> bool) (count : nat) :
  forall lo : N,
    all_from f lo count = true ->
    forall n : N, (lo <= n < lo + N.of_nat count)%N -> f n = true.
Proof.
  induction count as [|count IH]; intros lo H n Hn; [lia|].
  cbn [all_from] in H. apply andb_true_iff in H. destruct H as [H0 H].
  destruct (N.eq_dec n lo) as [->|Hne]; [exact H0|].
  apply (IH _ H). lia.
Qed.

Lemma two_digits_below_100 : all_from two_digits 0 (N.to_nat 100) = true.
Proof. vm_compute. reflexivity. Qed.

Lemma four_digits_years : all_from four_digits 1000 (N.to_nat 9000) = true.
Proof. vm_compute. reflexivity. Qed.

Lemma pad2_spec (n : N) :
  (n < 100)%N -> String.length (PyStr.pad 2 n) = 2 /\ number (PyStr.pad 2 n) = n.
Proof.
  intros H.
  assert (T : two_digits n = true).
  { apply (all_from_spec _ _ _ two_digits_below_100). rewrite N2Nat.id. lia. }
  unfold two_digits in T. apply andb_true_iff in T. destruct T as [T1 T2].
  apply Nat.eqb_eq in T1. apply N.eqb_eq in T2. split; assumption.
Qed.

Lemma year_spec (n : N) :
  (1000 <= n <= 9999)%N ->
  String.length (PyStr.of_N n) = 4 /\ number (PyStr.of_N n) = n.
Proof.
  intros H.
  assert (T : four_digits n = true).
  { apply (all_from_spec _ _ _ four_digits_years). rewrite N2Nat.id. lia. }
  unfold four_digits in T. apply andb_true_iff in T. destruct T as [T1 T2].
  apply Nat.eqb_eq in T1. apply N.eqb_eq in T2. split; assumption.
Qed.

End IdFacts.

Lemma strftime_compact_length (dt : datetime) :
  well_formed dt -> String.length (strftime_compact dt) = 15.
Proof.
  intros (Hy & Hm & Hd & Hh & Hmi & Hs). unfold strftime_compact.
  rewrite !PyStrFacts.length_append.
  destruct (IdFacts.year_spec (year dt) Hy) as [-> _].
  destruct (IdFacts.pad2_spec (month dt)) as [-> _]; [lia|].
  destruct (IdFacts.pad2_spec (day dt)) as [-> _]; [lia|].
  destruct (IdFacts.pad2_spec (hour dt)) as [-> _]; [lia|].
  destruct (IdFacts.pad2_spec (minute dt)) as [-> _]; [lia|].
  destruct (IdFacts.pad2_spec (second dt)) as [-> _]; [lia|].
  reflexivity.
Qed.

Lemma strftime_compact_same_second (a b : datetime) :
  same_second a b -> strftime_compact a = strftime_compact b.
Proof.
  intros (Hy & Hm & Hd & Hh & Hmi & Hs). unfold strftime_compact.
  rewrite Hy, Hm, Hd, Hh, Hmi, Hs. reflexivity.
Qed.

Lemma strftime_compact_inj (a b : datetime) :
  well_formed a -> well_formed b ->
  strftime_compact a = strftime_compact b -> same_second a b.
Proof.
  intros (Hy & Hm & Hd & Hh & Hmi & Hs) (Hy' & Hm' & Hd' & Hh' & Hmi' & Hs') E.
  unfold strftime_compact in E.
  pose proof (IdFacts.year_spec _ Hy) as [Ly Ny].
  pose proof (IdFacts.year_spec _ Hy') as [Ly' Ny'].
  assert (P2 : forall n, (n < 60)%N -> String.length (PyStr.pad 2 n) = 2
                                   /\ IdSpec.number (PyStr.pad 2 n) = n)
    by (intros n H; apply IdFacts.pad2_spec; lia).
  apply PyStrFacts.append_inj_prefix in E; [|congruence]. destruct E as [Ey E].
  apply PyStrFacts.append_inj_prefix in E;
    [|rewrite (proj1 (P2 (month a) ltac:(lia))), (proj1 (P2 (month b) ltac:(lia))); reflexivity].
  destruct E as [Em E].
  apply PyStrFacts.append_inj_prefix in E;
    [|rewrite (proj1 (P2 (day a) ltac:(lia))), (proj1 (P2 (day b) ltac:(lia))); reflexivity].
  destruct E as [Ed E].
  cbn [append] in E. injection E as E.
  apply PyStrFacts.append_inj_prefix in E;
    [|rewrite (proj1 (P2 (hour a) ltac:(lia))), (proj1 (P2 (hour b) ltac:(lia))); reflexivity].
  destruct E as [Eh E].
  apply PyStrFacts.append_inj_prefix in E;
    [|rewrite (proj1 (P2 (minute a) ltac:(lia))), (proj1 (P2 (minute b) ltac:(lia))); reflexivity].
  destruct E as [Emi Es].
  unfold same_second. repeat split.
  - rewrite <- Ny, <- Ny', Ey. reflexivity.
  - rewrite <- (proj2 (P2 (month a) ltac:(lia))), <- (proj2 (P2 (month b) ltac:(lia))), Em.
    reflexivity.
  - rewrite <- (proj2 (P2 (day a) ltac:(lia))), <- (proj2 (P2 (day b) ltac:(lia))), Ed.
    reflexivity.
  - rewrite <- (proj2 (P2 (hour a) ltac:(lia))), <- (proj2 (P2 (hour b) ltac:(lia))), Eh.
    reflexivity.
  - rewrite <- (proj2 (P2 (minute a) ltac:(lia))), <- (proj2 (P2 (minute b) ltac:(lia))), Emi.
    reflexivity.
  - rewrite <- (proj2 (P2 (second a) ltac:(lia))), <- (proj2 (P2 (second b) ltac:(lia))), Es.
    reflexivity.
Qed.

(** C9, counterexample.  Two runs of the same workflow started within one
    second are distinct runs (their start times differ) with the same
    execution id; the second replaces the first in the table in memory and
    in the database. *)
Lemma two_runs_in_one_second_share_their_id :
  let eng0 := {| workflows := [("triage", triage_workflow)]; executions := [];
                 database := []; clock := busy_clock; ticks := 0; stdout := [] |} in
  let first := execute_workflow findall_nothing eng0 "triage" "mail"
                                [("content", VStr "first")] in
  let second := execute_workflow findall_nothing (fst first) "triage" "mail"
                                 [("content", VStr "second")] in
  (snd first).(started_at) <> (snd second).(started_at)
  /\ (snd first).(execution_id) = (snd second).(execution_id)
  /\ map fst (fst second).(executions) = ["triage_20261104_120000"]
  /\ map row_execution_id (fst second).(database) = ["triage_20261104_120000"].
Proof. vm_compute. repeat split. discriminate. Qed.

(** C9, as amended.  The execution id of a run is the workflow name, an
    underscore and the clock reading at the start of the run, printed to
    the second.  So the ids of two runs are equal exactly when the runs
    are of the same workflow and start within the same second. *)
Theorem execution_id_is_name_and_second
        (findall : string -> bool -> string -> list string)
        (eng eng' : WorkflowEngine) (wf_name wf_name' event event' : string)
        (data data' : dict) :
  well_formed (eng.(clock) eng.(ticks)) ->
  well_formed (eng'.(clock) eng'.(ticks)) ->
  execution_id (snd (execute_workflow findall eng wf_name event data))
  = wf_name ++ "_" ++ strftime_compact (eng.(clock) eng.(ticks))
  /\ (execution_id (snd (execute_workflow findall eng wf_name event data))
      = execution_id (snd (execute_workflow findall eng' wf_name' event' data'))
      <-> wf_name = wf_name'
          /\ same_second (eng.(clock) eng.(ticks)) (eng'.(clock) eng'.(ticks))).
Proof.
  intros W W'. rewrite !execute_workflow_id. split; [reflexivity|]. split.
  - intros E. apply PyStrFacts.append_inj_suffix in E.
    + destruct E as [-> E]. split; [reflexivity|].
      cbn [append] in E. injection E as E.
      apply strftime_compact_inj; assumption.
    + cbn [append String.length]. rewrite !strftime_compact_length; auto.
  - intros [-> S]. rewrite (strftime_compact_same_second _ _ S). reflexivity.
Qed.

Lemma execution_id_is_name_and_second_witness :
  let eng := example_engine [("triage", triage_workflow)] in
  let later := fst (execute_workflow findall_nothing eng "triage" "mail" []) in
  execution_id (snd (execute_workflow findall_nothing eng "triage" "mail" []))
  = "triage_20261104_120000"
  /\ (execution_id (snd (execute_workflow findall_nothing eng "triage" "mail" []))
      = execution_id (snd (execute_workflow findall_nothing later "triage" "mail" []))
      <-> "triage" = "triage"
          /\ same_second (eng.(clock) eng.(ticks)) (later.(clock) later.(ticks))).
Proof.
  apply (execution_id_is_name_and_second findall_nothing
           (example_engine [("triage", triage_workflow)])
           (fst (execute_workflow findall_nothing
                   (example_engine [("triage", triage_workflow)]) "triage" "mail" []))
           "triage" "triage" "mail" "mail" [] []);
    vm_compute; repeat split; discriminate.
Defined.

(** ** Unknown workflow *)

(** C4, counterexample.  For a name that is not in the definition store
    the caller gets the summary of a run, with [success] true and no
    message: no [error] entry, and nothing that tells why the run failed. *)
Lemma unknown_workflow_summary_has_no_message :
  let summary := snd (trigger_workflow_result findall_nothing (example_engine [])
                        "missing" "mail" [("content", VStr "hello")]) in
  summary = VDict [("success", VBool true);
                   ("execution_id", VStr "missing_20261104_120000");
                   ("status", VStr "failed");
                   ("steps_completed", VInt 0);
                   ("workflow_name", VStr "missing")]
  /\ match summary with
     | VDict d => PyDict.lookup d "error" = None /\ PyDict.lookup d "message" = None
     | _ => False
     end.
Proof. vm_compute. repeat split. Qed.

(** C4, as amended.  A run of a workflow name that is not in the
    definition store fails at once: no step is attempted, the list of step
    results is empty and the status is [failed].  The caller of
    [trigger_workflow] gets the summary of that run: its status [failed]
    and its count of steps 0, under the [success] flag that every summary
    carries; the reason, the missing name, is printed and is not part of
    the summary. *)
Theorem unknown_workflow_fails_without_steps
        (findall : string -> bool -> string -> list string)
        (eng : WorkflowEngine) (wf_name event : string) (data : dict) :
  PyDict.lookup eng.(workflows) wf_name = None ->
  let run := snd (execute_workflow findall eng wf_name event data) in
  let answer := trigger_workflow_result findall eng wf_name event data in
  run.(status) = "failed"
  /\ run.(steps_completed) = []
  /\ snd answer = VDict [("success", VBool true);
                         ("execution_id", VStr run.(execution_id));
                         ("status", VStr "failed");
                         ("steps_completed", VInt 0);
                         ("workflow_name", VStr wf_name)]
  /\ (fst answer).(stdout)
     = (eng.(stdout) ++ [("Workflow execution failed: " ++ PyVal.repr_str wf_name)%string])%list
  /\ snd (trigger_workflow findall eng wf_name event data)
     = Json.dumps_indent 0 (snd answer).
Proof.
  intros H run answer.
  destruct (execute_workflow_unknown findall eng wf_name event data H) as [S E].
  assert (O : stdout (fst (execute_workflow findall eng wf_name event data))
              = (eng.(stdout)
                 ++ [("Workflow execution failed: " ++ PyVal.repr_str wf_name)%string])%list).
  { unfold execute_workflow. cbn [now fst snd with_executions workflows].
    rewrite H. reflexivity. }
  subst run answer. unfold trigger_workflow, trigger_workflow_result.
  destruct (execute_workflow findall eng wf_name event data) as [eng' run'].
  cbn [fst snd] in *. rewrite S, E. cbn [List.length Z.of_nat].
  repeat split; assumption || reflexivity.
Qed.

Lemma unknown_workflow_fails_without_steps_witness :
  let eng := example_engine [("triage", triage_workflow)] in
  let run := snd (execute_workflow findall_nothing eng "missing" "mail" []) in
  let answer := trigger_workflow_result findall_nothing eng "missing" "mail" [] in
  run.(status) = "failed"
  /\ run.(steps_completed) = []
  /\ snd answer = VDict [("success", VBool true);
                         ("execution_id", VStr run.(execution_id));
                         ("status", VStr "failed");
                         ("steps_completed", VInt 0);
                         ("workflow_name", VStr "missing")]
  /\ (fst answer).(stdout)
     = (eng.(stdout) ++ [("Workflow execution failed: " ++ PyVal.repr_str "missing")%string])%list
  /\ snd (trigger_workflow findall_nothing eng "missing" "mail" [])
     = Json.dumps_indent 0 (snd answer).
Proof.
  exact (unknown_workflow_fails_without_steps findall_nothing
           (example_engine [("triage", triage_workflow)]) "missing" "mail" [] eq_refl).
Defined.

(** ** JSON round trip *)

Module JsonFacts.

Import Json JsonSpec.

(** *** Strings *)

Lemma scan_escape_char (c : ascii) (t acc : string) :
  scan_string (escape_char c ++ t) acc = scan_string t (String c acc).
Proof.
  destruct c as [[] [] [] [] [] [] [] []]; reflexivity.
Qed.

Lemma scan_escape (s rest acc : string) :
  scan_string (escape s ++ String PyStr.dquote rest) acc
  = Ok (PyStr.rev (PyStr.rev_onto s acc), rest).
Proof.
  revert acc. induction s as [|c s IH]; intros acc.
  - reflexivity.
  - cbn [escape]. rewrite PyStrFacts.append_assoc, scan_escape_char, IH. reflexivity.
Qed.

(** A string literal reads back as the string. *)
Lemma scan_dumps_str (s rest : string) :
  exists body,
    dumps_str s ++ rest = String PyStr.dquote body
    /\ scan_string body EmptyString = Ok (s, rest).
Proof.
  exists (escape s ++ String PyStr.dquote rest). split.
  - unfold dumps_str. cbn [append]. rewrite PyStrFacts.append_assoc. reflexivity.
  - rewrite scan_escape. unfold PyStr.rev.
    rewrite PyStrFacts.rev_onto_rev_onto. cbn [PyStr.rev_onto]. rewrite PyStrFacts.append_nil_r. reflexivity.
Qed.

(** *** Numbers *)

Lemma string_of_uint_digits (d : uint) (rest : string) :
  starts_with_digit rest = false ->
  span_digits (NilEmpty.string_of_uint d ++ rest) = (NilEmpty.string_of_uint d, rest).
Proof.
  intros H. induction d; cbn [NilEmpty.string_of_uint append span_digits];
    try (change (isdigit _) with true; cbv iota; rewrite IHd; reflexivity).
  destruct rest as [|c r]; [reflexivity|].
  cbn [span_digits]. cbn in H. rewrite H. reflexivity.
Qed.

(** The decimal text of a positive number starts with a digit other than
    zero. *)
Lemma pos_head (p : positive) :
  exists c t, PyStr.of_N (Npos p) = String c t
              /\ isdigit c = true /\ c <> "0"%char.
Proof.
  unfold PyStr.of_N. cbn [N.to_uint].
  pose proof (DecimalPos.Unsigned.to_uint_nonzero p) as NZ.
  pose proof (DecimalN.Unsigned.to_of (Pos.to_uint p)) as TO.
  change (Pos.to_uint p) with (N.to_uint (Npos p)) in TO at 1.
  rewrite DecimalN.Unsigned.of_to in TO. cbn [N.to_uint] in TO.
  destruct (Pos.to_uint p) as [|d|d|d|d|d|d|d|d|d|d] eqn:E;
    try (cbn; do 2 eexists; repeat split; discriminate).
  exfalso. rewrite unorm_D0 in TO.
  destruct (nzhead d) eqn:Hd;
    [ apply NZ; rewrite TO; apply unorm_0; exact Hd
    | apply (nzhead_nonzero d d); rewrite <- unorm_nzhead by congruence;
      symmetry; exact TO .. ].
Qed.

Lemma N_of_digits_of_N (n : N) : N_of_digits (PyStr.of_N n) = n.
Proof.
  unfold N_of_digits, PyStr.of_N.
  destruct (NilZero.usu_gen (N.to_uint n)) as [-> | H].
  - apply DecimalN.Unsigned.of_to.
  - destruct n as [|p]; [reflexivity|].
    destruct (N.to_uint (Npos p)) eqn:E; cbn in H; try discriminate;
      try (rewrite NilEmpty.usu in H; discriminate).
    + exfalso. apply (DecimalPos.Unsigned.to_uint_nonnil p). exact E.
    + exfalso. destruct (pos_head p) as (c & t & Hc & _ & Hz).
      unfold PyStr.of_N in Hc. rewrite E in Hc. cbn in Hc.
      injection Hc as <- _. apply Hz. reflexivity.
Qed.

(** A run of digits that a number was printed as is read whole. *)
Lemma span_digits_of_N (n : N) (rest : string) :
  starts_with_digit rest = false ->
  span_digits (PyStr.of_N n ++ rest) = (PyStr.of_N n, rest).
Proof.
  intros H. unfold PyStr.of_N, NilZero.string_of_uint.
  destruct (N.to_uint n) eqn:U; try (apply string_of_uint_digits; exact H).
  destruct rest as [|c r]; [reflexivity|].
  cbn in H. cbn. rewrite H. reflexivity.
Qed.

(** The digits of a number other than zero, after the sign if there is
    one, read back as the number. *)
Lemma scan_number_digits (p : positive) (sign rest : string) (negative : bool) :
  closes_number rest ->
  head_is "-" (sign ++ PyStr.of_N (Npos p) ++ rest) = negative ->
  (if negative then PyStr.drop 1 (sign ++ PyStr.of_N (Npos p) ++ rest)
   else sign ++ PyStr.of_N (Npos p) ++ rest) = PyStr.of_N (Npos p) ++ rest ->
  scan_number (sign ++ PyStr.of_N (Npos p) ++ rest)
  = Ok (VInt (if negative then Z.opp (Z.pos p) else Z.pos p), rest).
Proof.
  intros [Hd Hf] Hsign Hbody. unfold scan_number. rewrite Hsign, Hbody. cbv zeta.
  destruct (pos_head p) as (c & t & E & D & NZ).
  assert (H0 : head_is "0" (PyStr.of_N (Npos p) ++ rest) = false).
  { rewrite E. cbn [append head_is]. apply Ascii.eqb_neq. exact NZ. }
  assert (H1 : starts_with_digit (PyStr.of_N (Npos p) ++ rest) = true).
  { rewrite E. cbn [append starts_with_digit]. exact D. }
  rewrite H0, H1, (span_digits_of_N _ _ Hd), Hf, N_of_digits_of_N. reflexivity.
Qed.

(** The text of an integer reads back as the integer. *)
Lemma scan_number_of_Z (z : Z) (rest : string) :
  closes_number rest ->
  scan_number (PyStr.of_Z z ++ rest) = Ok (VInt z, rest).
Proof.
  intros C. destruct z as [|p|p].
  - destruct C as [_ Hf]. unfold scan_number. cbn. rewrite Hf. reflexivity.
  - destruct (pos_head p) as (c & t & E & D & NZ).
    apply (scan_number_digits p "" rest false C).
    + unfold PyStr.of_Z. cbn [Z.to_N append]. rewrite E. cbn [append head_is].
      apply Ascii.eqb_neq. intros ->. discriminate D.
    + reflexivity.
  - apply (scan_number_digits p "-" rest true C); reflexivity.
Qed.

(** *** The first character of the text of a value *)

Lemma dumps_head (v : value) (rest : string) :
  exists c t, dumps v ++ rest = String c t /\ value_head c = true.
Proof.
  destruct v as [|[|]|z|s|[|x l]|[|[k x] d]];
    try (cbn; do 2 eexists; split; reflexivity).
  destruct z as [|p|p].
  - cbn. do 2 eexists; split; reflexivity.
  - destruct (pos_head p) as (c & t & E & D & _).
    cbn [dumps]. unfold PyStr.of_Z. cbn [Z.to_N]. rewrite E. cbn [append].
    do 2 eexists. split; [reflexivity|]. unfold value_head. rewrite D. reflexivity.
  - cbn. do 2 eexists; split; reflexivity.
Qed.

Lemma value_head_facts (c : ascii) :
  value_head c = true ->
  is_ws c = false
  /\ Ascii.eqb c "]" = false /\ Ascii.eqb c "}" = false
  /\ Ascii.eqb c "," = false /\ Ascii.eqb c ":" = false.
Proof.
  destruct c as [[] [] [] [] [] [] [] []]; cbn; intros H;
    try discriminate H; repeat split.
Qed.

Lemma skip_ws_head (c : ascii) (t : string) :
  is_ws c = false -> skip_ws (String c t) = String c t.
Proof. intros H. cbn. rewrite H. reflexivity. Qed.

(** White space before a value is all that [skip_ws] removes. *)
Lemma skip_ws_dumps (v : value) (rest : string) :
  skip_ws (dumps v ++ rest) = dumps v ++ rest.
Proof.
  destruct (dumps_head v rest) as (c & t & -> & H).
  apply skip_ws_head, value_head_facts, H.
Qed.

Lemma head_is_dumps (v : value) (rest : string) (c : ascii) :
  value_head c = false -> head_is c (dumps v ++ rest) = false.
Proof.
  intros Hc. destruct (dumps_head v rest) as (x & t & -> & H).
  cbn [head_is]. apply Ascii.eqb_neq. intros ->. congruence.
Qed.

(** *** Values *)

Lemma closes_number_comma (s : string) : closes_number (String "," s).
Proof. split; reflexivity. Qed.

Lemma closes_number_bracket (s : string) : closes_number (String "]" s).
Proof. split; reflexivity. Qed.

Lemma closes_number_brace (s : string) : closes_number (String "}" s).
Proof. split; reflexivity. Qed.

Lemma closes_number_items (l : list value) (rest : string) :
  closes_number (items_tail dumps ", " "]" l ++ rest).
Proof. destruct l; [apply closes_number_bracket | apply closes_number_comma]. Qed.

Lemma closes_number_members (d : list (string * value)) (rest : string) :
  closes_number (members_tail dumps ", " "}" d ++ rest).
Proof.
  destruct d as [|[k x] d]; [apply closes_number_brace | apply closes_number_comma].
Qed.

(** One turn of the loops of [parse_elems] and [parse_members] *)
Lemma parse_elems_more (fuel : nat) (s s' : string) (v : value) (acc : list value) :
  parse_value fuel s = Ok (v, ", " ++ s') ->
  parse_elems (S fuel) s acc = parse_elems fuel (skip_ws s') (acc ++ [v])%list.
Proof. intros H. cbn [parse_elems]. rewrite H. reflexivity. Qed.

Lemma parse_elems_last (fuel : nat) (s rest : string) (v : value) (acc : list value) :
  parse_value fuel s = Ok (v, "]" ++ rest) ->
  parse_elems (S fuel) s acc = Ok (VList (acc ++ [v])%list, rest).
Proof. intros H. cbn [parse_elems]. rewrite H. reflexivity. Qed.

Lemma parse_members_more (fuel : nat) (body s1 s2 key : string) (v : value) (acc : dict) :
  scan_string body EmptyString = Ok (key, ": " ++ s1) ->
  parse_value fuel (skip_ws s1) = Ok (v, ", " ++ s2) ->
  parse_members (S fuel) (String PyStr.dquote body) acc
  = parse_members fuel (skip_ws s2) (PyDict.set acc key v).
Proof.
  intros H1 H2. cbn [parse_members head_is PyStr.drop].
  change (Ascii.eqb PyStr.dquote PyStr.dquote) with true. cbv iota.
  rewrite H1. cbn [bind]. cbv zeta.
  change (skip_ws (": " ++ s1)) with (String ":" (String " " s1)).
  cbn [head_is PyStr.drop]. change (Ascii.eqb ":" ":") with true. cbv iota.
  change (skip_ws (String " " s1)) with (skip_ws s1).
  rewrite H2. reflexivity.
Qed.

Lemma parse_members_last (fuel : nat) (body s1 rest key : string) (v : value) (acc : dict) :
  scan_string body EmptyString = Ok (key, ": " ++ s1) ->
  parse_value fuel (skip_ws s1) = Ok (v, "}" ++ rest) ->
  parse_members (S fuel) (String PyStr.dquote body) acc
  = Ok (VDict (PyDict.set acc key v), rest).
Proof.
  intros H1 H2. cbn [parse_members head_is PyStr.drop].
  change (Ascii.eqb PyStr.dquote PyStr.dquote) with true. cbv iota.
  rewrite H1. cbn [bind]. cbv zeta.
  change (skip_ws (": " ++ s1)) with (String ":" (String " " s1)).
  cbn [head_is PyStr.drop]. change (Ascii.eqb ":" ":") with true. cbv iota.
  change (skip_ws (String " " s1)) with (skip_ws s1).
  rewrite H2. reflexivity.
Qed.

(** The items of a list read back, given that each of them does. *)
Lemma parse_elems_dumps (l : list value) :
  Forall reads_back l ->
  forall (x : value) (fuel : nat) (rest : string) (acc : list value),
    reads_back x ->
    list_sum (map (fun y => S (weight y)) (x :: l)) <= fuel ->
    parse_elems fuel (dumps x ++ items_tail dumps ", " "]" l ++ rest) acc
    = Ok (VList (acc ++ map normalize (x :: l))%list, rest).
Proof.
  induction 1 as [|y l Hy Hl IH]; intros x fuel rest acc Hx Hf;
    cbn [map list_sum fold_right] in Hf; (destruct fuel as [|fuel]; [lia|]).
  - apply parse_elems_last. apply Hx; [lia | apply closes_number_bracket].
  - cbn [items_tail]. rewrite !PyStrFacts.append_assoc.
    erewrite parse_elems_more;
      [|apply Hx; [lia | apply closes_number_comma]].
    rewrite skip_ws_dumps.
    rewrite IH; [|exact Hy|cbn [map list_sum fold_right]; lia].
    rewrite <- List.app_assoc. reflexivity.
Qed.

(** The members of an object read back, given that each value does. *)
Lemma parse_members_dumps (d : list (string * value)) :
  Forall (fun p => reads_back (snd p)) d ->
  forall (k : string) (x : value) (fuel : nat) (rest : string) (acc : dict),
    reads_back x ->
    list_sum (map (fun '(_, y) => S (weight y)) ((k, x) :: d)) <= fuel ->
    parse_members fuel
      (dumps_str k ++ ": " ++ dumps x ++ members_tail dumps ", " "}" d ++ rest) acc
    = Ok (VDict (set_all normalize ((k, x) :: d) acc), rest).
Proof.
  induction 1 as [|[k' y] d Hy Hd IH]; intros k x fuel rest acc Hx Hf;
    cbn [map list_sum fold_right] in Hf; (destruct fuel as [|fuel]; [lia|]).
  - destruct (scan_dumps_str k
                (": " ++ dumps x ++ members_tail dumps ", " "}" [] ++ rest))
      as (body & -> & Hscan).
    eapply parse_members_last; [exact Hscan|].
    rewrite skip_ws_dumps. apply Hx; [lia | apply closes_number_brace].
  - destruct (scan_dumps_str k
                (": " ++ dumps x ++ members_tail dumps ", " "}" ((k', y) :: d) ++ rest))
      as (body' & -> & Hscan').
    cbn [members_tail] in Hscan'. rewrite !PyStrFacts.append_assoc in Hscan'.
    erewrite parse_members_more;
      [|exact Hscan'
       |rewrite skip_ws_dumps; apply Hx; [lia | apply closes_number_comma]].
    assert (W : forall t, skip_ws (dumps_str k' ++ t) = dumps_str k' ++ t)
      by (intros t; reflexivity).
    rewrite W. cbn [snd] in Hy.
    rewrite IH; [|exact Hy|cbn [map list_sum fold_right]; lia].
    reflexivity.
Qed.

(** On a text that starts as a number, [parse_value] is [scan_number]. *)
Lemma parse_value_number (fuel : nat) (s : string) :
  number_head s = true -> parse_value (S fuel) s = scan_number s.
Proof.
  destruct s as [|c r]; [discriminate|].
  destruct c as [[] [] [] [] [] [] [] []]; cbn [number_head]; intros H;
    try discriminate H; try reflexivity.
  destruct r as [|d r]; [discriminate H|].
  destruct d as [[] [] [] [] [] [] [] []]; try discriminate H; reflexivity.
Qed.

Lemma number_head_of_Z (z : Z) (rest : string) :
  number_head (PyStr.of_Z z ++ rest) = true.
Proof.
  destruct z as [|p|p].
  - reflexivity.
  - destruct (pos_head p) as (c & t & E & D & _).
    unfold PyStr.of_Z. cbn [Z.to_N]. rewrite E. cbn [append number_head].
    rewrite D. reflexivity.
  - destruct (pos_head p) as (c & t & E & D & _).
    unfold PyStr.of_Z. rewrite E. cbn [append number_head starts_with_digit].
    rewrite D. reflexivity.
Qed.

(** The text of every value reads back as the value, a key written twice
    in a dictionary apart. *)
Theorem parse_dumps (v : value) : reads_back v.
Proof.
  induction v as [|b|z|s|l IH|d IH] using value_induction;
    intros fuel rest Hf C; (destruct fuel as [|fuel]; [cbn in Hf; lia|]).
  - cbn [dumps parse_value append head_is]. cbn [Ascii.eqb Bool.eqb].
    change (String "n" (String "u" (String "l" (String "l" rest))))
      with ("null" ++ rest).
    rewrite PyStrFacts.prefix_append. reflexivity.
  - destruct b; cbn [dumps parse_value append head_is]; cbn [Ascii.eqb Bool.eqb].
    + change (String "t" (String "r" (String "u" (String "e" rest))))
        with ("true" ++ rest).
      rewrite PyStrFacts.prefix_append.
      replace (String.prefix "null" ("true" ++ rest)) with false by reflexivity.
      reflexivity.
    + change (String "f" (String "a" (String "l" (String "s" (String "e" rest)))))
        with ("false" ++ rest).
      rewrite PyStrFacts.prefix_append.
      replace (String.prefix "null" ("false" ++ rest)) with false by reflexivity.
      replace (String.prefix "true" ("false" ++ rest)) with false by reflexivity.
      reflexivity.
  - cbn [dumps normalize]. rewrite parse_value_number by apply number_head_of_Z.
    apply scan_number_of_Z, C.
  - cbn [dumps normalize]. destruct (scan_dumps_str s rest) as (body & -> & H).
    cbn [parse_value head_is PyStr.drop].
    change (Ascii.eqb PyStr.dquote PyStr.dquote) with true. cbv iota.
    rewrite H. reflexivity.
  - destruct l as [|x l]; [reflexivity|].
    inversion IH as [|? ? Hx Hl]; subst.
    cbn [dumps]. rewrite !PyStrFacts.append_assoc.
    cbn [append parse_value head_is PyStr.drop].
    change (Ascii.eqb "[" PyStr.dquote) with false.
    change (Ascii.eqb "[" "{") with false.
    change (Ascii.eqb "[" "[") with true. cbv iota zeta.
    rewrite skip_ws_dumps, head_is_dumps by reflexivity.
    cbn [weight] in Hf.
    rewrite parse_elems_dumps; [reflexivity | exact Hl | exact Hx | lia].
  - destruct d as [|[k x] d]; [reflexivity|].
    inversion IH as [|? ? Hx Hd]; subst. cbn [snd] in Hx.
    assert (X : forall t, parse_value (S fuel) ("{" ++ dumps_str k ++ t)
                          = parse_members fuel (dumps_str k ++ t) [])
      by (intros t; reflexivity).
    cbn [dumps]. rewrite !PyStrFacts.append_assoc. rewrite X.
    cbn [weight] in Hf.
    rewrite parse_members_dumps; [reflexivity | exact Hd | exact Hx | lia].
Qed.

Lemma weight_le_length (v : value) : weight v <= String.length (dumps v).
Proof.
  induction v as [|b|z|s|l IH|d IH] using value_induction.
  - cbn. lia.
  - destruct b; cbn; lia.
  - cbn [weight dumps]. destruct (dumps_head (VInt z) "") as (c & t & E & _).
    cbn [dumps] in E. rewrite PyStrFacts.append_nil_r in E. rewrite E. cbn. lia.
  - cbn. lia.
  - destruct l as [|x l]; [cbn; lia|].
    inversion IH as [|? ? Hx Hl]; subst.
    cbn [weight dumps map list_sum fold_right String.length append].
    rewrite PyStrFacts.length_append.
    assert (T : list_sum (map (fun x => S (weight x)) l)
                < String.length (items_tail dumps ", " "]" l)).
    { clear Hx IH. induction Hl as [|y l Hy _ IHl]; [cbn; lia|].
      cbn [map list_sum fold_right items_tail append String.length].
      rewrite PyStrFacts.length_append. unfold list_sum in *. lia. }
    unfold list_sum in *. lia.
  - destruct d as [|[k x] d]; [cbn; lia|].
    inversion IH as [|? ? Hx Hd]; subst. cbn [snd] in Hx.
    cbn [weight dumps map list_sum fold_right String.length append].
    repeat (rewrite PyStrFacts.length_append; cbn [String.length append]).
    assert (T : list_sum (map (fun '(_, y) => S (weight y)) d)
                < String.length (members_tail dumps ", " "}" d)).
    { clear Hx IH. induction Hd as [|[k' y] d Hy _ IHd]; [cbn; lia|].
      cbn [snd] in Hy.
      cbn [map list_sum fold_right members_tail append String.length].
      repeat (rewrite PyStrFacts.length_append; cbn [String.length append]).
      unfold list_sum in *. lia. }
    unfold list_sum in *. lia.
Qed.


End JsonFacts.

(** ** History store *)

Lemma lookup_set_same {V : Type} (d : list (string * V)) (k : string) (v : V) :
  PyDict.lookup (PyDict.set d k v) k = Some v.
Proof.
  induction d as [|[k' x] d IH]; cbn.
  - rewrite String.eqb_refl. reflexivity.
  - destruct (String.eqb k' k) eqn:E; cbn; rewrite E; [reflexivity | exact IH].
Qed.







(* ================================================================== *)
(** * Further properties *)
(* ================================================================== *)

(** ** Patterns of plain characters *)

Module PlainFacts.

Import Re ReSpec ReSpec2.

(** What [read] tests on a character before it takes it as a literal *)
Lemma plain_char_read (c : ascii) :
  plain_char c = true ->
  Ascii.eqb c ")" = false /\ Ascii.eqb c "(" = false /\ Ascii.eqb c "[" = false
  /\ Ascii.eqb c PyStr.backslash = false /\ Ascii.eqb c "." = false
  /\ PyStr.mem_char c "*+?{|^$" = false /\ is_quantifier c = false
  /\ Ascii.eqb c "%" = false.
Proof.
  destruct c as [[] [] [] [] [] [] [] []]; intros H; try discriminate H;
    repeat split.
Qed.

Lemma plain_char_lower (c : ascii) :
  plain_char c = true -> plain_char (PyStr.lower_char c) = true.
Proof.
  destruct c as [[] [] [] [] [] [] [] []]; intros H; try discriminate H;
    reflexivity.
Qed.

Lemma plain_lower (p : string) : plain p = true -> plain (PyStr.lower p) = true.
Proof.
  unfold plain. induction p as [|c p IH]; cbn [all_chars PyStr.lower]; [reflexivity|].
  intros H. apply andb_true_iff in H. destruct H as [Hc Hp].
  rewrite (plain_char_lower c Hc), (IH Hp). reflexivity.
Qed.

(** A pattern without the wildcard is what [replace] leaves it. *)
Lemma replace_plain (p : string) : plain p = true -> PyStr.replace "%" ".*" p = p.
Proof.
  unfold plain. induction p as [|c p IH]; cbn [all_chars PyStr.replace]; [reflexivity|].
  intros H. apply andb_true_iff in H. destruct H as [Hc Hp].
  destruct (plain_char_read c Hc) as (_ & _ & _ & _ & _ & _ & _ & E).
  rewrite E, (IH Hp). reflexivity.
Qed.

Lemma replace_append (c : ascii) (by_ a b : string) :
  PyStr.replace c by_ (a ++ b) = PyStr.replace c by_ a ++ PyStr.replace c by_ b.
Proof.
  induction a as [|x a IH]; cbn [append PyStr.replace]; [reflexivity|].
  destruct (Ascii.eqb x c); rewrite IH; [|reflexivity].
  rewrite PyStrFacts.append_assoc. reflexivity.
Qed.

Lemma lower_append (a b : string) :
  PyStr.lower (a ++ b) = PyStr.lower a ++ PyStr.lower b.
Proof. induction a as [|x a IH]; cbn [append PyStr.lower]; [|rewrite IH]; reflexivity. Qed.

(** No quantifier is read after an atom that a plain character, a dot or
    nothing follows. *)
Lemma quantify_plain (atom : regex) (c : ascii) (s : string) :
  is_quantifier c = false -> quantify atom (String c s) = Some (atom, String c s).
Proof.
  destruct c as [[] [] [] [] [] [] [] []]; intros H; try discriminate H; reflexivity.
Qed.

(** [read] on a run of plain characters followed by [tail], given what it
    makes of [tail] with enough fuel *)
Lemma read_chars_then (p tail rest : string) (r : regex) (g g' n : nat) :
  plain p = true ->
  match tail with String c _ => is_quantifier c = false | EmptyString => True end ->
  (forall fuel, n <= fuel -> read fuel tail g = Some (r, rest, g')) ->
  forall fuel, String.length p + n <= fuel ->
               read fuel (p ++ tail) g = Some (chars_then p r, rest, g').
Proof.
  intros Hp Htail Hread. unfold plain in Hp.
  induction p as [|c p IH]; intros fuel Hfuel.
  - apply Hread. exact Hfuel.
  - cbn [all_chars] in Hp. apply andb_true_iff in Hp. destruct Hp as [Hc Hp].
    destruct (plain_char_read c Hc) as (E1 & E2 & E3 & E4 & E5 & E6 & E7 & _).
    destruct fuel as [|fuel]; [cbn in Hfuel; lia|].
    cbn [String.length] in Hfuel.
    cbn [append read]. rewrite E1, E2, E3, E4, E5, E6.
    assert (Q : quantify (Chr (CChar c)) (p ++ tail)
                = Some (Chr (CChar c), p ++ tail)).
    { destruct p as [|d p].
      - cbn [append]. destruct tail as [|t tail]; [reflexivity|].
        apply quantify_plain, Htail.
      - cbn [append]. apply quantify_plain.
        cbn [all_chars] in Hp. apply andb_true_iff in Hp. destruct Hp as [Hd _].
        apply (plain_char_read d Hd). }
    rewrite Q, (IH Hp fuel) by lia.
    cbn [chars_then]. destruct (chars_then p r); reflexivity.
Qed.

Lemma read_end (g : nat) (fuel : nat) :
  1 <= fuel -> read fuel EmptyString g = Some (Eps, EmptyString, g).
Proof. destruct fuel; [lia | reflexivity]. Qed.

Lemma read_dot_star (g : nat) (fuel : nat) :
  2 <= fuel -> read fuel ".*" g = Some (Star (Chr CDot), EmptyString, g).
Proof. destruct fuel as [|[|fuel]]; try lia. reflexivity. Qed.

(** A pattern of plain characters compiles to the sequence of them. *)
Lemma compile_plain (p : string) :
  plain p = true -> compile p = Ok (chars_then p Eps, 0).
Proof.
  intros Hp. unfold compile.
  pose proof (read_chars_then p EmptyString EmptyString Eps 0 0 1 Hp I
                (read_end 0) (S (String.length p))) as H.
  rewrite PyStrFacts.append_nil_r in H. rewrite H by lia. reflexivity.
Qed.

(** So does one between two wildcards, once they are replaced. *)
Lemma compile_wild_plain (p : string) :
  plain p = true ->
  compile (".*" ++ p ++ ".*")
  = Ok (Cat (Star (Chr CDot)) (chars_then p (Star (Chr CDot))), 0).
Proof.
  intros Hp. unfold compile.
  assert (Inner : forall fuel, String.length p + 2 <= fuel ->
            read fuel (p ++ ".*") 0
            = Some (chars_then p (Star (Chr CDot)), EmptyString, 0)).
  { apply read_chars_then; [exact Hp | reflexivity | apply read_dot_star]. }
  assert (L : String.length (".*" ++ p ++ ".*") = String.length p + 4).
  { cbn [append String.length]. rewrite PyStrFacts.length_append. cbn. lia. }
  rewrite L. replace (S (String.length p + 4)) with (S (S (String.length p + 3))) by lia.
  cbn [append].
  change (read (S (S (String.length p + 3))) (String "." (String "*" (p ++ ".*"))) 0)
    with (match quantify (Chr CDot) (String "*" (p ++ ".*")) with
          | None => None
          | Some (qa, rest') =>
              match read (S (String.length p + 3)) rest' 0 with
              | Some (Eps, rest'', g'') => Some (qa, rest'', g'')
              | Some (r, rest'', g'') => Some (Cat qa r, rest'', g'')
              | None => None
              end
          end).
  assert (Q : quantify (Chr CDot) (String "*" (p ++ ".*"))
              = Some (Star (Chr CDot), p ++ ".*")).
  { destruct p as [|d p]; [reflexivity|].
    cbn [append quantify].
    unfold plain in Hp. cbn [all_chars] in Hp.
    apply andb_true_iff in Hp. destruct Hp as [Hd _].
    destruct (plain_char_read d Hd) as (_ & _ & _ & _ & _ & _ & E & _).
    rewrite E. reflexivity. }
  rewrite Q, Inner by lia.
  destruct p as [|d p]; [reflexivity|].
  cbn [chars_then]. destruct (chars_then p (Star (Chr CDot))); reflexivity.
Qed.

(** *** Matching *)

Lemma run_chars_then_cons (c : ascii) (p : string) (r : regex)
      (s : string) (caps : captures) (k : continuation) :
  run (chars_then (String c p) r) s caps k
  = run (Cat (Chr (CChar c)) (chars_then p r)) s caps k.
Proof.
  cbn [chars_then]. destruct (chars_then p r); reflexivity.
Qed.

(** The sequence of the characters of [p] matches where [p] starts the
    text, and nowhere else. *)
Lemma run_chars_then (p : string) (r : regex) :
  forall (s : string) (caps : captures) (k : continuation),
    run (chars_then p r) s caps k
    = if String.prefix p s then run r (PyStr.drop (String.length p) s) caps k
      else None.
Proof.
  induction p as [|c p IH]; intros s caps k.
  - destruct s; reflexivity.
  - rewrite run_chars_then_cons. cbn [run].
    destruct s as [|x s]; [reflexivity|].
    cbn [in_charset String.prefix String.length PyStr.drop].
    destruct (Ascii.eqb_spec x c) as [->|Hne].
    + destruct (ascii_dec c c) as [_|N]; [apply IH | contradiction].
    + destruct (ascii_dec c x) as [E|_]; [symmetry in E; contradiction | reflexivity].
Qed.

(** [re.search] with a pattern of plain characters: whether the text
    holds them. *)
Lemma search_from_plain (p s : string) :
  match search_from (chars_then p Eps) s with Some _ => true | None => false end
  = PyStr.contains p s.
Proof.
  induction s as [|x s IH].
  - cbn [search_from PyStr.contains]. unfold match_at. rewrite run_chars_then.
    destruct (String.prefix p ""); reflexivity.
  - cbn [search_from PyStr.contains]. unfold match_at. rewrite run_chars_then.
    destruct (String.prefix p (String x s)); [reflexivity | exact IH].
Qed.

(** A greedy repetition succeeds wherever what follows it does. *)
Lemma star_loop_falls_back (step : matcher) (k : continuation) (fuel : nat)
      (s : string) (caps c : captures) :
  k s caps = Some c -> exists c', star_loop step k fuel s caps = Some c'.
Proof.
  intros H. destruct fuel as [|fuel]; cbn [star_loop].
  - exists c. exact H.
  - destruct (step s caps _) as [c'|]; [exists c'; reflexivity | exists c; exact H].
Qed.

Lemma lang_chars_then (p : string) (r : regex) (w : string) :
  lang (chars_then p r) w -> exists w', w = p ++ w' /\ lang r w'.
Proof.
  revert w. induction p as [|c p IH]; intros w H.
  - exists w. split; [reflexivity | exact H].
  - assert (H' : lang (Cat (Chr (CChar c)) (chars_then p r)) w).
    { cbn [chars_then] in H. destruct (chars_then p r) eqn:E; try exact H.
      rewrite <- (PyStrFacts.append_nil_r w). constructor; [exact H | constructor]. }
    inversion H' as [| |r1 r2 w1 w2 L1 L2| | | | | |]; subst.
    apply ReFacts.lang_char in L1. subst w1.
    apply IH in L2. destruct L2 as (w' & -> & L).
    exists w'. split; [reflexivity | exact L].
Qed.

(** [re.search] with a pattern of plain characters between two wildcards:
    whether the text holds the characters. *)
Lemma search_from_wild_plain (p s : string) :
  match search_from (Cat (Star (Chr CDot)) (chars_then p (Star (Chr CDot)))) s with
  | Some _ => true
  | None => false
  end
  = PyStr.contains p s.
Proof.
  set (r := Cat (Star (Chr CDot)) (chars_then p (Star (Chr CDot)))).
  assert (Here : forall t, String.prefix p t = true -> exists c, match_at r t = Some c).
  { intros t Ht.
    destruct (star_loop_falls_back (run (Chr CDot)) (fun _ caps => Some caps)
                (String.length (PyStr.drop (String.length p) t))
                (PyStr.drop (String.length p) t) [] [] eq_refl) as (c & E).
    unfold match_at, r. cbn [run].
    apply (star_loop_falls_back _ _ _ _ _ c).
    rewrite run_chars_then, Ht. cbn [run]. exact E. }
  assert (There : forall t c, match_at r t = Some c -> PyStr.contains p t = true).
  { intros t c H. apply ReFacts.match_at_sound in H. destruct H as (w & t' & -> & L).
    unfold r in L. inversion L as [| |r1 r2 w1 w2 L1 L2| | | | | |]; subst.
    apply lang_chars_then in L2. destruct L2 as (w' & -> & _).
    rewrite !PyStrFacts.append_assoc. apply PyStrFacts.contains_append. }
  induction s as [|x s IH].
  - cbn [search_from PyStr.contains].
    destruct (match_at r "") as [c|] eqn:E.
    + symmetry. apply (There _ _ E).
    + destruct (String.prefix p "") eqn:P; [|reflexivity].
      destruct (Here _ P) as (c & E'). congruence.
  - cbn [search_from PyStr.contains].
    destruct (match_at r (String x s)) as [c|] eqn:E.
    + symmetry. apply (There _ _ E).
    + destruct (String.prefix p (String x s)) eqn:P; [|exact IH].
      destruct (Here _ P) as (c & E'). congruence.
Qed.

(** [re.search(pattern, text)] for a plain pattern, alone and between
    two wildcards *)
Lemma search_plain (p text : string) :
  plain p = true -> Re.search p text = Ok (PyStr.contains p text).
Proof.
  intros Hp. unfold Re.search. rewrite (compile_plain p Hp). cbn [bind].
  rewrite search_from_plain. reflexivity.
Qed.

Lemma search_wild_plain (p text : string) :
  plain p = true -> Re.search (".*" ++ p ++ ".*") text = Ok (PyStr.contains p text).
Proof.
  intros Hp. unfold Re.search. rewrite (compile_wild_plain p Hp). cbn [bind].
  rewrite search_from_wild_plain. reflexivity.
Qed.

End PlainFacts.

(** ** Condition matcher, further *)

Lemma in_strings_non_string (v : value) (l : list string) :
  is_str v = false -> PyVal.in_strings v l = false.
Proof.
  intros H. unfold PyVal.in_strings. induction l as [|s l IH]; [reflexivity|].
  cbn [existsb]. rewrite IH. destruct v; try discriminate H; reflexivity.
Qed.

Lemma contains_in_empty (sub : string) :
  sub <> EmptyString -> PyStr.contains sub EmptyString = false.
Proof. destruct sub; [contradiction | reflexivity]. Qed.

Lemma lower_not_empty (s : string) : s <> EmptyString -> PyStr.lower s <> EmptyString.
Proof. destruct s; [contradiction | discriminate]. Qed.

(** The context of a run has two keys; any other field is missing. *)
Lemma context_dict_other_field (context : Context) (field : string) (default : value) :
  field <> "trigger_data" -> field <> "execution_results" ->
  PyDict.get (context_dict context) field default = default.
Proof.
  intros H1 H2. unfold PyDict.get, context_dict. cbn [PyDict.lookup].
  destruct (String.eqb_spec "trigger_data" field) as [E|_]; [symmetry in E; contradiction|].
  destruct (String.eqb_spec "execution_results" field) as [E|_];
    [symmetry in E; contradiction | reflexivity].
Qed.

(** The pattern that [re.search] gets for a plain text between two
    wildcards *)
Lemma like_pattern_wild (p : string) :
  plain p = true ->
  PyStr.lower (PyStr.replace "%" ".*" ("%" ++ p ++ "%")) = ".*" ++ PyStr.lower p ++ ".*".
Proof.
  intros Hp. rewrite !PlainFacts.replace_append, (PlainFacts.replace_plain p Hp).
  change (PyStr.replace "%" ".*" "%") with ".*".
  rewrite !PlainFacts.lower_append. reflexivity.
Qed.

(** *** The literals of an [IN] list *)

Lemma split_without_separator (sep : ascii) (s : string) :
  Forall (fun w => PyStr.mem_char sep w = false) (PyStr.split sep s).
Proof.
  induction s as [|c s IH]; cbn [PyStr.split].
  - constructor; [reflexivity | constructor].
  - destruct (Ascii.eqb_spec c sep) as [->|Hne].
    + constructor; [reflexivity | exact IH].
    + destruct (PyStr.split sep s) as [|w ws].
      * constructor; [|constructor]. cbn [PyStr.mem_char].
        destruct (Ascii.eqb_spec sep c) as [E|_]; [symmetry in E; contradiction|reflexivity].
      * inversion IH as [|? ? Hw Hws]; subst. constructor; [|exact Hws].
        cbn [PyStr.mem_char].
        destruct (Ascii.eqb_spec sep c) as [E|_]; [symmetry in E; contradiction|exact Hw].
Qed.

Lemma mem_char_rev_onto (x : ascii) (s acc : string) :
  PyStr.mem_char x (PyStr.rev_onto s acc) = PyStr.mem_char x s || PyStr.mem_char x acc.
Proof.
  revert acc. induction s as [|c s IH]; intros acc; cbn [PyStr.rev_onto PyStr.mem_char].
  - reflexivity.
  - rewrite IH. cbn [PyStr.mem_char].
    destruct (Ascii.eqb x c), (PyStr.mem_char x s), (PyStr.mem_char x acc); reflexivity.
Qed.

Lemma mem_char_rev (x : ascii) (s : string) :
  PyStr.mem_char x (PyStr.rev s) = PyStr.mem_char x s.
Proof. unfold PyStr.rev. rewrite mem_char_rev_onto. cbn. apply orb_false_r. Qed.

Lemma mem_char_lstrip (x : ascii) (p : ascii -> bool) (s : string) :
  PyStr.mem_char x s = false -> PyStr.mem_char x (PyStr.lstrip p s) = false.
Proof.
  induction s as [|c s IH]; cbn [PyStr.lstrip]; [auto|].
  intros H. destruct (p c); [|exact H].
  apply IH. cbn [PyStr.mem_char] in H. apply orb_false_iff in H. apply H.
Qed.

(** Stripping a text adds no character to it. *)
Lemma mem_char_strip_with (x : ascii) (p : ascii -> bool) (s : string) :
  PyStr.mem_char x s = false -> PyStr.mem_char x (PyStr.strip_with p s) = false.
Proof.
  intros H. unfold PyStr.strip_with, PyStr.rstrip.
  rewrite mem_char_rev. apply mem_char_lstrip. rewrite mem_char_rev.
  apply mem_char_lstrip, H.
Qed.

Lemma allowed_values_without_comma (values : string) :
  Forall (fun literal => PyStr.mem_char "," literal = false) (allowed_values values).
Proof.
  unfold allowed_values. apply Forall_map.
  eapply Forall_impl; [|apply split_without_separator].
  intros w Hw. unfold PyStr.strip_chars, PyStr.strip.
  apply mem_char_strip_with, mem_char_strip_with, Hw.
Qed.

(** X1.  The matcher returns at the first condition that is false: the
    conditions after it are not evaluated, so one of them that would raise
    goes unnoticed. *)
Theorem match_conditions_stops_at_first_false
        (pre post : list string) (c : string) (data : dict) :
  match_conditions pre data = Ok true ->
  match_conditions [c] data = Ok false ->
  match_conditions (pre ++ c :: post) data = Ok false.
Proof.
  intros Hpre Hc.
  rewrite match_conditions_app, Hpre. cbn [bind].
  rewrite match_conditions_single in Hc.
  cbn [match_conditions]. rewrite Hc. reflexivity.
Qed.

Lemma match_conditions_stops_at_first_false_witness :
  match_conditions ["PRIORITY IN high"] [("STATUS", VStr "open")]
  = Raise (AttributeError "'NoneType' object has no attribute 'groups'")
  /\ match_conditions (["STATUS IN ('open')"] ++ "STATUS IN ('closed')"
                         :: ["PRIORITY IN high"])
                      [("STATUS", VStr "open")]
     = Ok false.
Proof.
  split; [reflexivity|].
  apply (match_conditions_stops_at_first_false
           ["STATUS IN ('open')"] ["PRIORITY IN high"] "STATUS IN ('closed')"
           [("STATUS", VStr "open")]); reflexivity.
Defined.

(** X2.  A [LIKE] condition whose pattern is made of plain characters,
    alone or between two wildcards, is a test for a substring, case
    ignored: it holds exactly when the text of the field's value holds the
    pattern somewhere.  Without wildcards it is not a test for equality. *)
Theorem like_condition_is_a_substring_test
        (c field pattern p : string) (data : dict) :
  Re.match_groups LIKE_PATTERN c = Ok (Some [Some field; Some pattern]) ->
  plain p = true ->
  pattern = p \/ pattern = "%" ++ p ++ "%" ->
  match_conditions [c] data
  = Ok (PyStr.contains (PyStr.lower p)
          (PyStr.lower (PyVal.str (PyDict.get data field (VStr ""))))).
Proof.
  intros Hgroups Hp Hpattern.
  rewrite match_conditions_single, (check_condition_like c field pattern data Hgroups).
  pose proof (PlainFacts.plain_lower p Hp) as Hlower.
  destruct Hpattern as [-> | ->].
  - rewrite (PlainFacts.replace_plain p Hp). apply PlainFacts.search_plain, Hlower.
  - rewrite (like_pattern_wild p Hp). apply PlainFacts.search_wild_plain, Hlower.
Qed.

Lemma like_condition_is_a_substring_test_witness :
  match_conditions ["subject LIKE 'Invoice'"] [("subject", VStr "Monthly INVOICE #123")]
  = Ok true
  /\ match_conditions ["subject LIKE '%paid%'"] [("subject", VStr "Monthly INVOICE #123")]
     = Ok false.
Proof.
  split.
  - apply (like_condition_is_a_substring_test
             "subject LIKE 'Invoice'" "subject" "Invoice" "Invoice"
             [("subject", VStr "Monthly INVOICE #123")]);
      [reflexivity | reflexivity | left; reflexivity].
  - apply (like_condition_is_a_substring_test
             "subject LIKE '%paid%'" "subject" "%paid%" "paid"
             [("subject", VStr "Monthly INVOICE #123")]);
      [reflexivity | reflexivity | right; reflexivity].
Defined.

(** X3.  An [IN] condition compares the field's value with texts: it never
    holds when the field is missing or when its value is not a string (a
    number, a boolean, [None], a list or a dictionary), whatever the
    literals are. *)
Theorem in_condition_needs_a_string_value
        (c field values : string) (data : dict) :
  PyStr.contains "LIKE" c = false ->
  Re.match_groups IN_PATTERN c = Ok (Some [Some field; Some values]) ->
  is_str (PyDict.get data field VNone) = false ->
  match_conditions [c] data = Ok false.
Proof.
  intros Hlike Hgroups Hvalue.
  rewrite match_conditions_single, (check_condition_in c field values data Hlike Hgroups).
  rewrite (in_strings_non_string _ _ Hvalue). reflexivity.
Qed.

Lemma in_condition_needs_a_string_value_witness :
  match_conditions ["COUNT IN (1, 2)"] [("COUNT", VInt 1)] = Ok false
  /\ match_conditions ["COUNT IN (1, 2)"] [("TOTAL", VStr "1")] = Ok false.
Proof.
  split.
  - apply (in_condition_needs_a_string_value "COUNT IN (1, 2)" "COUNT" "1, 2"
             [("COUNT", VInt 1)]); reflexivity.
  - apply (in_condition_needs_a_string_value "COUNT IN (1, 2)" "COUNT" "1, 2"
             [("TOTAL", VStr "1")]); reflexivity.
Defined.

(** X4.  The literals of an [IN] list are cut at every comma, also inside
    quotes: a value that holds a comma is equal to none of them, so the
    condition is false for it. *)
Theorem in_condition_never_matches_a_comma
        (c field values text : string) (data : dict) :
  PyStr.contains "LIKE" c = false ->
  Re.match_groups IN_PATTERN c = Ok (Some [Some field; Some values]) ->
  PyDict.get data field VNone = VStr text ->
  PyStr.mem_char "," text = true ->
  match_conditions [c] data = Ok false.
Proof.
  intros Hlike Hgroups Hvalue Hcomma.
  rewrite match_conditions_single, (check_condition_in c field values data Hlike Hgroups).
  f_equal. apply not_true_is_false. intros Hin.
  apply in_strings_spec in Hin. destruct Hin as (literal & Hl & E).
  rewrite Hvalue in E. injection E as ->.
  pose proof (allowed_values_without_comma values) as F.
  rewrite Forall_forall in F. rewrite (F _ Hl) in Hcomma. discriminate.
Qed.

Lemma in_condition_never_matches_a_comma_witness :
  allowed_values "'Smith, John', 'Doe, Jane'" = ["Smith"; "John"; "Doe"; "Jane"]
  /\ match_conditions ["NAME IN ('Smith, John', 'Doe, Jane')"]
                      [("NAME", VStr "Smith, John")]
     = Ok false.
Proof.
  split; [reflexivity|].
  apply (in_condition_never_matches_a_comma
           "NAME IN ('Smith, John', 'Doe, Jane')" "NAME" "'Smith, John', 'Doe, Jane'"
           "Smith, John" [("NAME", VStr "Smith, John")]); reflexivity.
Defined.

(** X5.  The conditions of a step are evaluated on the context of the run,
    whose only fields are [trigger_data] and [execution_results].  A
    condition on any other field, such as a field of the trigger data
    named directly, finds it missing: an [IN] condition, and a [LIKE]
    condition with a pattern of plain characters (alone or between two
    wildcards), is then false in every context, and the step is never
    run. *)
Theorem step_condition_on_a_trigger_field_never_passes
        (step : Step) (c field pattern p : string) (context : Context) :
  step.(conditions) = [c] ->
  field <> "trigger_data" -> field <> "execution_results" ->
  (Re.match_groups LIKE_PATTERN c = Ok (Some [Some field; Some pattern])
   /\ plain p = true /\ p <> EmptyString
   /\ (pattern = p \/ pattern = "%" ++ p ++ "%"))
  \/ (PyStr.contains "LIKE" c = false
      /\ Re.match_groups IN_PATTERN c = Ok (Some [Some field; Some pattern])) ->
  passes_gate step context = Ok false.
Proof.
  intros Hconditions H1 H2 Hshape.
  unfold passes_gate. rewrite Hconditions, match_conditions_single.
  destruct Hshape as [(Hgroups & Hp & Hne & Hpattern) | (Hlike & Hgroups)].
  - rewrite (check_condition_like c field pattern _ Hgroups).
    rewrite (context_dict_other_field context field _ H1 H2).
    cbn [PyVal.str PyStr.lower].
    pose proof (PlainFacts.plain_lower p Hp) as Hlower.
    pose proof (contains_in_empty _ (lower_not_empty p Hne)) as Hempty.
    destruct Hpattern as [-> | ->].
    + rewrite (PlainFacts.replace_plain p Hp), (PlainFacts.search_plain _ _ Hlower).
      rewrite Hempty. reflexivity.
    + rewrite (like_pattern_wild p Hp), (PlainFacts.search_wild_plain _ _ Hlower).
      rewrite Hempty. reflexivity.
  - rewrite (check_condition_in c field pattern _ Hlike Hgroups).
    rewrite (context_dict_other_field context field _ H1 H2).
    rewrite in_strings_non_string; reflexivity.
Qed.

Lemma step_condition_on_a_trigger_field_never_passes_witness :
  passes_gate {| name := "file"; tool := "vision_extract_invoice"; params := [];
                 conditions := ["subject LIKE '%invoice%'"] |}
              {| ctx_trigger_data := [("subject", VStr "Your invoice")];
                 ctx_execution_results := [] |}
  = Ok false.
Proof.
  apply (step_condition_on_a_trigger_field_never_passes
           {| name := "file"; tool := "vision_extract_invoice"; params := [];
              conditions := ["subject LIKE '%invoice%'"] |}
           "subject LIKE '%invoice%'" "subject" "%invoice%" "invoice").
  - reflexivity.
  - discriminate.
  - discriminate.
  - left. repeat split; [discriminate | right; reflexivity].
Defined.

(** ** Parameter resolver, further *)

Module PathFacts.

Lemma butlast_append_char (x : string) (c : ascii) :
  butlast (x ++ String c EmptyString) = x.
Proof.
  induction x as [|a x IH]; [reflexivity|].
  cbn [append butlast]. rewrite IH.
  destruct x; reflexivity.
Qed.

(** What is between the marker and the closing brace *)
Lemma slice_placeholder (x : string) : PyStr.slice ("${" ++ x ++ "}") 2 (-1) = x.
Proof.
  rewrite PyStrFacts.slice_2_m1. cbn [append PyStr.drop].
  apply butlast_append_char.
Qed.

Lemma split_append_dot (a b : string) :
  dot_free a = true -> PyStr.split "." (a ++ "." ++ b) = a :: PyStr.split "." b.
Proof.
  unfold dot_free. induction a as [|c a IH]; intros H.
  - reflexivity.
  - cbn [all_chars] in H. apply andb_true_iff in H. destruct H as [Hc Ha].
    apply negb_true_iff in Hc.
    cbn [append PyStr.split]. rewrite Hc.
    change (a ++ String "." b) with (a ++ "." ++ b). rewrite (IH Ha). reflexivity.
Qed.

Lemma split_dot_free (a : string) : dot_free a = true -> PyStr.split "." a = [a].
Proof.
  unfold dot_free. induction a as [|c a IH]; intros H; [reflexivity|].
  cbn [all_chars] in H. apply andb_true_iff in H. destruct H as [Hc Ha].
  apply negb_true_iff in Hc. cbn [PyStr.split]. rewrite Hc, (IH Ha). reflexivity.
Qed.

(** The segments of a path are what [split] makes of their [join]. *)
Lemma split_join (segments : list string) :
  segments <> [] -> Forall (fun s => dot_free s = true) segments ->
  PyStr.split "." (PyStr.join "." segments) = segments.
Proof.
  induction segments as [|a rest IH]; intros Hne H; [contradiction|].
  inversion H as [|? ? Ha Hrest]; subst.
  destruct rest as [|b rest].
  - cbn [PyStr.join]. apply split_dot_free, Ha.
  - change (PyStr.join "." (a :: b :: rest)) with (a ++ "." ++ PyStr.join "." (b :: rest)).
    rewrite (split_append_dot _ _ Ha), IH; [reflexivity | discriminate | exact Hrest].
Qed.

Lemma contains_dot_join (a b : string) (rest : list string) :
  PyStr.contains "." (PyStr.join "." (a :: b :: rest)) = true.
Proof.
  change (PyStr.join "." (a :: b :: rest)) with (a ++ "." ++ PyStr.join "." (b :: rest)).
  apply PyStrFacts.contains_append.
Qed.

(** A placeholder of two segments or more is resolved by walking them. *)
Lemma resolve_value_placeholder (a b : string) (rest : list string) (context : dict) :
  Forall (fun s => dot_free s = true) (a :: b :: rest) ->
  resolve_value (VStr (placeholder (a :: b :: rest))) context
  = walk_path (a :: b :: rest) (VDict context).
Proof.
  intros H. unfold placeholder, resolve_value, PyStr.startswith.
  rewrite PyStrFacts.prefix_append. cbv zeta.
  rewrite slice_placeholder, contains_dot_join, split_join;
    [reflexivity | discriminate | exact H].
Qed.

(** Walking a path that is there leads to the value at the path. *)
Lemma walk_path_value_at (path : list string) (v x : value) :
  value_at path v = Some x -> walk_path path v = Ok x.
Proof.
  revert v. induction path as [|key rest IH]; intros v H.
  - cbn in H. injection H as ->. reflexivity.
  - cbn [value_at] in H. destruct v as [| | | | |d]; try discriminate H.
    cbn [walk_path value_get bind]. unfold PyDict.get.
    destruct (PyDict.lookup d key) as [y|]; [apply IH, H | discriminate H].
Qed.

(** Walking on from a value that is not a dictionary raises. *)
Lemma walk_path_non_dictionary (part : string) (rest : list string) (v : value) :
  is_dict v = false ->
  walk_path (part :: rest) v = Raise (PyVal.no_attribute v "get").
Proof. destruct v; intros H; try discriminate H; reflexivity. Qed.

Lemma value_at_app (before after : list string) (v x : value) :
  value_at before v = Some x -> value_at (before ++ after) v = value_at after x.
Proof.
  revert v. induction before as [|key before IH]; intros v H.
  - cbn in H. injection H as ->. reflexivity.
  - cbn [value_at List.app] in *. destruct v as [| | | | |d]; try discriminate H.
    destruct (PyDict.lookup d key) as [y|]; [apply IH, H | discriminate H].
Qed.

End PathFacts.

Lemma lookup_set_other {V : Type} (d : list (string * V)) (k k' : string) (v : V) :
  k' <> k -> PyDict.lookup (PyDict.set d k v) k' = PyDict.lookup d k'.
Proof.
  intros Hne. induction d as [|[k0 x] d IH]; cbn [PyDict.set PyDict.lookup].
  - destruct (String.eqb_spec k k') as [E|_]; [symmetry in E; contradiction | reflexivity].
  - destruct (String.eqb_spec k0 k) as [->|Hk]; cbn [PyDict.lookup].
    + destruct (String.eqb_spec k k') as [E|_]; [symmetry in E; contradiction | reflexivity].
    + destruct (String.eqb k0 k'); [reflexivity | exact IH].
Qed.

Lemma set_new_key {V : Type} (d : list (string * V)) (k : string) (v : V) :
  PyDict.lookup d k = None -> PyDict.set d k v = (d ++ [(k, v)])%list.
Proof.
  induction d as [|[k0 x] d IH]; cbn [PyDict.set PyDict.lookup List.app]; [reflexivity|].
  destruct (String.eqb k0 k); [discriminate|]. intros H. rewrite (IH H). reflexivity.
Qed.

Lemma lookup_app_none {V : Type} (d1 d2 : list (string * V)) (k : string) :
  PyDict.lookup d1 k = None -> PyDict.lookup (d1 ++ d2) k = PyDict.lookup d2 k.
Proof.
  induction d1 as [|[k0 x] d1 IH]; cbn [PyDict.lookup List.app]; [reflexivity|].
  destruct (String.eqb k0 k); [discriminate | exact IH].
Qed.

Lemma lookup_not_in {V : Type} (d : list (string * V)) (k : string) :
  ~ In k (map fst d) -> PyDict.lookup d k = None.
Proof.
  induction d as [|[k0 x] d IH]; cbn [PyDict.lookup map fst In]; [reflexivity|].
  intros H. destruct (String.eqb_spec k0 k) as [->|_].
  - exfalso. apply H. left. reflexivity.
  - apply IH. intros Hin. apply H. right. exact Hin.
Qed.

(** The loop of [resolve_parameters] on parameters of distinct names:
    the resolved values are appended one by one. *)
Lemma resolve_loop_distinct (params : dict) (context : dict) :
  forall (acc resolved : dict),
    NoDup (map fst acc ++ map fst params) ->
    resolve_loop params context acc = Ok resolved ->
    exists out : dict,
      resolved = (acc ++ out)%list
      /\ map fst out = map fst params
      /\ Forall2 (fun p r => resolve_value (snd p) context = Ok (snd r)) params out.
Proof.
  induction params as [|[k v] params IH]; intros acc resolved Hnd H.
  - cbn in H. injection H as <-. exists []. rewrite List.app_nil_r.
    repeat split. constructor.
  - cbn [resolve_loop] in H.
    destruct (resolve_value v context) as [r|e] eqn:Ev; [|discriminate H].
    cbn [bind] in H.
    assert (Hk : PyDict.lookup acc k = None).
    { apply lookup_not_in. intros Hin.
      cbn [map fst] in Hnd.
      apply NoDup_remove_2 in Hnd. apply Hnd.
      apply in_or_app. left. exact Hin. }
    rewrite (set_new_key acc k r Hk) in H.
    apply IH in H.
    + destruct H as (out & -> & Hkeys & Hvals).
      exists ((k, r) :: out). rewrite <- List.app_assoc. cbn [List.app map fst].
      repeat split; [f_equal; exact Hkeys|].
      constructor; [exact Ev | exact Hvals].
    + rewrite map_app, <- List.app_assoc. exact Hnd.
Qed.

Lemma resolve_loop_literals (params : dict) (context : dict) :
  forall acc : dict,
    NoDup (map fst acc ++ map fst params) ->
    Forall (fun p => is_placeholder (snd p) = false) params ->
    resolve_loop params context acc = Ok (acc ++ params)%list.
Proof.
  induction params as [|[k v] params IH]; intros acc Hnd Hlit.
  - cbn. rewrite List.app_nil_r. reflexivity.
  - inversion Hlit as [|? ? Hv Hrest]; subst. cbn [snd] in Hv.
    cbn [resolve_loop].
    rewrite resolve_value_literal;
      [|destruct v; try exact I; exact Hv].
    cbn [bind].
    assert (Hk : PyDict.lookup acc k = None).
    { apply lookup_not_in. intros Hin.
      cbn [map fst] in Hnd.
      apply NoDup_remove_2 in Hnd. apply Hnd.
      apply in_or_app. left. exact Hin. }
    rewrite (set_new_key acc k v Hk), IH;
      [|rewrite map_app, <- List.app_assoc; exact Hnd | exact Hrest].
    rewrite <- List.app_assoc. reflexivity.
Qed.

(** X6.  Only the string values of the parameter dictionary itself are
    looked at: parameters none of which is a string that starts with the
    marker are returned as they are, in every context.  A placeholder
    inside a list or a dictionary of the parameters is not resolved. *)
Theorem resolve_parameters_resolves_top_level_strings_only
        (params context : dict) :
  NoDup (map fst params) ->
  Forall (fun p => is_placeholder (snd p) = false) params ->
  resolve_parameters params context = Ok params.
Proof.
  intros Hnd Hlit. unfold resolve_parameters.
  apply (resolve_loop_literals params context [] Hnd Hlit).
Qed.

Lemma resolve_parameters_resolves_top_level_strings_only_witness :
  resolve_parameters
    [("to", VList [VStr "${trigger_data.sender}"]);
     ("retries", VInt 3);
     ("note", VStr "cost: ${amount}")]
    [("trigger_data", VDict [("sender", VStr "x@y.com")]); ("amount", VInt 5)]
  = Ok [("to", VList [VStr "${trigger_data.sender}"]);
        ("retries", VInt 3);
        ("note", VStr "cost: ${amount}")].
Proof.
  apply resolve_parameters_resolves_top_level_strings_only.
  - repeat constructor; cbn; intuition discriminate.
  - repeat constructor.
Defined.

(** X7.  When the resolution returns, the resolved dictionary has the
    names of the parameters, in their order: no parameter is dropped and
    none is added. *)
Theorem resolve_parameters_keeps_the_names (params context resolved : dict) :
  NoDup (map fst params) ->
  resolve_parameters params context = Ok resolved ->
  map fst resolved = map fst params.
Proof.
  intros Hnd H. unfold resolve_parameters in H.
  destruct (resolve_loop_distinct params context [] resolved Hnd H)
    as (out & -> & Hkeys & _).
  exact Hkeys.
Qed.

Lemma resolve_parameters_keeps_the_names_witness :
  map fst [("title", VStr "hello"); ("who", VStr ""); ("n", VInt 2)]
  = map fst [("title", VStr "${trigger_data.subject}");
             ("who", VStr "${trigger_data.sender}"); ("n", VInt 2)].
Proof.
  apply (resolve_parameters_keeps_the_names
           [("title", VStr "${trigger_data.subject}");
            ("who", VStr "${trigger_data.sender}"); ("n", VInt 2)]
           [("trigger_data", VDict [("subject", VStr "hello")])]).
  - repeat constructor; cbn; intuition discriminate.
  - reflexivity.
Defined.

(** X8.  A placeholder with a dotted path whose every segment is there
    resolves to the value at the end of the path, of whatever type it is:
    a string, a number, a list or a whole dictionary. *)
Theorem placeholder_resolves_to_the_value_at_its_path
        (key a b : string) (rest : list string) (context : dict) (x : value) :
  Forall (fun s => dot_free s = true) (a :: b :: rest) ->
  value_at (a :: b :: rest) (VDict context) = Some x ->
  resolve_parameters [(key, VStr (placeholder (a :: b :: rest)))] context
  = Ok [(key, x)].
Proof.
  intros Hfree Hat. unfold resolve_parameters. cbn [resolve_loop].
  rewrite (PathFacts.resolve_value_placeholder a b rest context Hfree).
  rewrite (PathFacts.walk_path_value_at _ _ _ Hat). reflexivity.
Qed.

Lemma placeholder_resolves_to_the_value_at_its_path_witness :
  resolve_parameters [("items", VStr "${trigger_data.invoice.lines}")]
                     [("trigger_data",
                       VDict [("invoice", VDict [("lines", VList [VInt 1; VInt 2])])])]
  = Ok [("items", VList [VInt 1; VInt 2])].
Proof.
  apply (placeholder_resolves_to_the_value_at_its_path
           "items" "trigger_data" "invoice" ["lines"]); [repeat constructor | reflexivity].
Defined.

(** X9.  A placeholder whose path goes on after a value that is not a
    dictionary (a number, a string, a list, [None]) raises the
    [AttributeError] of [get] on that value; it does not resolve to the
    empty string. *)
Theorem placeholder_through_a_non_dictionary_raises
        (key a b : string) (rest before after : list string) (context : dict)
        (v : value) :
  Forall (fun s => dot_free s = true) (a :: b :: rest) ->
  (a :: b :: rest = before ++ after)%list -> after <> [] ->
  value_at before (VDict context) = Some v ->
  is_dict v = false ->
  resolve_parameters [(key, VStr (placeholder (a :: b :: rest)))] context
  = Raise (PyVal.no_attribute v "get").
Proof.
  intros Hfree Hsplit Hafter Hat Hv. unfold resolve_parameters. cbn [resolve_loop].
  rewrite (PathFacts.resolve_value_placeholder a b rest context Hfree), Hsplit.
  rewrite walk_path_app, (PathFacts.walk_path_value_at _ _ _ Hat). cbn [bind].
  destruct after as [|part after]; [contradiction|].
  rewrite (PathFacts.walk_path_non_dictionary part after v Hv). reflexivity.
Qed.

Lemma placeholder_through_a_non_dictionary_raises_witness :
  resolve_parameters [("zip", VStr "${trigger_data.id.zip}")]
                     [("trigger_data", VDict [("id", VInt 4)])]
  = Raise (AttributeError "'int' object has no attribute 'get'").
Proof.
  apply (placeholder_through_a_non_dictionary_raises
           "zip" "trigger_data" "id" ["zip"] ["trigger_data"; "id"] ["zip"]
           [("trigger_data", VDict [("id", VInt 4)])] (VInt 4));
    [repeat constructor | reflexivity | discriminate | reflexivity | reflexivity].
Defined.

(** ** Tools *)

Section ToolFacts.

Variable findall : string -> bool -> string -> list string.

Lemma execute_ai_tool_known (tool_id : string) (arguments context : dict) (v : value) :
  execute_ai_tool findall tool_id arguments context = Ok v ->
  In tool_id ["ai_summarize"; "ai_extract_entities"; "ai_classify_urgency"].
Proof.
  unfold execute_ai_tool.
  destruct (String.eqb_spec tool_id "ai_summarize") as [->|_]; [cbn; auto|].
  destruct (String.eqb_spec tool_id "ai_extract_entities") as [->|_]; [cbn; auto|].
  destruct (String.eqb_spec tool_id "ai_classify_urgency") as [->|_]; [cbn; auto|].
  discriminate.
Qed.

(** The extractors return on every string. *)
Lemma extend_findall_str (patterns : list string) (content : string) (acc : list value) :
  exists found, extend_findall findall patterns (VStr content) acc = Ok found.
Proof.
  revert acc. induction patterns as [|p ps IH]; intros acc; cbn [extend_findall].
  - exists acc. reflexivity.
  - cbn [re_findall bind]. apply IH.
Qed.

Lemma py_in_strings (k : string) (types : list string) :
  py_in k (VList (map VStr types)) = Ok (existsb (String.eqb k) types).
Proof.
  cbn [py_in]. f_equal. induction types as [|t types IH]; [reflexivity|].
  cbn [map existsb PyVal.eqb]. rewrite IH, (String.eqb_sym t k). reflexivity.
Qed.

Lemma filter_entities_strings (entities : dict) (types : list string) :
  exists kept,
    filter_entities entities (VList (map VStr types)) = Ok kept
    /\ kept = filter (fun p => existsb (String.eqb (fst p)) types) entities.
Proof.
  induction entities as [|[k v] entities (kept & IH & E)].
  - exists []. split; reflexivity.
  - eexists. cbn [filter_entities]. rewrite py_in_strings, IH. cbn [bind filter fst].
    split; [reflexivity|]. rewrite E. reflexivity.
Qed.

(** The answer of [ai_classify_urgency] on a content and keywords that
    are strings *)
Lemma classify_urgency_strings (arguments context : dict)
      (content : string) (keywords : list string) :
  PyDict.get arguments "content" (VStr "") = VStr content ->
  PyDict.get arguments "keywords" (VList []) = VList (map VStr keywords) ->
  execute_ai_tool findall "ai_classify_urgency" arguments context
  = Ok (VDict [("urgency_level", VStr (tier (keyword_hits keywords content)));
               ("urgency_score", VInt (Z.of_nat (keyword_hits keywords content)))]).
Proof.
  intros Hc Hk. unfold execute_ai_tool.
  change (String.eqb "ai_classify_urgency" "ai_summarize") with false.
  change (String.eqb "ai_classify_urgency" "ai_extract_entities") with false.
  change (String.eqb "ai_classify_urgency" "ai_classify_urgency") with true.
  cbv iota. rewrite Hc, Hk. cbn [py_iter bind].
  rewrite count_keywords_strings. cbn [bind Z.add].
  rewrite urgency_level_of_tier. reflexivity.
Qed.

Lemma keyword_hits_app (ks extra : list string) (content : string) :
  keyword_hits (ks ++ extra) content
  = keyword_hits ks content + keyword_hits extra content.
Proof. unfold keyword_hits. rewrite filter_app, length_app. reflexivity. Qed.

Lemma keyword_hits_le (ks : list string) (content : string) :
  keyword_hits ks content <= List.length ks.
Proof. unfold keyword_hits. apply filter_length_le. Qed.

Lemma level_rank_tier (hits : nat) : level_rank (tier hits) = Nat.min hits 2.
Proof. destruct hits as [|[|[|n]]]; reflexivity. Qed.

End ToolFacts.

(** X10.  The dispatcher returns a payload for eight tool identifiers
    only: for any other identifier, in a known namespace or not, the call
    raises and the step is recorded as failed. *)
Theorem execute_tool_returns_for_known_tools_only
        (findall : string -> bool -> string -> list string)
        (tool_id : string) (arguments context : dict) (v : value) :
  execute_tool findall tool_id arguments context = Ok v ->
  In tool_id known_tools.
Proof.
  unfold execute_tool, known_tools.
  destruct (resolve_parameters arguments context) as [resolved|e]; [|discriminate].
  cbn [bind].
  destruct (PyStr.startswith tool_id "ai_").
  { intros H. apply execute_ai_tool_known in H. cbn in *. intuition. }
  destruct (PyStr.startswith tool_id "crm_").
  { unfold execute_crm_tool.
    destruct (String.eqb_spec tool_id "crm_update_communication") as [->|_]; [cbn; auto|].
    destruct (String.eqb_spec tool_id "crm_create_task") as [->|_]; [cbn; auto 6|].
    discriminate. }
  destruct (PyStr.startswith tool_id "vision_").
  { unfold execute_vision_tool.
    destruct (String.eqb_spec tool_id "vision_extract_invoice") as [->|_]; [cbn; auto 7|].
    discriminate. }
  destruct (PyStr.startswith tool_id "quickbooks_").
  { unfold execute_quickbooks_tool.
    destruct (String.eqb_spec tool_id "quickbooks_create_vendor") as [->|_]; [cbn; auto 8|].
    discriminate. }
  destruct (String.eqb_spec tool_id "workflow_log") as [->|_]; [cbn; auto 9|].
  discriminate.
Qed.

Lemma execute_tool_returns_for_known_tools_only_witness :
  In "crm_create_task" known_tools.
Proof.
  apply (execute_tool_returns_for_known_tools_only
           (fun _ _ _ => []) "crm_create_task" [("title", VStr "Call back")] []
           (VDict [("task_id", VInt 123); ("success", VBool true);
                   ("title", VStr "Call back")])).
  reflexivity.
Defined.

(** X11.  Six of the tools stand for a call to another server and return
    a fixed answer: such a tool returns whenever its parameters resolve,
    whatever they and the context are, so a step that uses it can only
    fail in the resolution of its parameters. *)
Theorem stub_tools_return_whenever_parameters_resolve
        (findall : string -> bool -> string -> list string)
        (tool_id : string) (arguments context resolved : dict) :
  In tool_id stub_tools ->
  resolve_parameters arguments context = Ok resolved ->
  exists payload : dict,
    execute_tool findall tool_id arguments context = Ok (VDict payload).
Proof.
  intros Hin Hres. unfold execute_tool. rewrite Hres. cbn [bind].
  unfold stub_tools in Hin. cbn [In] in Hin.
  destruct Hin as [<-|[<-|[<-|[<-|[<-|[<-|[]]]]]]]; eexists; reflexivity.
Qed.

Lemma stub_tools_return_whenever_parameters_resolve_witness :
  exists payload : dict,
    execute_tool (fun _ _ _ => []) "quickbooks_create_vendor"
                 [("name", VStr "${trigger_data.vendor}")]
                 [("trigger_data", VDict [])]
    = Ok (VDict payload).
Proof.
  apply (stub_tools_return_whenever_parameters_resolve
           (fun _ _ _ => []) "quickbooks_create_vendor"
           [("name", VStr "${trigger_data.vendor}")] [("trigger_data", VDict [])]
           [("name", VStr "")]).
  - cbn. auto 6.
  - reflexivity.
Defined.

(** X12.  [ai_extract_entities] answers with the entity kinds that the
    parameter [types] names, among the four it extracts and in its own
    order, whatever the order of [types].  Without the parameter the kinds
    are [dates] and [amounts]: the default names [companies], which is not
    extracted, and leaves out [vehicles] and [deadlines]. *)
Theorem extract_entities_answers_the_kinds_asked_for
        (findall : string -> bool -> string -> list string)
        (arguments context : dict) (content : string) (types : list string) :
  PyDict.get arguments "content" (VStr "") = VStr content ->
  PyDict.get arguments "types" (VList [VStr "dates"; VStr "amounts"; VStr "companies"])
  = VList (map VStr types) ->
  exists entities : dict,
    execute_ai_tool findall "ai_extract_entities" arguments context
    = Ok (VDict [("entities", VDict entities)])
    /\ map fst entities = filter (fun kind => existsb (String.eqb kind) types) entity_kinds.
Proof.
  intros Hc Ht. unfold execute_ai_tool.
  change (String.eqb "ai_extract_entities" "ai_summarize") with false.
  change (String.eqb "ai_extract_entities" "ai_extract_entities") with true.
  cbv iota zeta. rewrite Hc, Ht.
  unfold extract_dates, extract_amounts, extract_vehicles, extract_deadlines.
  destruct (extend_findall_str findall
              ["\d{1,2}/\d{1,2}/\d{4}"; "\d{4}-\d{1,2}-\d{1,2}"; "\d{1,2}-\d{1,2}-\d{4}"]
              content []) as (dates & ->).
  destruct (extend_findall_str findall
              ["License:\s*([A-Z0-9]+)"; "VIN:\s*([A-Z0-9]+)"; "\d{4}\s+\w+"]
              content []) as (vehicles & ->).
  cbn [re_findall bind].
  match goal with
  | |- context [filter_entities ?e _] =>
      destruct (filter_entities_strings e types) as (kept & -> & E)
  end.
  cbn [bind]. exists kept. split; [reflexivity|].
  rewrite E. unfold entity_kinds. cbn [filter fst map].
  repeat match goal with
         | |- context [existsb (String.eqb ?k) types] =>
             destruct (existsb (String.eqb k) types)
         end; reflexivity.
Qed.

Lemma extract_entities_answers_the_kinds_asked_for_witness :
  exists entities : dict,
    execute_ai_tool (fun _ _ _ => ["found"]) "ai_extract_entities"
                    [("content", VStr "VIN: ABC due 03/27/2025")] []
    = Ok (VDict [("entities", VDict entities)])
    /\ map fst entities = ["dates"; "amounts"].
Proof.
  apply (extract_entities_answers_the_kinds_asked_for
           (fun _ _ _ => ["found"]) [("content", VStr "VIN: ABC due 03/27/2025")] []
           "VIN: ABC due 03/27/2025" ["dates"; "amounts"; "companies"]);
    reflexivity.
Defined.

(** X13.  The urgency score is the number of keywords found, at most the
    number of keywords, and more keywords never lower the score or the
    level: [urgent] takes at least two keywords. *)
Theorem urgency_grows_with_the_keywords
        (findall : string -> bool -> string -> list string)
        (context : dict) (content : string) (keywords more : list string)
        (level level' : string) (score score' : Z) :
  execute_ai_tool findall "ai_classify_urgency"
    [("content", VStr content); ("keywords", VList (map VStr keywords))] context
  = Ok (VDict [("urgency_level", VStr level); ("urgency_score", VInt score)]) ->
  execute_ai_tool findall "ai_classify_urgency"
    [("content", VStr content); ("keywords", VList (map VStr (keywords ++ more)))] context
  = Ok (VDict [("urgency_level", VStr level'); ("urgency_score", VInt score')]) ->
  (0 <= score <= Z.of_nat (List.length keywords))%Z
  /\ (score <= score')%Z
  /\ level_rank level <= level_rank level'
  /\ (level = "urgent" -> 2 <= List.length keywords).
Proof.
  intros H H'.
  rewrite (classify_urgency_strings findall
             [("content", VStr content); ("keywords", VList (map VStr keywords))]
             context content keywords eq_refl eq_refl) in H.
  rewrite (classify_urgency_strings findall
             [("content", VStr content); ("keywords", VList (map VStr (keywords ++ more)))]
             context content (keywords ++ more) eq_refl eq_refl) in H'.
  injection H as <- <-. injection H' as <- <-.
  rewrite keyword_hits_app, !level_rank_tier.
  pose proof (keyword_hits_le keywords content) as B.
  repeat split; try lia.
  intros U. destruct (keyword_hits keywords content) as [|[|n]]; try discriminate U. lia.
Qed.

Lemma urgency_grows_with_the_keywords_witness :
  (0 <= 1 <= Z.of_nat (List.length ["overdue"]))%Z
  /\ (1 <= 2)%Z
  /\ level_rank "high" <= level_rank "urgent"
  /\ ("high" = "urgent" -> 2 <= List.length ["overdue"]).
Proof.
  apply (urgency_grows_with_the_keywords
           (fun _ _ _ => []) [] "URGENT: payment overdue" ["overdue"] ["urgent"; "refund"]);
    reflexivity.
Defined.

(** X14.  The content is put in lower case once for each keyword: with no
    keyword, a content of any type is [normal] with score 0; with a first
    keyword that is a string, a content that is not a string (such as a
    number that a placeholder resolved to) raises the [AttributeError] of
    [lower]. *)
Theorem classify_urgency_on_a_content_that_is_no_string
        (findall : string -> bool -> string -> list string)
        (arguments context : dict) (content : value) :
  PyDict.get arguments "content" (VStr "") = content ->
  is_str content = false ->
  (PyDict.get arguments "keywords" (VList []) = VList [] ->
   execute_ai_tool findall "ai_classify_urgency" arguments context
   = Ok (VDict [("urgency_level", VStr "normal"); ("urgency_score", VInt 0)]))
  /\ (forall (keyword : string) (others : list value),
         PyDict.get arguments "keywords" (VList []) = VList (VStr keyword :: others) ->
         execute_ai_tool findall "ai_classify_urgency" arguments context
         = Raise (PyVal.no_attribute content "lower")).
Proof.
  intros Hc Hs.
  assert (Shape : forall keywords,
             PyDict.get arguments "keywords" (VList []) = VList keywords ->
             execute_ai_tool findall "ai_classify_urgency" arguments context
             = (urgency_score <- count_keywords keywords content 0%Z ;;
                Ok (VDict [("urgency_level", VStr (urgency_level_of urgency_score));
                           ("urgency_score", VInt urgency_score)]))).
  { intros keywords Hk. unfold execute_ai_tool.
    change (String.eqb "ai_classify_urgency" "ai_summarize") with false.
    change (String.eqb "ai_classify_urgency" "ai_extract_entities") with false.
    change (String.eqb "ai_classify_urgency" "ai_classify_urgency") with true.
    cbv iota zeta. rewrite Hc, Hk. reflexivity. }
  split.
  - intros Hk. rewrite (Shape [] Hk). reflexivity.
  - intros keyword others Hk. rewrite (Shape _ Hk).
    cbn [count_keywords py_lower bind].
    destruct content; try discriminate Hs; reflexivity.
Qed.

Lemma classify_urgency_on_a_content_that_is_no_string_witness :
  execute_ai_tool (fun _ _ _ => []) "ai_classify_urgency"
                  [("content", VInt 4); ("keywords", VList [VStr "urgent"])] []
  = Raise (AttributeError "'int' object has no attribute 'lower'").
Proof.
  apply (proj2 (classify_urgency_on_a_content_that_is_no_string
                  (fun _ _ _ => [])
                  [("content", VInt 4); ("keywords", VList [VStr "urgent"])] []
                  (VInt 4) eq_refl eq_refl) "urgent" []).
  reflexivity.
Defined.

(** ** Workflow executor, further *)

Section RunFacts.

Variable findall : string -> bool -> string -> list string.

Lemma same_tables_refl (a : WorkflowEngine) : same_tables a a.
Proof. repeat split. Qed.

Lemma same_tables_trans (a b c : WorkflowEngine) :
  same_tables a b -> same_tables b c -> same_tables a c.
Proof.
  intros (A1 & A2 & A3 & A4 & A5) (B1 & B2 & B3 & B4 & B5).
  repeat split; congruence.
Qed.

Lemma same_tables_now (a : WorkflowEngine) : same_tables (snd (now a)) a.
Proof. repeat split. Qed.

(** One step that passes its gate appends one result, with the name and
    the tool of the step and the outcome of the tool. *)
Lemma attempt_appends (step : Step) (st : Run) :
  exists r : WorkflowResult,
    run_steps_completed (attempt findall step st)
    = (run_steps_completed st ++ [r])%list
    /\ r.(step_name) = step.(name) /\ r.(tool_name) = step.(tool)
    /\ r.(success)
       = match execute_tool findall step.(tool) step.(params)
                            (context_dict st.(run_context)) with
         | Ok _ => true
         | Raise _ => false
         end.
Proof.
  unfold attempt.
  destruct (execute_tool findall _ _ _); eexists; repeat split.
Qed.

Lemma attempt_tables (step : Step) (st : Run) :
  same_tables (run_engine (attempt findall step st)) (run_engine st).
Proof. unfold attempt. destruct (execute_tool findall _ _ _); repeat split. Qed.

Lemma run_steps_tables (todo : list Step) (st : Run) :
  same_tables (run_engine (fst (run_steps findall todo st))) (run_engine st).
Proof.
  revert st. induction todo as [|step rest IH]; intros st.
  - apply same_tables_refl.
  - rewrite run_steps_cons.
    destruct (passes_gate step (run_context st)) as [[|]|e].
    + eapply same_tables_trans; [apply IH | apply attempt_tables].
    + apply IH.
    + apply same_tables_refl.
Qed.

(** The loop over a list of steps in two parts *)
Lemma run_steps_app (before after : list Step) (st : Run) :
  run_steps findall (before ++ after) st
  = match snd (run_steps findall before st) with
    | None => run_steps findall after (fst (run_steps findall before st))
    | Some e => (fst (run_steps findall before st), Some e)
    end.
Proof.
  revert st. induction before as [|step rest IH]; intros st.
  - reflexivity.
  - cbn [List.app]. rewrite !run_steps_cons.
    destruct (passes_gate step (run_context st)) as [[|]|e]; try apply IH.
    reflexivity.
Qed.

(** The results of a run, as the steps they come from *)
Lemma run_steps_subsequence (todo : list Step) (st : Run) :
  exists more : list WorkflowResult,
    run_steps_completed (fst (run_steps findall todo st))
    = (run_steps_completed st ++ more)%list
    /\ subsequence (map (fun r => (r.(step_name), r.(tool_name))) more)
                   (map (fun s => (s.(name), s.(tool))) todo).
Proof.
  revert st. induction todo as [|step rest IH]; intros st.
  - exists []. cbn. rewrite List.app_nil_r. split; constructor.
  - rewrite run_steps_cons.
    destruct (passes_gate step (run_context st)) as [[|]|e].
    + destruct (IH (attempt findall step st)) as (more & E & S).
      destruct (attempt_appends step st) as (r & Er & Hn & Ht & _).
      exists (r :: more). split.
      * rewrite E, Er, <- List.app_assoc. reflexivity.
      * cbn [map]. rewrite Hn, Ht. apply subsequence_keep. exact S.
    + destruct (IH st) as (more & E & S). exists more. split; [exact E|].
      cbn [map]. apply subsequence_skip. exact S.
    + exists []. cbn [fst]. rewrite List.app_nil_r. split; [reflexivity|].
      clear. induction (step :: rest) as [|x l IHl]; cbn [map];
        [apply subsequence_nil | apply subsequence_skip; exact IHl].
Qed.

Lemma subsequence_length {A : Type} (l1 l2 : list A) :
  subsequence l1 l2 -> List.length l1 <= List.length l2.
Proof. induction 1; cbn [List.length]; lia. Qed.


(** What a run prints *)
Lemma execute_workflow_stdout (eng : WorkflowEngine) (wf_name event : string)
      (data : dict) (def : WorkflowDef) :
  PyDict.lookup eng.(workflows) wf_name = Some def ->
  stdout (fst (execute_workflow findall eng wf_name event data))
  = match snd (run_steps findall def.(steps) (initial_run eng wf_name event data)) with
    | None => eng.(stdout)
    | Some e =>
        (eng.(stdout) ++ [("Workflow execution failed: " ++ PyVal.str_exn e)%string])%list
    end.
Proof.
  intros H. unfold execute_workflow. cbn [now fst snd with_executions workflows].
  rewrite H. cbv zeta.
  change (run_steps findall (steps def) _)
    with (run_steps findall (steps def) (initial_run eng wf_name event data)).
  pose proof (run_steps_tables (steps def) (initial_run eng wf_name event data))
    as (_ & _ & _ & _ & Hout).
  destruct (run_steps findall (steps def) (initial_run eng wf_name event data))
    as [st [e|]]; cbn [fst snd] in *; cbn; rewrite Hout; reflexivity.
Qed.

(** The tables of the engine after a run: the definitions are the same,
    the execution is in memory under its id, and its row is in the
    database. *)
Lemma execute_workflow_tables (eng : WorkflowEngine) (wf_name event : string)
      (data : dict) :
  let after := fst (execute_workflow findall eng wf_name event data) in
  let execution := snd (execute_workflow findall eng wf_name event data) in
  workflows after = workflows eng
  /\ (exists running : WorkflowExecution,
         executions after
         = PyDict.set (PyDict.set eng.(executions) execution.(execution_id) running)
                      execution.(execution_id) execution)
  /\ (exists created : string,
         database after
         = insert_or_replace eng.(database)
             {| row_execution_id := execution.(execution_id);
                row_workflow_name := execution.(workflow_name);
                row_trigger_event := execution.(trigger_event);
                row_trigger_data := Json.dumps (VDict execution.(trigger_data));
                row_status := execution.(status);
                row_started_at := execution.(started_at);
                row_completed_at := execution.(completed_at);
                row_steps_completed :=
                  Json.dumps (VList (map asdict execution.(steps_completed)));
                row_created_at := created |})
  /\ execution.(workflow_name) = wf_name
  /\ execution.(trigger_event) = event
  /\ execution.(trigger_data) = data.
Proof.
  unfold execute_workflow. cbn [now fst snd with_executions workflows].
  destruct (PyDict.lookup (workflows eng) wf_name) as [def|].
  - cbv zeta.
    change (run_steps findall (steps def) _)
      with (run_steps findall (steps def) (initial_run eng wf_name event data)).
    pose proof (run_steps_tables (steps def) (initial_run eng wf_name event data))
      as (Hw & He & Hd & _ & _).
    destruct (run_steps findall (steps def) (initial_run eng wf_name event data))
      as [st [e|]]; cbn [fst snd] in *; cbn;
      rewrite ?Hw, ?He, ?Hd; cbn;
      (split; [reflexivity|]); (split; [eexists; reflexivity|]);
      (split; [eexists; reflexivity|]); repeat split.
  - cbn. split; [reflexivity|]. split; [eexists; reflexivity|].
    split; [eexists; reflexivity|]. repeat split.
Qed.

End RunFacts.

(** X15.  The step results of a run follow the order of the steps in the
    definition, with at most one result for each step: the names and tools
    of the results are those of the steps, some of them left out, so a run
    never has more results than the definition has steps. *)
Theorem step_results_follow_the_declaration_order
        (findall : string -> bool -> string -> list string)
        (eng : WorkflowEngine) (wf_name event : string) (data : dict)
        (def : WorkflowDef) :
  PyDict.lookup eng.(workflows) wf_name = Some def ->
  let run := snd (execute_workflow findall eng wf_name event data) in
  subsequence (map (fun r => (r.(step_name), r.(tool_name))) run.(steps_completed))
              (map (fun s => (s.(name), s.(tool))) def.(steps))
  /\ List.length run.(steps_completed) <= List.length def.(steps).
Proof.
  intros Hdef run.
  destruct (execute_workflow_known findall eng wf_name event data def Hdef) as [E _].
  fold run in E.
  destruct (run_steps_subsequence findall def.(steps)
              (initial_run eng wf_name event data)) as (more & Emore & S).
  cbn [initial_run run_steps_completed List.app] in Emore.
  rewrite E, Emore. split; [exact S|].
  apply subsequence_length in S. rewrite !length_map in S. exact S.
Qed.

Lemma step_results_follow_the_declaration_order_witness :
  let run := snd (execute_workflow findall_nothing
                    (example_engine [("gated", gated_workflow)]) "gated" "mail"
                    [("subject", VStr "hello")]) in
  subsequence (map (fun r => (r.(step_name), r.(tool_name))) run.(steps_completed))
              (map (fun s => (s.(name), s.(tool))) gated_workflow.(steps))
  /\ List.length run.(steps_completed) <= List.length gated_workflow.(steps).
Proof.
  apply (step_results_follow_the_declaration_order findall_nothing
           (example_engine [("gated", gated_workflow)]) "gated" "mail"
           [("subject", VStr "hello")] gated_workflow).
  reflexivity.
Defined.

(** X16.  A condition that raises ends the run: the results of the steps
    before it are kept, the step and the steps after it are not attempted,
    the status is [failed] and the text of the exception is printed. *)
Theorem raising_condition_ends_the_run
        (findall : string -> bool -> string -> list string)
        (eng : WorkflowEngine) (wf_name event : string) (data : dict)
        (def : WorkflowDef) (before after : list Step) (step : Step) (e : exn) :
  PyDict.lookup eng.(workflows) wf_name = Some def ->
  def.(steps) = (before ++ step :: after)%list ->
  let reached := run_steps findall before (initial_run eng wf_name event data) in
  snd reached = None ->
  passes_gate step (run_context (fst reached)) = Raise e ->
  let run := snd (execute_workflow findall eng wf_name event data) in
  run.(status) = "failed"
  /\ run.(steps_completed) = run_steps_completed (fst reached)
  /\ stdout (fst (execute_workflow findall eng wf_name event data))
     = (eng.(stdout) ++ [("Workflow execution failed: " ++ PyVal.str_exn e)%string])%list.
Proof.
  intros Hdef Hsteps reached Hbefore Hgate run.
  destruct (execute_workflow_known findall eng wf_name event data def Hdef) as [E S].
  pose proof (execute_workflow_stdout findall eng wf_name event data def Hdef) as O.
  fold run in E, S.
  assert (Loop : run_steps findall def.(steps) (initial_run eng wf_name event data)
                 = (fst reached, Some e)).
  { rewrite Hsteps, run_steps_app. fold reached. rewrite Hbefore.
    rewrite run_steps_cons, Hgate. reflexivity. }
  rewrite Loop in E, S, O. cbn [fst snd] in E, S, O.
  repeat split; assumption.
Qed.

Lemma raising_condition_ends_the_run_witness :
  let eng := example_engine
               [("checked",
                 {| description := "log, check, log"; triggers := [];
                    steps :=
                      [ {| name := "first"; tool := "workflow_log"; params := [];
                           conditions := [] |};
                        {| name := "check"; tool := "workflow_log"; params := [];
                           conditions := ["trigger_data IN open"] |};
                        {| name := "last"; tool := "workflow_log"; params := [];
                           conditions := [] |} ] |})] in
  let run := snd (execute_workflow findall_nothing eng "checked" "mail" []) in
  run.(status) = "failed"
  /\ map step_name run.(steps_completed) = ["first"]
  /\ stdout (fst (execute_workflow findall_nothing eng "checked" "mail" []))
     = ["Workflow execution failed: 'NoneType' object has no attribute 'groups'"].
Proof.
  intros eng run. subst run.
  destruct (raising_condition_ends_the_run findall_nothing eng "checked" "mail" []
              {| description := "log, check, log"; triggers := [];
                 steps :=
                   [ {| name := "first"; tool := "workflow_log"; params := [];
                        conditions := [] |};
                     {| name := "check"; tool := "workflow_log"; params := [];
                        conditions := ["trigger_data IN open"] |};
                     {| name := "last"; tool := "workflow_log"; params := [];
                        conditions := [] |} ] |}
              [ {| name := "first"; tool := "workflow_log"; params := [];
                   conditions := [] |} ]
              [ {| name := "last"; tool := "workflow_log"; params := [];
                   conditions := [] |} ]
              {| name := "check"; tool := "workflow_log"; params := [];
                 conditions := ["trigger_data IN open"] |}
              (AttributeError "'NoneType' object has no attribute 'groups'")
              eq_refl eq_refl eq_refl eq_refl) as (S & E & O).
  split; [exact S | split; [rewrite E; reflexivity | exact O]].
Defined.



(** X18.  The payload of a step that returned is kept in the context under
    the name of the step: from then on a placeholder
    [execution_results.<step>.<key>] resolves to what the payload holds
    under [key]. *)
Theorem later_steps_read_the_payload_of_a_step
        (findall : string -> bool -> string -> list string)
        (step : Step) (st : Run) (payload : dict) (parameter key : string) (x : value) :
  dot_free step.(name) = true -> dot_free key = true ->
  execute_tool findall step.(tool) step.(params) (context_dict st.(run_context))
  = Ok (VDict payload) ->
  PyDict.lookup payload key = Some x ->
  resolve_parameters
    [(parameter, VStr (placeholder ["execution_results"; step.(name); key]))]
    (context_dict (run_context (attempt findall step st)))
  = Ok [(parameter, x)].
Proof.
  intros Hname Hkey Htool Hx.
  unfold resolve_parameters. cbn [resolve_loop].
  rewrite PathFacts.resolve_value_placeholder by (repeat constructor; assumption).
  unfold attempt. rewrite Htool.
  cbn [run_context record_result context_dict ctx_execution_results ctx_trigger_data].
  erewrite PathFacts.walk_path_value_at; [reflexivity|].
  unfold context_dict, record_result.
  cbn [value_at PyDict.lookup ctx_execution_results ctx_trigger_data].
  change (String.eqb "trigger_data" "execution_results") with false.
  change (String.eqb "execution_results" "execution_results") with true.
  cbv iota. rewrite lookup_set_same, Hx. reflexivity.
Qed.

Lemma later_steps_read_the_payload_of_a_step_witness :
  let st := initial_run (example_engine []) "triage" "mail"
                        [("content", VStr "URGENT: payment overdue")] in
  let step := {| name := "urgency"; tool := "ai_classify_urgency";
                 params := [("content", VStr "${trigger_data.content}");
                            ("keywords", VList [VStr "urgent"; VStr "overdue"])];
                 conditions := [] |} in
  resolve_parameters
    [("priority", VStr "${execution_results.urgency.urgency_level}")]
    (context_dict (run_context (attempt findall_nothing step st)))
  = Ok [("priority", VStr "urgent")].
Proof.
  intros st step.
  apply (later_steps_read_the_payload_of_a_step findall_nothing step st
           [("urgency_level", VStr "urgent"); ("urgency_score", VInt 2)]
           "priority" "urgency_level" (VStr "urgent")); reflexivity.
Defined.

(** X19.  A step whose tool raised leaves no entry in the context.  A later
    step that reads a key of its payload through a placeholder
    [execution_results.<step>.<key>] then fails as well, whatever its tool
    is, with the [AttributeError] of [get] on a string. *)
Theorem step_that_reads_a_failed_step_fails_too
        (findall : string -> bool -> string -> list string)
        (step : Step) (st : Run) (e : exn) (tool_id parameter key : string) :
  dot_free step.(name) = true -> dot_free key = true ->
  execute_tool findall step.(tool) step.(params) (context_dict st.(run_context))
  = Raise e ->
  PyDict.lookup st.(run_context).(ctx_execution_results) step.(name) = None ->
  execute_tool findall tool_id
    [(parameter, VStr (placeholder ["execution_results"; step.(name); key]))]
    (context_dict (run_context (attempt findall step st)))
  = Raise (AttributeError "'str' object has no attribute 'get'").
Proof.
  intros Hname Hkey Htool Hnone.
  unfold execute_tool, resolve_parameters. cbn [resolve_loop].
  rewrite PathFacts.resolve_value_placeholder by (repeat constructor; assumption).
  unfold attempt. rewrite Htool. cbn [run_context].
  change (walk_path ["execution_results"; name step; key]
                    (VDict (context_dict (run_context st))))
    with (walk_path [name step; key] (VDict (ctx_execution_results (run_context st)))).
  rewrite (walk_path_missing_inner _ _ _ _ Hnone). reflexivity.
Qed.

Lemma step_that_reads_a_failed_step_fails_too_witness :
  let st := initial_run (example_engine []) "faulty" "mail" [] in
  let step := {| name := "notify"; tool := "email_send";
                 params := [("to", VStr "ops@example.com")]; conditions := [] |} in
  execute_tool findall_nothing "workflow_log"
    [("receipt", VStr "${execution_results.notify.message_id}")]
    (context_dict (run_context (attempt findall_nothing step st)))
  = Raise (AttributeError "'str' object has no attribute 'get'").
Proof.
  intros st step.
  apply (step_that_reads_a_failed_step_fails_too findall_nothing step st
           (ValueError "Unknown tool: email_send") "workflow_log" "receipt" "message_id");
    reflexivity.
Defined.

(** ** History store, further *)

Lemma select_after_insert_other (rows : list Row) (row : Row) (id : string) :
  id <> row.(row_execution_id) ->
  select_execution (insert_or_replace rows row) id = select_execution rows id.
Proof.
  intros Hne. unfold select_execution, insert_or_replace.
  induction rows as [|r rows IH]; cbn [filter List.app find].
  - destruct (String.eqb_spec (row_execution_id row) id) as [E|_];
      [symmetry in E; contradiction | reflexivity].
  - destruct (String.eqb_spec (row_execution_id r) (row_execution_id row)) as [E|_];
      cbn [negb List.app find].
    + rewrite E.
      destruct (String.eqb_spec (row_execution_id row) id) as [E'|_];
        [symmetry in E'; contradiction | exact IH].
    + destruct (String.eqb (row_execution_id r) id); [reflexivity | exact IH].
Qed.



(** X20.  A run changes what is recorded under its own execution id only:
    every other id reads, from memory or from the database, as it did
    before the run. *)
Theorem run_leaves_other_executions_as_they_were
        (findall : string -> bool -> string -> list string)
        (eng : WorkflowEngine) (wf_name event : string) (data : dict) (id : string) :
  id <> execution_id (snd (execute_workflow findall eng wf_name event data)) ->
  get_workflow_execution (fst (execute_workflow findall eng wf_name event data)) id
  = get_workflow_execution eng id.
Proof.
  intros Hne.
  destruct (execute_workflow_tables findall eng wf_name event data)
    as (_ & (running & Hmem) & (created & Hdb) & _).
  unfold get_workflow_execution, get_workflow_execution_result.
  rewrite Hmem, Hdb, !lookup_set_other by exact Hne.
  rewrite select_after_insert_other by exact Hne. reflexivity.
Qed.

Lemma run_leaves_other_executions_as_they_were_witness :
  let eng := save_execution (example_engine [("faulty", faulty_workflow)])
                            sample_execution in
  get_workflow_execution
    (fst (execute_workflow findall_nothing eng "faulty" "mail" []))
    "faulty_20261104_120000"
  = get_workflow_execution eng "faulty_20261104_120000".
Proof.
  apply (run_leaves_other_executions_as_they_were findall_nothing
           (save_execution (example_engine [("faulty", faulty_workflow)])
                           sample_execution)
           "faulty" "mail" [] "faulty_20261104_120000").
  vm_compute. discriminate.
Defined.




(** ** JSON answers *)

Module JsonIndentFacts.

Import Json JsonSpec JsonSpec2 JsonFacts.

Lemma skip_ws_spaces (n : nat) (s : string) : skip_ws (spaces n ++ s) = skip_ws s.
Proof. induction n as [|n IH]; [reflexivity | exact IH]. Qed.

(** The line break and the indentation before an item are white space. *)
Lemma skip_ws_newline (n : nat) (s : string) : skip_ws (newline n ++ s) = skip_ws s.
Proof. unfold newline. cbn [append]. apply (skip_ws_spaces (2 * n) s). Qed.

Lemma closes_number_newline (n : nat) (s : string) : closes_number (newline n ++ s).
Proof. split; reflexivity. Qed.

Lemma dumps_indent_head (level : nat) (v : value) (rest : string) :
  exists c t, dumps_indent level v ++ rest = String c t /\ value_head c = true.
Proof.
  destruct v as [|b|z|s|[|x l]|[|[k x] d]].
  - apply (dumps_head VNone).
  - apply (dumps_head (VBool b)).
  - apply (dumps_head (VInt z)).
  - apply (dumps_head (VStr s)).
  - cbn. do 2 eexists; split; reflexivity.
  - cbn. do 2 eexists; split; reflexivity.
  - cbn. do 2 eexists; split; reflexivity.
  - cbn. do 2 eexists; split; reflexivity.
Qed.

Lemma skip_ws_dumps_indent (level : nat) (v : value) (rest : string) :
  skip_ws (dumps_indent level v ++ rest) = dumps_indent level v ++ rest.
Proof.
  destruct (dumps_indent_head level v rest) as (c & t & -> & H).
  apply skip_ws_head, value_head_facts, H.
Qed.

Lemma head_is_dumps_indent (level : nat) (v : value) (rest : string) (c : ascii) :
  value_head c = false -> head_is c (dumps_indent level v ++ rest) = false.
Proof.
  intros Hc. destruct (dumps_indent_head level v rest) as (x & t & -> & H).
  cbn [head_is]. apply Ascii.eqb_neq. intros ->. congruence.
Qed.

(** One turn of the loops of the reader on an indented text *)
Lemma parse_elems_more_indent (fuel n : nat) (s s' : string) (v : value)
      (acc : list value) :
  parse_value fuel s = Ok (v, "," ++ newline n ++ s') ->
  parse_elems (S fuel) s acc = parse_elems fuel (skip_ws s') (acc ++ [v])%list.
Proof.
  intros H. cbn [parse_elems]. rewrite H. cbn [bind]. cbv zeta.
  change (skip_ws ("," ++ newline n ++ s')) with (String "," (newline n ++ s')).
  cbn [head_is PyStr.drop]. change (Ascii.eqb "," ",") with true. cbv iota.
  rewrite skip_ws_newline. reflexivity.
Qed.

Lemma parse_elems_last_indent (fuel n : nat) (s rest : string) (v : value)
      (acc : list value) :
  parse_value fuel s = Ok (v, newline n ++ "]" ++ rest) ->
  parse_elems (S fuel) s acc = Ok (VList (acc ++ [v])%list, rest).
Proof.
  intros H. cbn [parse_elems]. rewrite H. cbn [bind]. cbv zeta.
  rewrite skip_ws_newline. reflexivity.
Qed.

Lemma parse_members_more_indent (fuel n : nat) (body s1 s2 key : string) (v : value)
      (acc : dict) :
  scan_string body EmptyString = Ok (key, ": " ++ s1) ->
  parse_value fuel (skip_ws s1) = Ok (v, "," ++ newline n ++ s2) ->
  parse_members (S fuel) (String PyStr.dquote body) acc
  = parse_members fuel (skip_ws s2) (PyDict.set acc key v).
Proof.
  intros H1 H2. cbn [parse_members head_is PyStr.drop].
  change (Ascii.eqb PyStr.dquote PyStr.dquote) with true. cbv iota.
  rewrite H1. cbn [bind]. cbv zeta.
  change (skip_ws (": " ++ s1)) with (String ":" (String " " s1)).
  cbn [head_is PyStr.drop]. change (Ascii.eqb ":" ":") with true. cbv iota.
  change (skip_ws (String " " s1)) with (skip_ws s1).
  rewrite H2. cbn [bind]. cbv zeta.
  change (skip_ws ("," ++ newline n ++ s2)) with (String "," (newline n ++ s2)).
  cbn [head_is PyStr.drop]. change (Ascii.eqb "," ",") with true. cbv iota.
  rewrite skip_ws_newline. reflexivity.
Qed.

Lemma parse_members_last_indent (fuel n : nat) (body s1 rest key : string) (v : value)
      (acc : dict) :
  scan_string body EmptyString = Ok (key, ": " ++ s1) ->
  parse_value fuel (skip_ws s1) = Ok (v, newline n ++ "}" ++ rest) ->
  parse_members (S fuel) (String PyStr.dquote body) acc
  = Ok (VDict (PyDict.set acc key v), rest).
Proof.
  intros H1 H2. cbn [parse_members head_is PyStr.drop].
  change (Ascii.eqb PyStr.dquote PyStr.dquote) with true. cbv iota.
  rewrite H1. cbn [bind]. cbv zeta.
  change (skip_ws (": " ++ s1)) with (String ":" (String " " s1)).
  cbn [head_is PyStr.drop]. change (Ascii.eqb ":" ":") with true. cbv iota.
  change (skip_ws (String " " s1)) with (skip_ws s1).
  rewrite H2. cbn [bind]. cbv zeta.
  rewrite skip_ws_newline. reflexivity.
Qed.

(** The items of an indented list read back, given that each of them
    does. *)
Lemma parse_elems_indent (l : list value) :
  Forall reads_back_indent l ->
  forall (x : value) (level fuel : nat) (rest : string) (acc : list value),
    reads_back_indent x ->
    list_sum (map (fun y => S (weight y)) (x :: l)) <= fuel ->
    parse_elems fuel
      (dumps_indent (S level) x
       ++ items_tail (dumps_indent (S level)) ("," ++ newline (S level))
                     (newline level ++ "]") l ++ rest) acc
    = Ok (VList (acc ++ map normalize (x :: l))%list, rest).
Proof.
  induction 1 as [|y l Hy Hl IH]; intros x level fuel rest acc Hx Hf;
    cbn [map list_sum fold_right] in Hf; (destruct fuel as [|fuel]; [lia|]).
  - cbn [items_tail]. rewrite !PyStrFacts.append_assoc.
    apply (parse_elems_last_indent fuel level).
    apply Hx; [lia | apply closes_number_newline].
  - cbn [items_tail]. rewrite !PyStrFacts.append_assoc.
    erewrite (parse_elems_more_indent fuel (S level));
      [|apply Hx; [lia | apply closes_number_comma]].
    rewrite skip_ws_dumps_indent.
    rewrite IH; [|exact Hy|cbn [map list_sum fold_right]; lia].
    rewrite <- List.app_assoc. reflexivity.
Qed.

(** The members of an indented object read back, given that each value
    does. *)
Lemma parse_members_indent (d : list (string * value)) :
  Forall (fun p => reads_back_indent (snd p)) d ->
  forall (k : string) (x : value) (level fuel : nat) (rest : string) (acc : dict),
    reads_back_indent x ->
    list_sum (map (fun '(_, y) => S (weight y)) ((k, x) :: d)) <= fuel ->
    parse_members fuel
      (dumps_str k ++ ": " ++ dumps_indent (S level) x
       ++ members_tail (dumps_indent (S level)) ("," ++ newline (S level))
                       (newline level ++ "}") d ++ rest) acc
    = Ok (VDict (set_all normalize ((k, x) :: d) acc), rest).
Proof.
  induction 1 as [|[k' y] d Hy Hd IH]; intros k x level fuel rest acc Hx Hf;
    cbn [map list_sum fold_right] in Hf; (destruct fuel as [|fuel]; [lia|]).
  - cbn [members_tail]. rewrite !PyStrFacts.append_assoc.
    destruct (scan_dumps_str k
                (": " ++ dumps_indent (S level) x ++ newline level ++ "}" ++ rest))
      as (body & -> & Hscan).
    eapply (parse_members_last_indent fuel level); [exact Hscan|].
    rewrite skip_ws_dumps_indent. apply Hx; [lia | apply closes_number_newline].
  - cbn [members_tail]. rewrite !PyStrFacts.append_assoc.
    destruct (scan_dumps_str k
                (": " ++ dumps_indent (S level) x ++ "," ++ newline (S level)
                 ++ dumps_str k' ++ ": " ++ dumps_indent (S level) y
                 ++ members_tail (dumps_indent (S level)) ("," ++ newline (S level))
                                 (newline level ++ "}") d ++ rest))
      as (body' & -> & Hscan').
    erewrite (parse_members_more_indent fuel (S level));
      [|exact Hscan'
       |rewrite skip_ws_dumps_indent; apply Hx; [lia | apply closes_number_comma]].
    assert (W : forall t, skip_ws (dumps_str k' ++ t) = dumps_str k' ++ t)
      by (intros t; reflexivity).
    rewrite W. cbn [snd] in Hy.
    rewrite <- !PyStrFacts.append_assoc.
    rewrite !PyStrFacts.append_assoc.
    rewrite IH; [|exact Hy|cbn [map list_sum fold_right]; lia].
    reflexivity.
Qed.

(** The indented text of every value reads back as the value. *)
Lemma parse_dumps_indent (v : value) : reads_back_indent v.
Proof.
  induction v as [|b|z|s|l IH|d IH] using value_induction;
    intros level fuel rest Hf C.
  - apply (parse_dumps VNone fuel rest Hf C).
  - apply (parse_dumps (VBool b) fuel rest Hf C).
  - apply (parse_dumps (VInt z) fuel rest Hf C).
  - apply (parse_dumps (VStr s) fuel rest Hf C).
  - destruct fuel as [|fuel]; [cbn in Hf; lia|].
    destruct l as [|x l]; [reflexivity|].
    inversion IH as [|? ? Hx Hl]; subst.
    cbn [dumps_indent]. rewrite !PyStrFacts.append_assoc.
    cbn [append parse_value head_is PyStr.drop].
    change (Ascii.eqb "[" PyStr.dquote) with false.
    change (Ascii.eqb "[" "{") with false.
    change (Ascii.eqb "[" "[") with true. cbv iota zeta.
    rewrite skip_ws_newline, skip_ws_dumps_indent, head_is_dumps_indent by reflexivity.
    cbn [weight] in Hf.
    rewrite parse_elems_indent; [reflexivity | exact Hl | exact Hx | lia].
  - destruct fuel as [|fuel]; [cbn in Hf; lia|].
    destruct d as [|[k x] d]; [reflexivity|].
    inversion IH as [|? ? Hx Hd]; subst. cbn [snd] in Hx.
    cbn [dumps_indent]. rewrite !PyStrFacts.append_assoc.
    cbn [append parse_value head_is PyStr.drop].
    change (Ascii.eqb "{" PyStr.dquote) with false.
    change (Ascii.eqb "{" "{") with true. cbv iota zeta.
    rewrite skip_ws_newline.
    assert (W : forall t, skip_ws (dumps_str k ++ t) = dumps_str k ++ t)
      by (intros t; reflexivity).
    rewrite W.
    assert (B : forall t, head_is "}" (dumps_str k ++ t) = false)
      by (intros t; reflexivity).
    rewrite B. cbn [weight] in Hf.
    refine (parse_members_indent d Hd k x level fuel rest [] Hx _). lia.
Qed.

Lemma length_newline (n : nat) : 1 <= String.length (newline n).
Proof. unfold newline. cbn [String.length]. lia. Qed.

Lemma weight_le_length_indent (v : value) :
  forall level : nat, weight v <= String.length (dumps_indent level v).
Proof.
  induction v as [|b|z|s|l IH|d IH] using value_induction; intros level.
  - apply (weight_le_length VNone).
  - apply (weight_le_length (VBool b)).
  - apply (weight_le_length (VInt z)).
  - apply (weight_le_length (VStr s)).
  - destruct l as [|x l]; [cbn; lia|].
    inversion IH as [|? ? Hx Hl]; subst.
    cbn [weight dumps_indent map list_sum fold_right].
    repeat (rewrite PyStrFacts.length_append; cbn [String.length]).
    assert (T : list_sum (map (fun x => S (weight x)) l)
                < String.length
                    (items_tail (dumps_indent (S level)) ("," ++ newline (S level))
                                (newline level ++ "]") l)).
    { clear Hx IH. induction Hl as [|y l Hy _ IHl].
      - cbn [map list_sum fold_right items_tail].
        rewrite PyStrFacts.length_append. cbn. lia.
      - cbn [map list_sum fold_right items_tail].
        repeat (rewrite PyStrFacts.length_append; cbn [String.length]).
        specialize (Hy (S level)). unfold list_sum in *. lia. }
    specialize (Hx (S level)). unfold list_sum in *. lia.
  - destruct d as [|[k x] d]; [cbn; lia|].
    inversion IH as [|? ? Hx Hd]; subst. cbn [snd] in Hx.
    cbn [weight dumps_indent map list_sum fold_right].
    repeat (rewrite PyStrFacts.length_append; cbn [String.length]).
    assert (T : list_sum (map (fun '(_, y) => S (weight y)) d)
                < String.length
                    (members_tail (dumps_indent (S level)) ("," ++ newline (S level))
                                  (newline level ++ "}") d)).
    { clear Hx IH. induction Hd as [|[k' y] d Hy _ IHd].
      - cbn [map list_sum fold_right members_tail].
        rewrite PyStrFacts.length_append. cbn. lia.
      - cbn [snd] in Hy.
        cbn [map list_sum fold_right members_tail].
        repeat (rewrite PyStrFacts.length_append; cbn [String.length]).
        specialize (Hy (S level)). unfold list_sum in *. lia. }
    specialize (Hx (S level)). unfold list_sum in *. lia.
Qed.

(** [json.loads(json.dumps(v, indent=2))] *)
Lemma loads_dumps_indent (v : value) : loads (dumps_indent 0 v) = Ok (normalize v).
Proof.
  unfold loads.
  pose proof (skip_ws_dumps_indent 0 v "") as W.
  rewrite PyStrFacts.append_nil_r in W. rewrite W.
  pose proof (parse_dumps_indent v 0 (S (String.length (dumps_indent 0 v))) "") as H.
  rewrite PyStrFacts.append_nil_r in H. rewrite H.
  - reflexivity.
  - pose proof (weight_le_length_indent v 0). lia.
  - split; reflexivity.
Qed.

End JsonIndentFacts.

Lemma normalize_strings (l : list string) :
  Json.normalize (VList (map VStr l)) = VList (map VStr l).
Proof.
  cbn [Json.normalize]. rewrite map_map. reflexivity.
Qed.

Lemma normalize_list_workflows (eng : WorkflowEngine) :
  Json.normalize (list_workflows_result eng) = list_workflows_result eng.
Proof.
  unfold list_workflows_result. cbn [Json.normalize]. rewrite map_map. f_equal.
  apply map_ext. intros [name definition].
  cbn [Json.normalize Json.set_all PyDict.set String.eqb Ascii.eqb Bool.eqb].
  rewrite map_map. reflexivity.
Qed.

(** X23.  The three tool entry points answer with a JSON text that
    [json.loads] reads back as the record it was made from: the summary of
    [trigger_workflow], the record of [get_workflow_execution] (found, not
    found or in error) and the list of [list_workflows], whatever
    characters the names, the trigger data and the payloads hold. *)
Theorem tool_answers_are_json_texts_of_their_records
        (findall : string -> bool -> string -> list string)
        (eng : WorkflowEngine) (wf_name event : string) (data : dict) (id : string) :
  Json.loads (snd (trigger_workflow findall eng wf_name event data))
  = Ok (snd (trigger_workflow_result findall eng wf_name event data))
  /\ Json.loads (get_workflow_execution eng id)
     = Ok (Json.normalize (get_workflow_execution_result eng id))
  /\ Json.loads (list_workflows eng) = Ok (list_workflows_result eng).
Proof.
  split; [|split].
  - unfold trigger_workflow.
    destruct (trigger_workflow_result findall eng wf_name event data) as [eng' r] eqn:E.
    cbn [snd]. rewrite JsonIndentFacts.loads_dumps_indent. f_equal.
    unfold trigger_workflow_result in E.
    destruct (execute_workflow findall eng wf_name event data) as [eng'' run].
    injection E as _ <-. reflexivity.
  - apply JsonIndentFacts.loads_dumps_indent.
  - unfold list_workflows. rewrite JsonIndentFacts.loads_dumps_indent.
    rewrite normalize_list_workflows. reflexivity.
Qed.

Lemma list_workflows_names (table : list (string * WorkflowDef)) (name : string) :
  In (Some (VStr name))
     (map (fun p : string * WorkflowDef => Some (VStr (fst p))) table)
  <-> PyDict.lookup table name <> None.
Proof.
  induction table as [|[k def] table IH]; cbn [map In PyDict.lookup fst].
  - split; [intros [] | intros H; apply H; reflexivity].
  - destruct (String.eqb_spec k name) as [->|Hne].
    + split; [discriminate | left; reflexivity].
    + rewrite <- IH. split; [|right; assumption].
      intros [E|H]; [injection E as E; contradiction | exact H].
Qed.

(** X24.  [list_workflows] lists the definition store: one record for each
    definition, in the order of the store, with its name and the number of
    its steps.  A name is listed exactly when the store has a definition
    for it, so a run of a name that is not listed fails without a step. *)
Theorem list_workflows_lists_what_can_be_run
        (findall : string -> bool -> string -> list string)
        (eng : WorkflowEngine) :
  exists records : list value,
    list_workflows_result eng = VList records
    /\ map (fun r => record_field r "name") records
       = map (fun p => Some (VStr (fst p))) eng.(workflows)
    /\ map (fun r => record_field r "steps_count") records
       = map (fun p => Some (VInt (Z.of_nat (List.length (snd p).(steps)))))
             eng.(workflows)
    /\ (forall name : string,
           In (Some (VStr name)) (map (fun r => record_field r "name") records)
           <-> PyDict.lookup eng.(workflows) name <> None)
    /\ (forall (name event : string) (data : dict),
           ~ In (Some (VStr name)) (map (fun r => record_field r "name") records) ->
           let run := snd (execute_workflow findall eng name event data) in
           run.(status) = "failed" /\ run.(steps_completed) = []).
Proof.
  eexists. split; [reflexivity|].
  assert (Names : map (fun r => record_field r "name")
                      (map (fun '(name, definition) =>
                              VDict [("name", VStr name);
                                     ("description", VStr definition.(description));
                                     ("triggers", VList (map VStr definition.(triggers)));
                                     ("steps_count",
                                      VInt (Z.of_nat (List.length definition.(steps))))])
                           eng.(workflows))
                  = map (fun p => Some (VStr (fst p))) eng.(workflows)).
  { rewrite map_map. apply map_ext. intros [name definition]. reflexivity. }
  split; [exact Names|]. split.
  { rewrite map_map. apply map_ext. intros [name definition]. reflexivity. }
  rewrite Names. split.
  - intros name. apply list_workflows_names.
  - intros name event data Hnot.
    apply execute_workflow_unknown.
    destruct (PyDict.lookup (workflows eng) name) eqn:L; [|reflexivity].
    exfalso. apply Hnot, list_workflows_names. rewrite L. discriminate.
Qed.

Lemma list_workflows_lists_what_can_be_run_witness :
  list_workflows (example_engine []) = "[]"
  /\ exists records : list value,
      list_workflows_result
        (example_engine [("triage", triage_workflow); ("gated", gated_workflow)])
      = VList records
      /\ map (fun r => record_field r "name") records
         = [Some (VStr "triage"); Some (VStr "gated")]
      /\ map (fun r => record_field r "steps_count") records
         = [Some (VInt 3); Some (VInt 3)].
Proof.
  split; [reflexivity|].
  destruct (list_workflows_lists_what_can_be_run findall_nothing
              (example_engine [("triage", triage_workflow); ("gated", gated_workflow)]))
    as (records & E & N & C & _).
  exists records. split; [exact E|]. split; [exact N | exact C].
Defined.

(** ** Conditions on the trigger data *)

Module ReprFacts.

Lemma repr_dict (d : list (string * value)) :
  PyVal.repr (VDict d) = "{" ++ repr_items d ++ "}".
Proof.
  reflexivity.
Qed.

(** The keys of a dictionary are in its printed form. *)
Lemma key_in_repr_items (d : list (string * value)) (key : string) :
  In key (map fst d) ->
  exists a b, repr_items d = a ++ PyVal.repr_str key ++ b.
Proof.
  induction d as [|[k x] rest IH]; [intros []|].
  cbn [map fst In]. intros [->|Hin].
  - exists EmptyString. destruct rest as [|p rest]; cbn [repr_items];
      eexists; reflexivity.
  - destruct (IH Hin) as (a & b & E).
    destruct rest as [|p rest]; [destruct Hin|].
    exists (PyVal.repr_str k ++ ": " ++ PyVal.repr x ++ ", " ++ a), b.
    change (repr_items ((k, x) :: p :: rest))
      with (PyVal.repr_str k ++ ": " ++ PyVal.repr x ++ ", " ++ repr_items (p :: rest)).
    rewrite E, !PyStrFacts.append_assoc. reflexivity.
Qed.

Lemma key_char_repr (c : ascii) :
  key_char c = true ->
  PyVal.repr_char "'" c = String c EmptyString /\ Ascii.eqb "'" c = false.
Proof.
  destruct c as [[] [] [] [] [] [] [] []]; intros H; try discriminate H;
    split; reflexivity.
Qed.

(** A key of plain characters is printed between single quotes. *)
Lemma repr_str_key (key : string) :
  all_chars key_char key = true -> PyVal.repr_str key = "'" ++ key ++ "'".
Proof.
  intros H.
  assert (Hq : PyStr.mem_char "'" key = false /\ PyVal.repr_chars "'" key = key).
  { induction key as [|c key IH]; [split; reflexivity|].
    cbn [all_chars] in H. apply andb_true_iff in H. destruct H as [Hc Hk].
    destruct (key_char_repr c Hc) as [E1 E2]. destruct (IH Hk) as [M R].
    cbn [PyStr.mem_char PyVal.repr_chars]. rewrite E1, E2, M, R. split; reflexivity. }
  destruct Hq as [M R]. unfold PyVal.repr_str. rewrite M. cbn [andb].
  rewrite R. reflexivity.
Qed.

Lemma prefix_split (p s : string) :
  String.prefix p s = true -> exists rest, s = p ++ rest.
Proof.
  revert s. induction p as [|c p IH]; intros s H.
  - exists s. reflexivity.
  - destruct s as [|x s]; [discriminate H|].
    cbn [String.prefix] in H. destruct (ascii_dec c x) as [->|_]; [|discriminate H].
    destruct (IH s H) as (rest & ->). exists rest. reflexivity.
Qed.

Lemma contains_split (sub s : string) :
  PyStr.contains sub s = true -> exists a b, s = a ++ sub ++ b.
Proof.
  induction s as [|x s IH]; cbn [PyStr.contains].
  - destruct (String.prefix sub "") eqn:P; [|discriminate].
    intros _. destruct (prefix_split _ _ P) as (rest & E).
    exists EmptyString, rest. exact E.
  - destruct (String.prefix sub (String x s)) eqn:P.
    + intros _. destruct (prefix_split _ _ P) as (rest & E).
      exists EmptyString, rest. exact E.
    + intros H. destruct (IH H) as (a & b & ->).
      exists (String x a), b. reflexivity.
Qed.

(** What a text holds, a longer text around it holds. *)
Lemma contains_inside (sub a s b : string) :
  PyStr.contains sub s = true -> PyStr.contains sub (a ++ s ++ b) = true.
Proof.
  intros H. destruct (contains_split _ _ H) as (a' & b' & ->).
  rewrite !PyStrFacts.append_assoc, <- (PyStrFacts.append_assoc a a').
  apply PyStrFacts.contains_append.
Qed.

End ReprFacts.

(** X25.  A [LIKE] condition of a step on the field [trigger_data] is
    matched against the printed form of the whole dictionary, so it looks
    at the keys as well as at the values: it holds as soon as a key of the
    trigger data holds the pattern, whatever the values are. *)
Theorem like_on_trigger_data_matches_on_keys
        (step : Step) (c pattern p key : string) (context : Context) :
  step.(conditions) = [c] ->
  Re.match_groups LIKE_PATTERN c = Ok (Some [Some "trigger_data"; Some pattern]) ->
  plain p = true ->
  pattern = p \/ pattern = "%" ++ p ++ "%" ->
  In key (map fst context.(ctx_trigger_data)) ->
  all_chars key_char key = true ->
  PyStr.contains (PyStr.lower p) (PyStr.lower key) = true ->
  passes_gate step context = Ok true.
Proof.
  intros Hconditions Hgroups Hp Hpattern Hkey Hchars Hfound.
  unfold passes_gate. rewrite Hconditions, match_conditions_single.
  rewrite (check_condition_like c "trigger_data" pattern _ Hgroups).
  change (PyDict.get (context_dict context) "trigger_data" (VStr ""))
    with (VDict context.(ctx_trigger_data)).
  cbn [PyVal.str].
  assert (Found : PyStr.contains (PyStr.lower p)
                    (PyStr.lower (PyVal.repr (VDict context.(ctx_trigger_data))))
                  = true).
  { rewrite ReprFacts.repr_dict.
    destruct (ReprFacts.key_in_repr_items _ _ Hkey) as (a & b & ->).
    rewrite (ReprFacts.repr_str_key key Hchars).
    rewrite !PlainFacts.lower_append, !PyStrFacts.append_assoc.
    rewrite <- (PyStrFacts.append_assoc (PyStr.lower "{") (PyStr.lower a)).
    rewrite <- (PyStrFacts.append_assoc (PyStr.lower "{" ++ PyStr.lower a)
                  (PyStr.lower "'")).
    apply ReprFacts.contains_inside. exact Hfound. }
  pose proof (PlainFacts.plain_lower p Hp) as Hlower.
  destruct Hpattern as [-> | ->].
  - rewrite (PlainFacts.replace_plain p Hp), (PlainFacts.search_plain _ _ Hlower).
    rewrite Found. reflexivity.
  - rewrite (like_pattern_wild p Hp), (PlainFacts.search_wild_plain _ _ Hlower).
    rewrite Found. reflexivity.
Qed.

Lemma like_on_trigger_data_matches_on_keys_witness :
  passes_gate {| name := "file"; tool := "vision_extract_invoice"; params := [];
                 conditions := ["trigger_data LIKE '%invoice%'"] |}
              {| ctx_trigger_data := [("subject", VStr "hello"); ("Invoice_id", VNone)];
                 ctx_execution_results := [] |}
  = Ok true.
Proof.
  apply (like_on_trigger_data_matches_on_keys
           {| name := "file"; tool := "vision_extract_invoice"; params := [];
              conditions := ["trigger_data LIKE '%invoice%'"] |}
           "trigger_data LIKE '%invoice%'" "%invoice%" "invoice" "Invoice_id");
    try reflexivity.
  - right. reflexivity.
  - right. left. reflexivity.
Defined.

